(** * InternLM storage manager: a shallow embedding and its verification

    The development models [internlm/utils/storage_manager.py]: the path
    resolver ([_get_client], [get_boto3_meta], [get_local_meta]), the two
    storage clients ([Boto3Client], [LocalClient]), the process-wide client
    cache ([CLI_DICT]) and the [StorageManager] facade with its asynchronous
    upload bookkeeping ([async_executor], [_sync_tasks], [wait]).

    Python methods mutate [self] and the process around it (file system,
    environment, object store) and may raise.  They are embedded as functions
    in a state-and-exception monad: a computation takes the state and
    returns either a value or the raised exception, together with the state
    reached at that point (mutations made before a [raise] persist).

    Outside the source, and taken as the environment: the file system, the
    S3-compatible store, the clock, the process id, the host name and the
    rank of the process ([gpc.is_rank_for_log()]).  Logging is not
    modelled, except where formatting a log message can raise.  The
    exception hierarchy is that of Python 3.8 and later. *)

From Stdlib Require Import ZArith QArith String Ascii List Bool Lia DecimalString.
From stdpp Require Import base option gmap strings list.

(** ** Python [str] operations used by the source

    Strings are byte strings; the separators the source uses ([":"], ["/"])
    are single characters. *)

Module PyStr.

Definition in_chars (c : ascii) (chars : string) : bool :=
  existsb (Ascii.eqb c) (list_ascii_of_string chars).

(** [s.lstrip(chars)]: drops leading characters that belong to the
    character SET [chars] (not a prefix). *)
Fixpoint lstrip (chars s : string) : string :=
  match s with
  | EmptyString => EmptyString
  | String a r => if in_chars a chars then lstrip chars r else s
  end.

(** [s.rstrip(chars)] *)
Fixpoint rstrip (chars s : string) : string :=
  match s with
  | EmptyString => EmptyString
  | String a r =>
      match rstrip chars r with
      | EmptyString => if in_chars a chars then EmptyString else String a EmptyString
      | r' => String a r'
      end
  end.

(** [s.startswith(p)] *)
Fixpoint startswith (p s : string) : bool :=
  match p with
  | EmptyString => true
  | String a p' =>
      match s with
      | EmptyString => false
      | String b s' => Ascii.eqb a b && startswith p' s'
      end
  end.

(** [s.endswith(p)] *)
Definition endswith (p s : string) : bool :=
  (String.length p <=? String.length s)%nat &&
  String.eqb (substring (String.length s - String.length p) (String.length p) s) p.

(** [s.split(c)]: always at least one field. *)
Fixpoint split (c : ascii) (s : string) : list string :=
  match s with
  | EmptyString => [EmptyString]
  | String a r =>
      if Ascii.eqb a c then EmptyString :: split c r
      else match split c r with
           | h :: t => String a h :: t
           | [] => [String a EmptyString]
           end
  end.

(** [s.split(c, maxsplit=1)]: [[s]] when [c] does not occur, otherwise the
    text before and after its first occurrence. *)
Fixpoint split_max1 (c : ascii) (s : string) : list string :=
  match s with
  | EmptyString => [EmptyString]
  | String a r =>
      if Ascii.eqb a c then [EmptyString; r]
      else match split_max1 c r with
           | [h; t] => [String a h; t]
           | _ => [s]
           end
  end.

(** [s.rsplit(c, maxsplit=1)]: [[s]] when [c] does not occur, otherwise the
    text before and after its last occurrence. *)
Fixpoint rsplit_max1 (c : ascii) (s : string) : list string :=
  match s with
  | EmptyString => [EmptyString]
  | String a r =>
      match rsplit_max1 c r with
      | [h; t] => [String a h; t]
      | _ => if Ascii.eqb a c then [EmptyString; r] else [s]
      end
  end.

(** [sep.join(l)] *)
Fixpoint join (sep : string) (l : list string) : string :=
  match l with
  | [] => EmptyString
  | [x] => x
  | x :: t => x +:+ sep +:+ join sep t
  end.

(** Longest prefix whose characters satisfy [p], and the rest. *)
Fixpoint span (p : ascii -> bool) (s : string) : string * string :=
  match s with
  | EmptyString => (EmptyString, EmptyString)
  | String a r =>
      if p a then let '(h, t) := span p r in (String a h, t)
      else (EmptyString, s)
  end.

Definition all_chars (p : ascii -> bool) (s : string) : bool :=
  forallb p (list_ascii_of_string s).

(** [str(n)] for an integer. *)
Definition str_of_Z (z : Z) : string := NilZero.string_of_int (Z.to_int z).

End PyStr.

(** ** [os.path] (posixpath) *)

Module OsPath.

Definition sep : ascii := "/"%char.

(** [os.path.join(a, b)] *)
Definition join (a b : string) : string :=
  if PyStr.startswith "/" b then b
  else if (String.eqb a "" || PyStr.endswith "/" a)%bool then a +:+ b
  else a +:+ "/" +:+ b.

(** [os.path.dirname(p)]: the head up to the last slash, with trailing
    slashes removed unless the head consists of slashes only. *)
Definition dirname (p : string) : string :=
  let head := match PyStr.rsplit_max1 sep p with
              | [h; _] => h +:+ "/"
              | _ => ""
              end in
  if (negb (String.eqb head "") && negb (PyStr.all_chars (Ascii.eqb sep) head))%bool
  then PyStr.rstrip "/" head
  else head.

End OsPath.

(** ** Exceptions and the state-and-exception monad *)

Inductive exc_class :=
  | RuntimeError | AttributeError | TypeError | IndexError | KeyError | ValueError
  | AssertionError | NotImplementedError | SystemError
  | FileNotFoundError | FileExistsError | IsADirectoryError | NotADirectoryError
  | PermissionError
  | InvalidStateError | CancelledError
  | EndpointConnectionError | ClientError.

#[global] Instance exc_class_eq_dec : EqDecision exc_class.
Proof. solve_decision. Defined.

(** Subclasses of [OSError]. *)
Definition is_OSError (c : exc_class) : bool :=
  match c with
  | FileNotFoundError | FileExistsError | IsADirectoryError | NotADirectoryError
  | PermissionError => true
  | _ => false
  end.

(** Subclasses of [Exception].  [asyncio.CancelledError] derives from
    [BaseException] (Python 3.8 and later), so [except Exception] lets it
    through. *)
Definition is_Exception (c : exc_class) : bool :=
  match c with
  | CancelledError => false
  | _ => true
  end.

Record exn := Exn { exn_class : exc_class; exn_msg : string }.

Inductive result (A : Type) :=
  | Ok (a : A)
  | Raise (e : exn).
Arguments Ok {A} a.
Arguments Raise {A} e.

Definition is_ok {A} (r : result A) : bool :=
  match r with Ok _ => true | Raise _ => false end.

Definition raised_class {A} (r : result A) : option exc_class :=
  match r with Ok _ => None | Raise e => Some (exn_class e) end.

(** A computation over a state [S]. *)
Definition M (S A : Type) : Type := S -> result A * S.

Definition ret {S A} (a : A) : M S A := fun s => (Ok a, s).
Definition raise {S A} (c : exc_class) (msg : string) : M S A :=
  fun s => (Raise (Exn c msg), s).
Definition reraise {S A} (e : exn) : M S A := fun s => (Raise e, s).
Definition bind {S A B} (m : M S A) (k : A -> M S B) : M S B :=
  fun s => match m s with
           | (Ok a, s') => k a s'
           | (Raise e, s') => (Raise e, s')
           end.
Definition get {S} : M S S := fun s => (Ok s, s).
Definition gets {S A} (f : S -> A) : M S A := fun s => (Ok (f s), s).
Definition modify {S} (f : S -> S) : M S unit := fun s => (Ok tt, f s).

(** [try: m  except <classes accepted by handles>: h e]; other exceptions
    propagate. *)
Definition try_except {S A} (m : M S A) (handles : exc_class -> bool)
    (h : exn -> M S A) : M S A :=
  fun s => match m s with
           | (Ok a, s') => (Ok a, s')
           | (Raise e, s') => if handles (exn_class e) then h e s' else (Raise e, s')
           end.

(** [assert c, msg] *)
Definition assert {S} (c : bool) (msg : string) : M S unit :=
  if c then ret tt else raise AssertionError msg.

Declare Scope py_scope.
Delimit Scope py_scope with py.
Notation "x <- m ;; k" := (bind m (fun x => k))
  (at level 100, m at next level, right associativity) : py_scope.
Notation "m ;;; k" := (bind m (fun _ => k))
  (at level 100, right associativity) : py_scope.
Open Scope py_scope.

(** [for x in l: body x], stopping at the first exception. *)
Fixpoint for_each {S A} (l : list A) (body : A -> M S unit) : M S unit :=
  match l with
  | [] => ret tt
  | x :: r => body x ;;; for_each r body
  end.

(** Every run of [m] ends in a state related by [R] to the one it started
    in, whether it returns or raises. *)
Definition respects {S A} (R : relation S) (m : M S A) : Prop :=
  forall s, R s (m s).2.

(** Whenever [m] returns, the value it returns satisfies [Q]. *)
Definition returns_only {S A} (Q : A -> Prop) (m : M S A) : Prop :=
  forall s a s', m s = (Ok a, s') -> Q a.

(** ** Storage clients as objects

    Every constructed client is a fresh Python object; [oid] is its
    identity.  [Boto3Client.__init__] also builds the boto3 connection and
    the transfer configuration (8 MB chunks, concurrency 10, 100 MB
    multipart threshold), which no operation below inspects. *)

Inductive Client :=
  | Boto3Client (oid : nat) (s3_endpoint_url : string) (key_id secret : string)
  | LocalClient (oid : nat).

Definition client_oid (c : Client) : nat :=
  match c with
  | Boto3Client o _ _ _ => o
  | LocalClient o => o
  end.

Global Instance Client_eq_dec : EqDecision Client.
Proof. solve_decision. Defined.

(** ** The process around the manager *)

(** A file-system entry, with the answers [os.access] gives the current
    user. *)
Record node := Node {
  is_dir : bool;
  content : string;
  owned : bool;
  readable : bool;
  writable : bool;
}.

Definition new_dir : node := Node true "" true true true.
Definition new_file (data : string) : node := Node false data true true true.

Record Proc := mkProc {
  fs : gmap string node;               (* entries by normalised path *)
  environ : gmap string string;        (* os.environ *)
  hostname : string;                   (* socket.gethostname() *)
  pid : Z;                             (* os.getpid() *)
  now : string;                        (* datetime.now().strftime("%b%d_%H-%M-%S") *)
  statvfs : string -> Z * Z;           (* os.statvfs: (f_bavail, f_bsize) *)
  rank_for_log : bool;                 (* gpc.is_rank_for_log() *)
  CLI_DICT : gmap string Client;       (* StorageManager.CLI_DICT, a class attribute *)
  next_oid : nat;                      (* identity of the next object created *)
  s3_objects : gmap (string * string * string) string;
                                       (* (endpoint url, bucket, key) to content *)
  s3_down : string -> bool;            (* endpoints that cannot be reached *)
}.

Definition set_fs (f : gmap string node -> gmap string node) (p : Proc) : Proc :=
  mkProc (f (fs p)) (environ p) (hostname p) (pid p) (now p) (statvfs p)
         (rank_for_log p) (CLI_DICT p) (next_oid p) (s3_objects p) (s3_down p).

Definition set_CLI_DICT (f : gmap string Client -> gmap string Client) (p : Proc) : Proc :=
  mkProc (fs p) (environ p) (hostname p) (pid p) (now p) (statvfs p)
         (rank_for_log p) (f (CLI_DICT p)) (next_oid p) (s3_objects p) (s3_down p).

Definition set_next_oid (n : nat) (p : Proc) : Proc :=
  mkProc (fs p) (environ p) (hostname p) (pid p) (now p) (statvfs p)
         (rank_for_log p) (CLI_DICT p) n (s3_objects p) (s3_down p).

Definition set_s3_objects
    (f : gmap (string * string * string) string -> gmap (string * string * string) string)
    (p : Proc) : Proc :=
  mkProc (fs p) (environ p) (hostname p) (pid p) (now p) (statvfs p)
         (rank_for_log p) (CLI_DICT p) (next_oid p) (f (s3_objects p)) (s3_down p).

(** ** The [os] module over the modelled file system *)

Module Os.

(** Paths are looked up without their trailing slashes.  For a directory
    this is what the operating system does.  A regular file addressed
    with a trailing slash is refused by the operating system ([ENOTDIR]);
    the embedding does not follow it there. *)
Definition norm (p : string) : string :=
  if (negb (String.eqb p "") && PyStr.all_chars (Ascii.eqb "/") p)%bool then "/"
  else PyStr.rstrip "/" p.

Definition lookup (p : string) (pr : Proc) : option node := fs pr !! norm p.

Definition basename (p : string) : string := List.last (PyStr.split "/" p) "".

(** [os.path.exists] *)
Definition exists_ (p : string) : M Proc bool :=
  gets (fun pr => bool_decide (is_Some (lookup p pr))).

(** [os.path.isdir] *)
Definition isdir (p : string) : M Proc bool :=
  gets (fun pr => match lookup p pr with Some n => is_dir n | None => false end).

(** [os.access(p, os.W_OK)] and [os.access(p, os.R_OK)] *)
Definition access_W (p : string) : M Proc bool :=
  gets (fun pr => match lookup p pr with Some n => writable n | None => false end).
Definition access_R (p : string) : M Proc bool :=
  gets (fun pr => match lookup p pr with Some n => readable n | None => false end).

(** [os.remove]: a missing path raises [FileNotFoundError], a directory
    [IsADirectoryError], a file in a directory that may not be written
    [PermissionError]. *)
Definition remove (p : string) : M Proc unit :=
  pr <- get ;;
  match lookup p pr with
  | None => raise FileNotFoundError p
  | Some n =>
      if is_dir n then raise IsADirectoryError p
      else match lookup (OsPath.dirname p) pr with
           | Some d => if writable d then modify (set_fs (delete (norm p)))
                       else raise PermissionError p
           | None => modify (set_fs (delete (norm p)))
           end
  end.

(** [os.listdir] *)
Definition listdir (d : string) : M Proc (list string) :=
  pr <- get ;;
  match lookup d pr with
  | None => raise FileNotFoundError d
  | Some n =>
      if negb (is_dir n) then raise NotADirectoryError d
      else if negb (readable n) then raise PermissionError d
      else ret (basename <$>
                  filter (fun k => k ≠ norm d ∧ norm (OsPath.dirname k) = norm d)
                         (fst <$> map_to_list (fs pr)))
  end.

(** [os.makedirs(p, exist_ok=True)]; missing ancestors are not tracked. *)
Definition makedirs (p : string) : M Proc unit :=
  pr <- get ;;
  match lookup p pr with
  | Some n => if is_dir n then ret tt else raise FileExistsError p
  | None => modify (set_fs (insert (norm p) new_dir))
  end.

(** [os.chmod(p, stat.S_IRWXU | stat.S_IRWXG | stat.S_IRWXO)] *)
Definition chmod_rwx (p : string) : M Proc unit :=
  pr <- get ;;
  match lookup p pr with
  | None => raise FileNotFoundError p
  | Some n =>
      if owned n
      then modify (set_fs (insert (norm p) (Node (is_dir n) (content n) true true true)))
      else raise PermissionError p
  end.

(** [with open(p, "wb") as f: f.write(data)] *)
Definition write_file (p : string) (data : string) : M Proc unit :=
  pr <- get ;;
  match lookup p pr with
  | Some n =>
      if is_dir n then raise IsADirectoryError p
      else if writable n
           then modify (set_fs (insert (norm p)
                                  (Node false data (owned n) (readable n) true)))
           else raise PermissionError p
  | None =>
      match lookup (OsPath.dirname p) pr with
      | None => raise FileNotFoundError p
      | Some d =>
          if negb (is_dir d) then raise NotADirectoryError p
          else if writable d then modify (set_fs (insert (norm p) (new_file data)))
               else raise PermissionError p
      end
  end.

(** [with open(p, "rb") as f: f.read()] *)
Definition read_file (p : string) : M Proc string :=
  pr <- get ;;
  match lookup p pr with
  | None => raise FileNotFoundError p
  | Some n =>
      if is_dir n then raise IsADirectoryError p
      else if readable n then ret (content n) else raise PermissionError p
  end.

End Os.

(** ** Operation contexts ([Boto3MetaInfo], [LocalMetaInfo]) *)

(** The upload function a context refers to; the source has one,
    [Boto3Client.async_upload_fileobj]. *)
Inductive async_fn := async_upload_fileobj.

Record Boto3MetaInfo := mkBoto3Meta {
  b_is_async : bool;
  b_client : option Client;         (* None is Python's None *)
  bucket_name : string;
  endpoint : string;
  file_path : string;
  b_async_upload_fn : async_fn;
  local_nvme_path : string;
}.

(** [LocalMetaInfo] has [is_async = False] and [async_upload_fn = None]. *)
Record LocalMetaInfo := mkLocalMeta {
  l_client : option Client;
  dest_path : string;
}.

Inductive MetaInfo :=
  | Boto3Meta (m : Boto3MetaInfo)
  | LocalMeta (m : LocalMetaInfo).

Definition meta_client (meta : MetaInfo) : option Client :=
  match meta with
  | Boto3Meta m => b_client m
  | LocalMeta m => l_client m
  end.

(** [meta_info.client = c] *)
Definition set_meta_client (c : Client) (meta : MetaInfo) : MetaInfo :=
  match meta with
  | Boto3Meta m =>
      Boto3Meta (mkBoto3Meta (b_is_async m) (Some c) (bucket_name m) (endpoint m)
                             (file_path m) (b_async_upload_fn m) (local_nvme_path m))
  | LocalMeta m => LocalMeta (mkLocalMeta (Some c) (dest_path m))
  end.

(** Positional arguments produced by [unpack_meta]. *)
Inductive pyarg :=
  | AClient (c : option Client)
  | AStr (s : string).

(** [unpack_meta]: the attribute values in definition order, without
    [endpoint], [async_upload_fn] and [is_async], and without
    [local_nvme_path] when the context is not asynchronous. *)
Definition unpack_meta (meta : MetaInfo) : list pyarg :=
  match meta with
  | Boto3Meta m =>
      [AClient (b_client m); AStr (bucket_name m); AStr (file_path m)]
      ++ (if b_is_async m then [AStr (local_nvme_path m)] else [])
  | LocalMeta m => [AClient (l_client m); AStr (dest_path m)]
  end.

(** ** Path resolution *)

(** [[\d\.]] on a character below 256: among these the decimal digits are
    the ASCII ones. *)
Definition is_digit_or_dot (c : ascii) : bool :=
  let n := nat_of_ascii c in
  ((48 <=? n)%nat && (n <=? 57)%nat) || Ascii.eqb c ".".

(** [boto3_url_re.match(s)] for [boto3_url_re = ([^\.]+)\.([\d\.]+)]: the
    groups are the longest run of characters other than a dot, and, after
    one dot, the longest run of digits and dots; both must be non-empty.
    Shorter first groups cannot match, because the character after them
    is not a dot. *)
Definition boto3_url_re_match (s : string) : option (string * string) :=
  let '(g1, r1) := PyStr.span (fun c => negb (Ascii.eqb c ".")) s in
  match g1, r1 with
  | String _ _, String c r2 =>
      if Ascii.eqb c "."
      then let '(g2, _) := PyStr.span is_digit_or_dot r2 in
           match g2 with
           | EmptyString => None
           | _ => Some (g1, g2)
           end
      else None
  | _, _ => None
  end.

Definition get_tmp_file_name (tmp_local_folder fp : string) : M Proc string :=
  pr <- get ;;
  let base_path := OsPath.join tmp_local_folder (List.last (PyStr.split "/" fp) "") in
  let current_time := now pr in
  ret (PyStr.join "-" [base_path; current_time; PyStr.str_of_Z (pid pr)] +:+ ".tmpfile").

Definition get_boto3_meta (fp tmp_local_folder : string) (is_async : bool)
    : M Proc Boto3MetaInfo :=
  assert (PyStr.startswith "s3://" fp) ("Path '" +:+ fp +:+ "' is not a boto3 url") ;;;
  let parts := PyStr.split OsPath.sep (PyStr.lstrip "s3://" fp) in
  match boto3_url_re_match (List.hd "" parts) with
  | None => raise AssertionError ("url '" +:+ fp +:+ "' is not a valid boto3 url")
  | Some (bucket, host) =>
      let endpoint := "http://" +:+ host +:+ ":80" in
      tmp_step_file <- get_tmp_file_name tmp_local_folder fp ;;
      ret (mkBoto3Meta is_async None bucket endpoint
                       (PyStr.join "/" (List.tl parts))
                       async_upload_fileobj tmp_step_file)
  end.

Definition get_local_meta (fp : string) : M Proc LocalMetaInfo :=
  assert (negb (PyStr.startswith "s3://" fp)) ("Path '" +:+ fp +:+ "' is not a local path") ;;;
  ret (mkLocalMeta None fp).

(** ** Client construction *)

Definition fresh_oid : M Proc nat :=
  pr <- get ;;
  modify (set_next_oid (S (next_oid pr))) ;;;
  ret (next_oid pr).

Definition environ_get (k : string) : M Proc string :=
  pr <- get ;;
  match environ pr !! k with
  | Some v => ret v
  | None => raise KeyError k
  end.

(** [Boto3Client.__init__(s3_endpoint_url)] *)
Definition Boto3Client_init (s3_endpoint_url : string) : M Proc Client :=
  keys <- try_except
            (k <- environ_get "S3_ACCESS_KEY_ID" ;;
             s <- environ_get "S3_SECRET_ACCESS_KEY_ID" ;;
             ret (k, s))
            (fun c => match c with KeyError => true | _ => false end)
            (fun _ => raise RuntimeError
               "Please set boto3 bucket 'S3_ACCESS_KEY_ID' and 'S3_SECRET_ACCESS_KEY_ID' using environment variable!") ;;
  o <- fresh_oid ;;
  ret (Boto3Client o s3_endpoint_url (fst keys) (snd keys)).

(** [LocalClient.__init__(None)] *)
Definition LocalClient_init : M Proc Client :=
  o <- fresh_oid ;;
  ret (LocalClient o).

(** ** The S3-compatible store behind boto3

    The service is outside the source; this is the part of its behaviour
    the clients rely on.  A listing answers in pages of at most 1000
    objects; a page of an empty listing has no ["Contents"] entry. *)

Module S3.

(** A response page: [None] when the page has no ["Contents"] key,
    otherwise the ["Key"] of every object of the page. *)
Definition page : Type := option (list string).

Fixpoint chunks_fuel {A} (fuel n : nat) (l : list A) : list (list A) :=
  match fuel, l with
  | 0%nat, _ | _, [] => []
  | S f, _ => take n l :: chunks_fuel f n (drop n l)
  end.

Definition chunks {A} (n : nat) (l : list A) : list (list A) :=
  chunks_fuel (length l) n l.

(** The keys of the objects of a bucket that start with a prefix, in the
    order of the map.  The service lists them in ascending order of their
    bytes; the order within a listing is left open here. *)
Definition matching (ep bucket prefix : string) (pr : Proc) : list string :=
  omap (fun kv : string * string * string * string =>
          let '(e, b, k, _) := kv in
          if (bool_decide (e = ep) && bool_decide (b = bucket)
              && PyStr.startswith prefix k)%bool
          then Some k else None)
       (map_to_list (s3_objects pr)).

Definition reach (ep : string) : M Proc unit :=
  pr <- get ;;
  if s3_down pr ep then raise EndpointConnectionError ep else ret tt.

(** [client.get_paginator("list_objects_v2").paginate(Bucket, Prefix)] *)
Definition paginate (ep bucket prefix : string) : M Proc (list page) :=
  reach ep ;;;
  pr <- get ;;
  match matching ep bucket prefix pr with
  | [] => ret [None]
  | l => ret (Some <$> chunks 1000 l)
  end.

(** [client.list_objects(Bucket, Prefix)]: the first page only. *)
Definition list_objects (ep bucket prefix : string) : M Proc page :=
  reach ep ;;;
  pr <- get ;;
  match matching ep bucket prefix pr with
  | [] => ret None
  | l => ret (Some (take 1000 l))
  end.

Definition upload_fileobj (ep bucket key data : string) : M Proc unit :=
  reach ep ;;;
  modify (set_s3_objects (insert (ep, bucket, key) data)).

Definition download_fileobj (ep bucket key : string) : M Proc string :=
  reach ep ;;;
  pr <- get ;;
  match s3_objects pr !! (ep, bucket, key) with
  | Some data => ret data
  | None => raise ClientError "An error occurred (404) when calling the HeadObject operation: Not Found"
  end.

End S3.

(** The serializer ([torch.save] / [torch.load]) is opaque: an object is
    identified with its serialized bytes, [None] with the empty stream. *)
Definition torch_save (saved_obj : option string) : string := default "" saved_obj.
Definition torch_load (data : string) : string := data.

(** ** [Boto3Client] *)

Definition is_class (c : exc_class) : exc_class -> bool :=
  fun c' => bool_decide (c' = c).

(** [handler.client] of a [Boto3Client]: identified by its endpoint. *)
Definition boto3_connection (handler : option Client) : M Proc string :=
  match handler with
  | Some (Boto3Client _ ep _ _) => ret ep
  | Some (LocalClient _) => raise AttributeError "'NoneType' object has no attribute 'client'"
  | None => raise AttributeError "'NoneType' object has no attribute 'client'"
  end.

Definition network_error {A} : exn -> M Proc A :=
  fun _ => pr <- get ;;
           raise RuntimeError
             ("Boto3 Network Error: Please Check your Internet Connection in " +:+ hostname pr).

Definition Boto3Client_sync_upload_fileobj (handler : option Client)
    (bucket_name fp local_nvme_path : string) (saved_obj : option string) : M Proc unit :=
  assert (bool_decide (is_Some saved_obj)) "saved_obj is None!" ;;;
  try_except
    (ep <- boto3_connection handler ;;
     S3.upload_fileobj ep bucket_name fp (torch_save saved_obj))
    (is_class EndpointConnectionError) network_error.

Definition Boto3Client_load (handler : option Client)
    (bucket_name fp local_nvme_path : string) : M Proc string :=
  try_except
    (ep <- boto3_connection handler ;;
     data <- S3.download_fileobj ep bucket_name fp ;;
     ret (torch_load data))
    (is_class EndpointConnectionError) network_error.

Definition Boto3Client_assert_fp_exists (handler : option Client)
    (bucket_name fp local_nvme_path : string) : M Proc unit :=
  ep <- boto3_connection handler ;;
  page <- S3.list_objects ep bucket_name fp ;;
  match page with
  | None => raise KeyError "Contents"
  | Some contents => assert (0 <? length contents)%nat fp
  end.

(** The inner loop of [get_fns]: [fp.rsplit("/", maxsplit=1)[1]] for every
    object of one page, appended to [folder_name_list]. *)
Fixpoint get_fns_contents (contents : list string) (folder_name_list : list string)
    : result (list string) :=
  match contents with
  | [] => Ok folder_name_list
  | fp :: rest =>
      match PyStr.rsplit_max1 "/" fp with
      | [_; name] => get_fns_contents rest (folder_name_list ++ [name])
      | _ => Raise (Exn IndexError "list index out of range")
      end
  end.

(** The outer loop of [get_fns]: [page["Contents"]] for every page. *)
Fixpoint get_fns_pages (pages : list S3.page) (folder_name_list : list string)
    : result (list string) :=
  match pages with
  | [] => Ok folder_name_list
  | None :: _ => Raise (Exn KeyError "Contents")
  | Some contents :: rest =>
      match get_fns_contents contents folder_name_list with
      | Ok l => get_fns_pages rest l
      | Raise e => Raise e
      end
  end.

Definition of_result {S A} (r : result A) : M S A := fun s => (r, s).

Definition Boto3Client_get_fns (handler : option Client)
    (bucket_name fp local_nvme_path : string) : M Proc (list string) :=
  ep <- boto3_connection handler ;;
  pages <- S3.paginate ep bucket_name fp ;;
  of_result (get_fns_pages pages []).

Definition Boto3Client_async_upload_fileobj (handler : option Client)
    (bucket_name fp local_nvme_path : string) : M Proc unit :=
  try_except
    (data <- Os.read_file local_nvme_path ;;
     ep <- boto3_connection handler ;;
     S3.upload_fileobj ep bucket_name fp data)
    (is_class EndpointConnectionError) network_error.

Definition Boto3Client_delete_obj (handler : option Client) (fp : string) : M Proc unit :=
  raise NotImplementedError "boto3 not support delete_obj".

(** ** [LocalClient] *)

(** [assert isinstance(handler, LocalClient)] *)
Definition assert_LocalClient (handler : option Client) : M Proc unit :=
  assert (match handler with Some (LocalClient _) => true | _ => false end) "".

Definition LocalClient_sync_upload_fileobj (handler : option Client) (fp : string)
    (saved_obj : option string) : M Proc unit :=
  assert_LocalClient handler ;;;
  assert (bool_decide (is_Some saved_obj)) "" ;;;
  let fp_dirname := OsPath.dirname fp in
  ex <- Os.exists_ fp_dirname ;;
  (if negb ex then Os.makedirs fp_dirname else ret tt) ;;;
  Os.write_file fp (torch_save saved_obj).

Definition LocalClient_load (handler : option Client) (fp : string) : M Proc string :=
  assert_LocalClient handler ;;;
  ex <- Os.exists_ fp ;;
  assert ex (fp +:+ " is not found!") ;;;
  data <- Os.read_file fp ;;
  ret (torch_load data).

Definition LocalClient_assert_fp_exists (handler : option Client) (folder : string)
    : M Proc unit :=
  assert_LocalClient handler ;;;
  ex <- Os.exists_ folder ;;
  assert ex folder.

Definition LocalClient_get_fns (handler : option Client) (folder : string)
    : M Proc (list string) :=
  assert_LocalClient handler ;;;
  ex <- Os.exists_ folder ;;
  assert ex ("folder '" +:+ folder +:+ "' not exists!") ;;;
  Os.listdir folder.

Definition LocalClient_delete_obj (handler : option Client) (fp : string) : M Proc unit :=
  assert_LocalClient handler ;;;
  d <- Os.isdir fp ;;
  if negb d then Os.remove fp else ret tt.

(** ** Calling a client method with unpacked positional arguments

    [meta.client.method( *unpack_meta(meta))]: the static method of the
    client's class receives the arguments positionally; too few, or too
    many for a method without [*args], raise [TypeError]. *)

Definition arity_error {A} (name : string) : M Proc A :=
  raise TypeError (name +:+ "() got a wrong number of positional arguments").

Definition call_sync_upload_fileobj (c : option Client) (args : list pyarg)
    (saved_obj : option string) : M Proc unit :=
  match c with
  | Some (Boto3Client _ _ _ _) =>
      match args with
      | AClient h :: AStr b :: AStr fp :: AStr nvme :: _ =>
          Boto3Client_sync_upload_fileobj h b fp nvme saved_obj
      | _ => arity_error "sync_upload_fileobj"
      end
  | Some (LocalClient _) =>
      match args with
      | AClient h :: AStr fp :: _ => LocalClient_sync_upload_fileobj h fp saved_obj
      | _ => arity_error "sync_upload_fileobj"
      end
  | None => raise AttributeError "'NoneType' object has no attribute 'sync_upload_fileobj'"
  end.

Definition call_load (c : option Client) (args : list pyarg) : M Proc string :=
  match c with
  | Some (Boto3Client _ _ _ _) =>
      match args with
      | AClient h :: AStr b :: AStr fp :: AStr nvme :: _ => Boto3Client_load h b fp nvme
      | _ => arity_error "load"
      end
  | Some (LocalClient _) =>
      match args with
      | AClient h :: AStr fp :: _ => LocalClient_load h fp
      | _ => arity_error "load"
      end
  | None => raise AttributeError "'NoneType' object has no attribute 'load'"
  end.

Definition call_assert_fp_exists (c : option Client) (args : list pyarg) : M Proc unit :=
  match c with
  | Some (Boto3Client _ _ _ _) =>
      match args with
      | [AClient h; AStr b; AStr fp; AStr nvme] => Boto3Client_assert_fp_exists h b fp nvme
      | _ => arity_error "assert_fp_exists"
      end
  | Some (LocalClient _) =>
      match args with
      | [AClient h; AStr fp] => LocalClient_assert_fp_exists h fp
      | _ => arity_error "assert_fp_exists"
      end
  | None => raise AttributeError "'NoneType' object has no attribute 'assert_fp_exists'"
  end.

Definition call_get_fns (c : option Client) (args : list pyarg) : M Proc (list string) :=
  match c with
  | Some (Boto3Client _ _ _ _) =>
      match args with
      | AClient h :: AStr b :: AStr fp :: AStr nvme :: _ => Boto3Client_get_fns h b fp nvme
      | _ => arity_error "get_fns"
      end
  | Some (LocalClient _) =>
      match args with
      | [AClient h; AStr fp] => LocalClient_get_fns h fp
      | _ => arity_error "get_fns"
      end
  | None => raise AttributeError "'NoneType' object has no attribute 'get_fns'"
  end.

Definition call_delete_obj (c : option Client) (args : list pyarg) : M Proc unit :=
  match c with
  | Some (Boto3Client _ _ _ _) =>
      match args with
      | [AClient h; AStr fp] => Boto3Client_delete_obj h fp
      | _ => arity_error "delete_obj"
      end
  | Some (LocalClient _) =>
      match args with
      | [AClient h; AStr fp] => LocalClient_delete_obj h fp
      | _ => arity_error "delete_obj"
      end
  | None => raise AttributeError "'NoneType' object has no attribute 'delete_obj'"
  end.

(** What a worker thread runs for a submitted task. *)
Definition call_async_fn (fn : async_fn) (args : list pyarg) : M Proc unit :=
  match fn, args with
  | async_upload_fileobj, [AClient h; AStr b; AStr fp; AStr nvme] =>
      Boto3Client_async_upload_fileobj h b fp nvme
  | async_upload_fileobj, _ => arity_error "async_upload_fileobj"
  end.

(** ** [StorageManager] *)

(** A Python value stored in an Exception Record. *)
Inductive pyobj :=
  | PyInt (z : Z)
  | PyExc (e : exn).

(** [str(v)] *)
Definition py_str (v : pyobj) : string :=
  match v with
  | PyInt z => PyStr.str_of_Z z
  | PyExc e => exn_msg e
  end.

(** An [asyncio.Future] returned by [run_in_executor]. *)
Inductive future_state :=
  | Pending
  | Cancelled
  | Finished (exc : option exn).   (* the exception set on the future, if any *)

Record Future := mkFuture {
  fut_fn : async_fn;
  fut_args : list pyarg;
  fut_state : future_state;
}.

(** [Future.exception()]: RETURNS the exception set on a finished future
    ([None] if it succeeded); it raises only for a cancelled future
    ([CancelledError]) and for one that is not done ([InvalidStateError]). *)
Definition Future_exception (t : Future) : result (option exn) :=
  match fut_state t with
  | Cancelled => Raise (Exn CancelledError "")
  | Pending => Raise (Exn InvalidStateError "Exception is not set.")
  | Finished exc => Ok exc
  end.

(** The instance attributes.  [_async_loop] and [_thread_pool] are [None]
    when [__init__] never assigned them: reading them then raises
    [AttributeError]. *)
Record StorageManager := mkSM {
  _exception_list : list (pyobj * pyobj);
  _to_be_del_files : list string;
  _async_stack : list Future;
  upload_count : Z;
  tmp_local_folder : string;
  async_mode : bool;
  has_warning : bool;
  _async_loop : option nat;      (* the event loop object *)
  _thread_pool : option nat;     (* the executor, by its max_workers *)
}.

Definition set__exception_list (l : list (pyobj * pyobj)) (m : StorageManager) :=
  mkSM l (_to_be_del_files m) (_async_stack m) (upload_count m) (tmp_local_folder m)
       (async_mode m) (has_warning m) (_async_loop m) (_thread_pool m).
Definition set__to_be_del_files (l : list string) (m : StorageManager) :=
  mkSM (_exception_list m) l (_async_stack m) (upload_count m) (tmp_local_folder m)
       (async_mode m) (has_warning m) (_async_loop m) (_thread_pool m).
Definition set__async_stack (l : list Future) (m : StorageManager) :=
  mkSM (_exception_list m) (_to_be_del_files m) l (upload_count m) (tmp_local_folder m)
       (async_mode m) (has_warning m) (_async_loop m) (_thread_pool m).
Definition set_upload_count (z : Z) (m : StorageManager) :=
  mkSM (_exception_list m) (_to_be_del_files m) (_async_stack m) z (tmp_local_folder m)
       (async_mode m) (has_warning m) (_async_loop m) (_thread_pool m).
Definition set_has_warning (b : bool) (m : StorageManager) :=
  mkSM (_exception_list m) (_to_be_del_files m) (_async_stack m) (upload_count m)
       (tmp_local_folder m) (async_mode m) b (_async_loop m) (_thread_pool m).
Definition set_loop_and_pool (loop pool : nat) (m : StorageManager) :=
  mkSM (_exception_list m) (_to_be_del_files m) (_async_stack m) (upload_count m)
       (tmp_local_folder m) (async_mode m) (has_warning m) (Some loop) (Some pool).

(** The manager together with the process it lives in. *)
Record State := mkState {
  self : StorageManager;
  proc : Proc;
}.

Definition on_self (f : StorageManager -> StorageManager) (s : State) : State :=
  mkState (f (self s)) (proc s).

(** Run a computation on the process inside a method. *)
Definition liftP {A} (m : M Proc A) : M State A :=
  fun s => let '(r, p) := m (proc s) in (r, mkState (self s) p).

(** *** Module-level helpers *)

(** Python's [0.1] is the double nearest to one tenth,
    3602879701896397 / 2^55. *)
Definition float_0_1 : Q := 3602879701896397 # 36028797018963968.

(** [get_mount_point_free_size]: free bytes divided by [1024**3], or
    [None] when the path does not exist.  The quotient of two integers is
    the exact rational; it is a double without rounding for every byte
    count below 2^53, and rounding larger ones cannot bring them below
    [0.1]. *)
Definition get_mount_point_free_size (path : string) : M Proc (option Q) :=
  ex <- Os.exists_ path ;;
  if ex
  then pr <- get ;;
       let '(f_bavail, f_bsize) := statvfs pr path in
       ret (Some (inject_Z (f_bavail * f_bsize) / inject_Z (1024 ^ 3))%Q)
  else ret None.

Definition Qltb (x y : Q) : bool := negb (Qle_bool y x).

Definition check_tmp_folder_accessibility (tmp_local_folder : string) : M Proc unit :=
  ex <- Os.exists_ tmp_local_folder ;;
  if ex
  then w <- Os.access_W tmp_local_folder ;;
       r <- Os.access_R tmp_local_folder ;;
       pr <- get ;;
       if negb (true && w && r)
       then raise RuntimeError
              (hostname pr +:+ " dose not have read and write permissions on "
               +:+ tmp_local_folder +:+ String (ascii_of_nat 34) "")
       else ret tt
  else ret tt.

(** [try_delete_tmpfile] *)
Definition try_delete_tmpfile (tmp_dir : string) : M Proc unit :=
  names <- Os.listdir tmp_dir ;;
  for_each names (fun filename =>
    if PyStr.endswith ".tmpfile" filename
    then try_except (Os.remove (OsPath.join tmp_dir filename)) is_OSError (fun _ => ret tt)
    else ret tt).

(** *** [__init__] *)

Definition __init__ (enable_save : bool) (tmp_local_folder : string) (async_mode : bool)
    (n_async_workers : nat) : M Proc StorageManager :=
  let self0 := mkSM [] [] [] 0 tmp_local_folder async_mode false None None in
  if (enable_save && async_mode)%bool
  then
    loop <- fresh_oid ;;
    let self1 := set_loop_and_pool loop n_async_workers self0 in
    check_tmp_folder_accessibility (OsPath.dirname tmp_local_folder) ;;;
    try_except (Os.makedirs tmp_local_folder ;;; Os.chmod_rwx tmp_local_folder)
               (is_class FileExistsError) (fun _ => ret tt) ;;;
    check_tmp_folder_accessibility tmp_local_folder ;;;
    try_delete_tmpfile tmp_local_folder ;;;
    free_size <- get_mount_point_free_size tmp_local_folder ;;
    match free_size with
    | None => raise TypeError "'<' not supported between instances of 'NoneType' and 'float'"
    | Some q =>
        if Qltb q float_0_1
        then pr <- get ;;
             raise RuntimeError ("Insufficient temporary storage space on " +:+ hostname pr)
        else ret self1
    end
  else ret self0.

(** *** Attribute access and list indexing *)

Definition getattr__async_loop : M State nat :=
  s <- get ;;
  match _async_loop (self s) with
  | Some loop => ret loop
  | None => raise AttributeError "'StorageManager' object has no attribute '_async_loop'"
  end.

Definition getattr__thread_pool : M State nat :=
  s <- get ;;
  match _thread_pool (self s) with
  | Some pool => ret pool
  | None => raise AttributeError "'StorageManager' object has no attribute '_thread_pool'"
  end.

(** Truth value of an event loop object: the class defines neither
    [__bool__] nor [__len__], so it is always true. *)
Definition loop_truthy (loop : nat) : bool := true.

(** [l[i]] for a list [l] and an arbitrary value [i]. *)
Definition py_list_getitem {S} (l : list string) (i : pyobj) : M S string :=
  match i with
  | PyInt z =>
      let idx := if (z <? 0)%Z then (z + Z.of_nat (length l))%Z else z in
      if (idx <? 0)%Z then raise IndexError "list index out of range"
      else match l !! Z.to_nat idx with
           | Some x => ret x
           | None => raise IndexError "list index out of range"
           end
  | PyExc e => raise TypeError "list indices must be integers or slices"
  end.

(** *** [_get_client] *)

Definition proxy_in_environ (pr : Proc) : bool :=
  bool_decide (is_Some (environ pr !! "http_proxy"))
  || bool_decide (is_Some (environ pr !! "https_proxy"))
  || bool_decide (is_Some (environ pr !! "HTTP_PROXY"))
  || bool_decide (is_Some (environ pr !! "HTTPS_PROXY")).

(** [StorageManager.BACKEND_INIT_METHOD[backend]( *init_args)] *)
Definition BACKEND_INIT_METHOD (backend : string) (init_arg : option string) : M Proc Client :=
  if String.eqb backend "boto3" then Boto3Client_init (default "" init_arg)
  else if String.eqb backend "local" then LocalClient_init
  else raise KeyError backend.

(** The cache step of [_get_client]. *)
Definition get_or_create (backend_key backend : string) (init_arg : option string)
    : M Proc Client :=
  pr <- get ;;
  match CLI_DICT pr !! backend_key with
  | Some c => ret c
  | None =>
      c <- BACKEND_INIT_METHOD backend init_arg ;;
      modify (set_CLI_DICT (insert backend_key c)) ;;;
      ret c
  end.

Definition _get_client (path : string) : M State MetaInfo :=
  match PyStr.split_max1 ":" path with
  | [backend; path'] =>
      if String.eqb backend "local" then
        meta_info <- liftP (get_local_meta path') ;;
        let backend_key := backend in
        c <- liftP (get_or_create backend_key backend None) ;;
        ret (set_meta_client c (LocalMeta meta_info))
      else if String.eqb backend "boto3" then
        s <- get ;;
        meta_info <- liftP (get_boto3_meta path' (tmp_local_folder (self s))
                                           (async_mode (self s))) ;;
        let backend_key := backend +:+ ":" +:+ endpoint meta_info in
        (if (proxy_in_environ (proc s) && negb (has_warning (self s)))%bool
         then modify (on_self (set_has_warning true)) else ret tt) ;;;
        c <- liftP (get_or_create backend_key backend (Some (endpoint meta_info))) ;;
        ret (set_meta_client c (Boto3Meta meta_info))
      else raise AssertionError ("Unkown backend: " +:+ backend)
  | _ =>
      raise AttributeError
        ("Given path '" +:+ path +:+ "' is not startwith backend prefix:'local/boto3'")
  end.

(** *** Facade operations that delegate directly *)

Definition assert_fp_exists (folder : string) : M State unit :=
  meta <- _get_client folder ;;
  liftP (call_assert_fp_exists (meta_client meta) (unpack_meta meta)).

Definition get_fns (folder : string) : M State (list string) :=
  meta <- _get_client folder ;;
  liftP (call_get_fns (meta_client meta) (unpack_meta meta)).

Definition delete_obj (fp : string) : M State unit :=
  meta <- _get_client fp ;;
  liftP (call_delete_obj (meta_client meta) (unpack_meta meta)).

(** *** The asynchronous upload scheduler *)

(** [async_executor(fn, *args)] *)
Definition async_executor (fn : async_fn) (args : list pyarg) : M State unit :=
  loop <- getattr__async_loop ;;
  if negb (loop_truthy loop)
  then raise RuntimeError
         "Event loop was not initialized, please call this function in async or parallel mode"
  else
    _ <- getattr__async_loop ;;
    _ <- getattr__thread_pool ;;
    let t := mkFuture fn args Pending in
    modify (on_self (fun m => set__async_stack (_async_stack m ++ [t]) m)).

(** A worker thread runs a pending task to its end; whatever the task
    raises is set on the future. *)
Definition run_task (t : Future) : M Proc Future :=
  match fut_state t with
  | Pending =>
      fun pr => match call_async_fn (fut_fn t) (fut_args t) pr with
                | (Ok _, pr') => (Ok (mkFuture (fut_fn t) (fut_args t) (Finished None)), pr')
                | (Raise e, pr') =>
                    (Ok (mkFuture (fut_fn t) (fut_args t) (Finished (Some e))), pr')
                end
  | _ => ret t
  end.

Fixpoint run_tasks (l : list Future) : M Proc (list Future) :=
  match l with
  | [] => ret []
  | t :: r => t' <- run_task t ;; r' <- run_tasks r ;; ret (t' :: r')
  end.

(** [await asyncio.wait(self._async_stack, return_when=ALL_COMPLETED)]:
    returns once every tracked future is done.  The uploads are run here,
    in submission order; the loop below inspects the futures only after
    all of them are done, so their completion order is not observable. *)
Definition asyncio_wait_all : M State unit :=
  s <- get ;;
  done <- liftP (run_tasks (_async_stack (self s))) ;;
  modify (on_self (set__async_stack done)).

(** The body of the loop of [_sync_tasks] for one task. *)
Definition sync_one_task (task : Future) : M State unit :=
  match Future_exception task with
  | Ok _ => ret tt
  | Raise e =>
      if is_class InvalidStateError (exn_class e) then ret tt
      else if is_Exception (exn_class e) then
        s <- get ;;
        let file_id := Z.of_nat (length (_exception_list (self s))) in
        modify (on_self (fun m =>
                  set__exception_list (_exception_list m ++ [(PyExc e, PyInt file_id)]) m)) ;;;
        _ <- py_list_getitem (_to_be_del_files (self s)) (PyInt file_id) ;;
        ret tt
      else reraise e
  end.

Definition _sync_tasks : M State unit :=
  s <- get ;;
  match _async_stack (self s) with
  | [] => ret tt
  | _ =>
      asyncio_wait_all ;;;
      s' <- get ;;
      for_each (_async_stack (self s')) sync_one_task ;;;
      modify (on_self (set__async_stack []))
  end.

(** *** [_del_tmp_folder] *)

Definition _del_tmp_folder : M State unit :=
  s <- get ;;
  for_each (_to_be_del_files (self s)) (fun fp =>
    liftP (try_except (Os.remove fp)
                      (fun c => is_class FileNotFoundError c || is_class SystemError c)
                      (fun _ => ret tt))).

(** *** [wait]

    The loop over [self._exception_list] unpacks each record as
    [file_id, error_msg] and leaves in its first iteration: formatting
    the log message evaluates [self._to_be_del_files[file_id]], and the
    [raise RuntimeError] follows it.  Only the first record is looked at. *)

Definition wait : M State unit :=
  s <- get ;;
  if negb (async_mode (self s)) then ret tt
  else
    loop <- getattr__async_loop ;;
    (if loop_truthy loop then _sync_tasks else ret tt) ;;;
    s1 <- get ;;
    match _exception_list (self s1) with
    | (file_id, error_msg) :: _ =>
        fp <- py_list_getitem (_to_be_del_files (self s1)) file_id ;;
        raise RuntimeError
          ("Failed to upload " +:+ fp +:+ " on step "
           +:+ PyStr.str_of_Z (upload_count (self s1)) +:+ ": " +:+ py_str error_msg)
    | [] =>
        _del_tmp_folder ;;;
        modify (on_self (set__exception_list [])) ;;;
        modify (on_self (set__to_be_del_files [])) ;;;
        s2 <- get ;;
        if rank_for_log (proc s2)
        then modify (on_self (fun m => set_upload_count (upload_count m + 1) m))
        else ret tt
    end.

(** *** [save] and [load] *)

Definition save (save_path : string) (saved_obj : option string)
    (async_upload : option bool) : M State unit :=
  meta <- _get_client save_path ;;
  s <- get ;;
  let async_upload := default (async_mode (self s)) async_upload in
  if async_upload then
    assert (negb (String.eqb (tmp_local_folder (self s)) ""))
      "StorageManager is not setted tmp_local_folder, so async save cannot be performed." ;;;
    match meta with
    | LocalMeta _ =>
        raise AttributeError "'LocalMetaInfo' object has no attribute 'local_nvme_path'"
    | Boto3Meta m =>
        let tmp_step_file := local_nvme_path m in
        modify (on_self (fun sm =>
                  set__to_be_del_files (_to_be_del_files sm ++ [tmp_step_file]) sm)) ;;;
        liftP (Os.write_file tmp_step_file (torch_save saved_obj)) ;;;
        async_executor (b_async_upload_fn m) (unpack_meta meta) ;;;
        liftP (Os.chmod_rwx tmp_step_file)
    end
  else
    liftP (call_sync_upload_fileobj (meta_client meta) (unpack_meta meta) saved_obj) ;;;
    modify (on_self (fun sm => set_upload_count (upload_count sm + 1) sm)).

Definition load (load_path : string) : M State string :=
  wait ;;;
  meta <- _get_client load_path ;;
  liftP (call_load (meta_client meta) (unpack_meta meta)).

(** ** The process lifetime

    After construction the manager is driven by calls of its public
    methods, while the world around it (file system, clock, environment,
    remote store) may change between calls.  Such changes cannot touch the
    objects of the process: the client cache and the object identities. *)

Inductive call :=
  | CallSave (save_path : string) (saved_obj : option string) (async_upload : option bool)
  | CallLoad (load_path : string)
  | CallWait
  | CallGetFns (folder : string)
  | CallAssertFpExists (folder : string)
  | CallDeleteObj (fp : string).

Definition exec (c : call) (s : State) : State :=
  match c with
  | CallSave p o a => (save p o a s).2
  | CallLoad p => (load p s).2
  | CallWait => (wait s).2
  | CallGetFns p => (get_fns p s).2
  | CallAssertFpExists p => (assert_fp_exists p s).2
  | CallDeleteObj p => (delete_obj p s).2
  end.

Inductive step : State -> State -> Prop :=
  | step_call c s : step s (exec c s)
  | step_env s pr' :
      CLI_DICT pr' = CLI_DICT (proc s) ->
      next_oid pr' = next_oid (proc s) ->
      step s (mkState (self s) pr').

(** [steps s s']: [s'] is reached from [s] in the course of the process. *)
Definition steps : State -> State -> Prop := rtc step.

(** *** Invariants *)

(** The cache key [_get_client] computes for a resolved context. *)
Definition cache_key (meta : MetaInfo) : string :=
  match meta with
  | LocalMeta _ => "local"
  | Boto3Meta m => "boto3" +:+ ":" +:+ endpoint m
  end.

(** Cached clients are distinct objects, created before [next_oid]. *)
Definition cache_inv (pr : Proc) : Prop :=
  (forall k c, CLI_DICT pr !! k = Some c -> (client_oid c < next_oid pr)%nat) /\
  (forall k1 k2 c1 c2,
      CLI_DICT pr !! k1 = Some c1 -> CLI_DICT pr !! k2 = Some c2 ->
      client_oid c1 = client_oid c2 -> k1 = k2).

(** Tasks are tracked only by a manager that has its scheduler, and the
    scheduler exists only in asynchronous mode. *)
Definition sched_inv (s : State) : Prop :=
  (_async_stack (self s) <> [] -> is_Some (_async_loop (self s))) /\
  (is_Some (_async_loop (self s)) -> async_mode (self s) = true).

(** A path [os.remove] can delete, or that is already gone. *)
Definition removable (pr : Proc) (fp : string) : Prop :=
  match Os.lookup fp pr with
  | None => True
  | Some n =>
      is_dir n = false /\
      match Os.lookup (OsPath.dirname fp) pr with
      | Some d => writable d = true
      | None => True
      end
  end.


(** *** What calls leave in place *)

(** Operations on the file system and the remote store do not touch the
    objects of the process. *)
Definition proc_frame (p p' : Proc) : Prop :=
  CLI_DICT p' = CLI_DICT p /\ next_oid p' = next_oid p.

(** The client cache only grows, and stays consistent. *)
Definition cache_le (p p' : Proc) : Prop :=
  cache_inv p ->
  cache_inv p' /\ CLI_DICT p ⊆ CLI_DICT p' /\ (next_oid p <= next_oid p')%nat.

(** The attributes fixed by [__init__]. *)
Definition config (sm : StorageManager) : bool * option nat * option nat * string :=
  (async_mode sm, _async_loop sm, _thread_pool sm, tmp_local_folder sm).

(** What every method call maintains. *)
Definition evolves (s s' : State) : Prop :=
  config (self s') = config (self s) /\
  (_async_stack (self s') <> [] ->
   _async_stack (self s) <> [] \/ is_Some (_async_loop (self s))) /\
  cache_le (proc s) (proc s').

(** What the drain of the scheduler leaves in place. *)
Definition drain_frame (s s' : State) : Prop :=
  fs (proc s') = fs (proc s) /\
  rank_for_log (proc s') = rank_for_log (proc s) /\
  _exception_list (self s') = _exception_list (self s) /\
  _to_be_del_files (self s') = _to_be_del_files (self s) /\
  upload_count (self s') = upload_count (self s) /\
  config (self s') = config (self s).

(** The same for a worker's upload, on the process alone. *)
Definition upload_frame (p p' : Proc) : Prop :=
  fs p' = fs p /\ rank_for_log p' = rank_for_log p.

(** What changes only the process, not the manager. *)
Definition self_frame (s s' : State) : Prop := self s' = self s.
(** ** Concrete scenarios *)

Module Scenario.

(** A node with its S3 credentials set, an empty writable [/dev/shm],
    and a store whose endpoint 10.0.0.2 cannot be reached. *)
Definition proc0 (free_blocks : Z) (rank : bool) : Proc :=
  mkProc {[ "/dev/shm" := new_dir ]}
         {[ "S3_ACCESS_KEY_ID" := "id"; "S3_SECRET_ACCESS_KEY_ID" := "secret" ]}
         "node1" 4242 "Nov03_10-00-00"
         (fun _ => (free_blocks, 4096%Z))
         rank ∅ 0 ∅
         (fun ep => String.eqb ep "http://10.0.0.2:80").

(** 64 Mi blocks of 4 KiB: 256 GiB free. *)
Definition plenty : Z := 67108864.

(** [StorageManager(enable_save, "/dev/shm/test/", async_mode, 8)] *)
Definition construct (enable_save async_mode : bool) (pr : Proc) : result State :=
  match __init__ enable_save "/dev/shm/test/" async_mode 8 pr with
  | (Ok sm, pr') => Ok (mkState sm pr')
  | (Raise e, _) => Raise e
  end.

Definition state_of (r : result State) (fallback : Proc) : State :=
  match r with
  | Ok s => s
  | Raise _ => mkState (mkSM [] [] [] 0 "" false false None None) fallback
  end.

(** An asynchronous manager on the logging rank (or not). *)
Definition ready (rank : bool) : State :=
  state_of (construct true true (proc0 plenty rank)) (proc0 plenty rank).

(** Two asynchronous saves: the first to the reachable endpoint, the
    second to the unreachable one. *)
Definition two_saves (rank : bool) : State :=
  exec (CallSave "boto3:s3://ckpt.10.0.0.2/run/b.pt" (Some "B") None)
    (exec (CallSave "boto3:s3://ckpt.10.0.0.1/run/a.pt" (Some "A") None)
       (mkState (self (ready rank)) (proc (ready rank)))).

(** One asynchronous save to the reachable endpoint. *)
Definition one_save (rank : bool) : State :=
  exec (CallSave "boto3:s3://ckpt.10.0.0.1/run/a.pt" (Some "A") None)
    (mkState (self (ready rank)) (proc (ready rank))).

(** The same process with the temp directory already in place. *)
Definition proc1 : Proc :=
  set_fs (insert "/dev/shm/test" new_dir) (proc0 plenty true).

(** A manager built with asynchronous mode but without saving. *)
Definition no_save : State :=
  state_of (construct false true proc1) proc1.

(** A local file system with a checkpoint directory and a file in it. *)
Definition local_proc : Proc :=
  set_fs (fun _ => {[ "/tmp/ckpt" := new_dir; "/tmp/ckpt/5" := new_file "step5" ]})
         (proc0 plenty true).

(** A remote store holding one object at the root of bucket [ckpt]. *)
Definition store_proc : Proc :=
  set_s3_objects (fun _ => {[ ("http://10.0.0.1:80", "ckpt", "model.pt") := "W" ]})
                 (proc0 plenty true).

(** A manager built for saving, but synchronously. *)
Definition sync_only : State :=
  state_of (construct true false proc1) proc1.

(** The contexts two remote endpoints resolve to. *)
Definition meta_a : MetaInfo :=
  Boto3Meta (mkBoto3Meta true (Some (Boto3Client 1 "http://10.0.0.1:80" "id" "secret"))
               "ckpt" "http://10.0.0.1:80" "a" async_upload_fileobj
               "/dev/shm/test/a-Nov03_10-00-00-4242.tmpfile").
Definition meta_b : MetaInfo :=
  Boto3Meta (mkBoto3Meta true (Some (Boto3Client 2 "http://10.0.0.2:80" "id" "secret"))
               "ckpt" "http://10.0.0.2:80" "b" async_upload_fileobj
               "/dev/shm/test/b-Nov03_10-00-00-4242.tmpfile").


End Scenario.

(** ** The statements of the specification that the code does not meet
    as worded, kept as stated for comparison *)

Module AsWorded.

(** "[delete(path)] fails with Unsupported if path is a directory":
    deleting an existing directory through the local client raises. *)
Definition local_delete_rejects_directories (pr : Proc) (fp : string) : Prop :=
  (Os.isdir fp pr).1 = Ok true ->
  is_ok (LocalClient_delete_obj (Some (LocalClient 0)) fp pr).1 = false.

(** "Only if there are zero Exception Records does it proceed to delete
    every tracked temp file and clear both the temp-file list and the
    exception list, then increment the success counter": a [wait] whose
    drain leaves no Exception Record returns with the lists empty and
    the counter one higher. *)
Definition wait_cleans_and_counts (s : State) : Prop :=
  _exception_list (self (_sync_tasks s).2) = [] ->
  (wait s).1 = Ok tt /\
  _to_be_del_files (self (wait s).2) = [] /\
  _exception_list (self (wait s).2) = [] /\
  upload_count (self (wait s).2) = (upload_count (self s) + 1)%Z.

End AsWorded.

(** ** Module level: the global [storage_manager] and the functions on it *)

Module Top.

(** The module's global variable, [None] until a manager is installed,
    and the process. *)
Record Global := mkGlobal {
  storage_manager : option StorageManager;
  gproc : Proc;
}.

(** [storage_manager.method(...)]: attribute access on [None] raises
    [AttributeError]; otherwise the method runs on the manager. *)
Definition on_manager {A} (method : string) (m : M State A) : M Global A :=
  fun g =>
    match storage_manager g with
    | None =>
        (Raise (Exn AttributeError
                  ("'NoneType' object has no attribute '" +:+ method +:+ "'")), g)
    | Some sm =>
        let '(r, s) := m (mkState sm (gproc g)) in
        (r, mkGlobal (Some (self s)) (proc s))
    end.

Definition check_folder (fp : string) : M Global unit :=
  on_manager "assert_fp_exists" (assert_fp_exists fp).

Definition get_fns (fp : string) : M Global (list string) :=
  on_manager "get_fns" (get_fns fp).

Definition llm_load (fp : string) : M Global string :=
  on_manager "load" (load fp).

(** [llm_save(save_path, saved_obj, **kwargs)]; [async_upload] can only
    come as a keyword. *)
Definition llm_save (save_path : string) (saved_obj : option string)
    (async_upload : option bool) : M Global unit :=
  on_manager "save" (save save_path saved_obj async_upload).

Definition get_storage_manager : M Global StorageManager :=
  g <- get ;;
  match storage_manager g with
  | Some sm => ret sm
  | None => raise AssertionError "storage_manager has not been init!"
  end.

End Top.

(** The staging name [get_tmp_file_name] computes in a given process. *)
Definition tmp_file_name (tmp fp : string) (pr : Proc) : string :=
  PyStr.join "-" [OsPath.join tmp (List.last (PyStr.split "/" fp) ""); now pr;
                  PyStr.str_of_Z (pid pr)] +:+ ".tmpfile".

(** ** More invariants of the process lifetime *)

(** The cache holds local clients under ["local"] and remote clients
    under the key of their endpoint. *)
Definition cache_kinds (pr : Proc) : Prop :=
  forall k c, CLI_DICT pr !! k = Some c ->
    match c with
    | LocalClient _ => k = "local"
    | Boto3Client _ ep _ _ => k = "boto3" +:+ ":" +:+ ep
    end.

(** What [_get_client] leaves in place: everything of the manager except
    [has_warning], which is only ever set. *)
Definition resolve_frame (s s' : State) : Prop :=
  _exception_list (self s') = _exception_list (self s) /\
  _to_be_del_files (self s') = _to_be_del_files (self s) /\
  _async_stack (self s') = _async_stack (self s) /\
  upload_count (self s') = upload_count (self s) /\
  config (self s') = config (self s) /\
  (has_warning (self s) = true -> has_warning (self s') = true) /\
  fs (proc s') = fs (proc s) /\
  s3_objects (proc s') = s3_objects (proc s).

(** Operations that only read the file system and the store. *)
Definition readonly_frame (p p' : Proc) : Prop :=
  fs p' = fs p /\ s3_objects p' = s3_objects p.

(** What the sweep of the temp folder does to the file system: every
    entry is as it was, or was a file at [os.path.join(tmp_dir, name)]
    for a [name] ending in [.tmpfile] and is gone; nothing else of the
    process changes. *)
Definition sweep_frame (tmp_dir : string) (p p' : Proc) : Prop :=
  (forall k,
     fs p' !! k = fs p !! k \/
     (fs p' !! k = None /\
      exists n filename,
        fs p !! k = Some n /\ is_dir n = false /\
        PyStr.endswith ".tmpfile" filename = true /\
        k = Os.norm (OsPath.join tmp_dir filename))) /\
  CLI_DICT p' = CLI_DICT p /\ next_oid p' = next_oid p /\
  s3_objects p' = s3_objects p.

(** The kinds of the cached clients are kept. *)
Definition kinds_le (p p' : Proc) : Prop := cache_kinds p -> cache_kinds p'.
Definition kinds_evolves (s s' : State) : Prop := kinds_le (proc s) (proc s').

(** A manager without Exception Records stays without. *)
Definition no_record_le (s s' : State) : Prop :=
  _exception_list (self s) = [] -> _exception_list (self s') = [].
(** * Properties *)

(** ** Reasoning about computations: what every step of a computation
    respects *)

Section Respects.
Context {S : Type} (R : relation S) `{!PreOrder R}.

Lemma respects_ret {A} (a : A) : respects R (ret a).
Proof. intros s. reflexivity. Qed.

Lemma respects_raise {A} c msg : respects R (raise (A:=A) c msg).
Proof. intros s. reflexivity. Qed.

Lemma respects_reraise {A} e : respects R (reraise (A:=A) e).
Proof. intros s. reflexivity. Qed.

Lemma respects_of_result {A} (r : result A) : respects R (of_result r).
Proof. intros s. reflexivity. Qed.

Lemma respects_get : respects R get.
Proof. intros s. reflexivity. Qed.

Lemma respects_gets {A} (f : S -> A) : respects R (gets f).
Proof. intros s. reflexivity. Qed.

Lemma respects_assert c msg : respects R (assert c msg).
Proof. destruct c; intros s; reflexivity. Qed.

Lemma respects_modify f : (forall s, R s (f s)) -> respects R (modify f).
Proof. intros H s. apply H. Qed.

Lemma respects_bind {A B} (m : M S A) (k : A -> M S B) :
  respects R m -> (forall a, respects R (k a)) -> respects R (bind m k).
Proof.
  intros Hm Hk s. unfold bind. specialize (Hm s).
  destruct (m s) as [[a|e] s']; simpl in *; [|exact Hm].
  etrans; [exact Hm | apply Hk].
Qed.

Lemma respects_try_except {A} (m : M S A) hs h :
  respects R m -> (forall e, respects R (h e)) -> respects R (try_except m hs h).
Proof.
  intros Hm Hh s. unfold try_except. specialize (Hm s).
  destruct (m s) as [[a|e] s']; simpl in *; [exact Hm|].
  destruct (hs (exn_class e)); [|exact Hm].
  etrans; [exact Hm | apply Hh].
Qed.

Lemma respects_for_each {A} (l : list A) body :
  (forall x, respects R (body x)) -> respects R (for_each l body).
Proof.
  intros Hb. induction l as [|x l IH]; simpl.
  - apply respects_ret.
  - apply respects_bind; [apply Hb | intros _; exact IH].
Qed.
End Respects.

(** A computation on the process, run inside a method. *)
Lemma respects_liftP (RP : relation Proc) (R : relation State) {A} (m : M Proc A) :
  (forall sm p p', RP p p' -> R (mkState sm p) (mkState sm p')) ->
  respects RP m -> respects R (liftP m).
Proof.
  intros HR Hm [sm p]. unfold liftP. simpl. specialize (Hm p).
  destruct (m p) as [r p']. simpl in *. apply HR, Hm.
Qed.

(** Results of a [bind], by cases. *)
Lemma bind_Ok {S A B} (m : M S A) (k : A -> M S B) s b s' :
  bind m k s = (Ok b, s') -> exists a s1, m s = (Ok a, s1) /\ k a s1 = (Ok b, s').
Proof.
  unfold bind. destruct (m s) as [[a|e] s1]; [eauto | discriminate].
Qed.

Lemma bind_Ok_intro {S A B} (m : M S A) (k : A -> M S B) s a s1 :
  m s = (Ok a, s1) -> bind m k s = k a s1.
Proof. unfold bind. intros ->. reflexivity. Qed.

Lemma bind_Raise_intro {S A B} (m : M S A) (k : A -> M S B) s e s1 :
  m s = (Raise e, s1) -> bind m k s = (Raise e, s1).
Proof. unfold bind. intros ->. reflexivity. Qed.

(** ** Sanity checks of the string model against Python's results *)

Example lstrip_is_a_char_set : PyStr.lstrip "s3://" "s3://s3bucket.10.0.0.1/k" = "bucket.10.0.0.1/k".
Proof. reflexivity. Qed.

Example split_fields : PyStr.split "/" "a//b/" = ["a"; ""; "b"; ""].
Proof. reflexivity. Qed.

Example split_max1_first : PyStr.split_max1 ":" "boto3:s3://b.1.2/k" = ["boto3"; "s3://b.1.2/k"].
Proof. reflexivity. Qed.

Example split_max1_absent : PyStr.split_max1 ":" "nocolon" = ["nocolon"].
Proof. reflexivity. Qed.

Example rsplit_max1_last : PyStr.rsplit_max1 "/" "ckpt/5/model.pt" = ["ckpt/5"; "model.pt"].
Proof. reflexivity. Qed.

Example rsplit_max1_absent : PyStr.rsplit_max1 "/" "model.pt" = ["model.pt"].
Proof. reflexivity. Qed.

Example dirname_trailing_slash : OsPath.dirname "/dev/shm/test/" = "/dev/shm/test".
Proof. reflexivity. Qed.

Example dirname_root : OsPath.dirname "/x" = "/".
Proof. reflexivity. Qed.

Example join_paths : OsPath.join "/dev/shm/test/" "5.pt" = "/dev/shm/test/5.pt"
                     /\ OsPath.join "/dev/shm/test" "5.pt" = "/dev/shm/test/5.pt".
Proof. split; reflexivity. Qed.

Example str_of_Z_dec : PyStr.str_of_Z 4711 = "4711".
Proof. reflexivity. Qed.

Example endswith_tmpfile : PyStr.endswith ".tmpfile" "a-1.tmpfile" = true
                           /\ PyStr.endswith ".tmpfile" "tmpfile" = false.
Proof. split; reflexivity. Qed.

(** ** Frames: what the operations leave in place *)

#[global] Instance proc_frame_preorder : PreOrder proc_frame.
Proof.
  split.
  - intros p. split; reflexivity.
  - intros p q r [H1 H2] [H3 H4]. split; congruence.
Qed.

#[global] Instance cache_le_preorder : PreOrder cache_le.
Proof.
  split.
  - intros p Hp. split; [exact Hp|]. split; [reflexivity | lia].
  - intros p q r H1 H2 Hp.
    destruct (H1 Hp) as (Hq & Hs1 & Hn1). destruct (H2 Hq) as (Hr & Hs2 & Hn2).
    split; [exact Hr|]. split; [etrans; eassumption | lia].
Qed.

#[global] Instance evolves_preorder : PreOrder evolves.
Proof.
  split.
  - intros s. split; [reflexivity|]. split; [auto | reflexivity].
  - intros s t u (C1 & S1 & K1) (C2 & S2 & K2).
    split; [congruence|]. split; [|etrans; eassumption].
    intros Hu. destruct (S2 Hu) as [Ht|Hl]; [auto|].
    right. unfold config in C1. congruence.
Qed.

#[global] Instance drain_frame_preorder : PreOrder drain_frame.
Proof.
  split.
  - intros s. repeat split; reflexivity.
  - intros s t u (A1 & A2 & A3 & A4 & A5 & A6) (B1 & B2 & B3 & B4 & B5 & B6).
    repeat split; congruence.
Qed.

#[global] Instance upload_frame_preorder : PreOrder upload_frame.
Proof.
  split.
  - intros p. split; reflexivity.
  - intros p q r [H1 H2] [H3 H4]. split; congruence.
Qed.

Lemma proc_frame_cache_le p p' : proc_frame p p' -> cache_le p p'.
Proof.
  intros [Hc Hn] [Hlt Hinj]. split; [|split; [rewrite Hc; reflexivity | lia]].
  split.
  - intros k c. rewrite Hc, Hn. apply Hlt.
  - intros k1 k2 c1 c2. rewrite Hc. apply Hinj.
Qed.

(** One step of a syntax-directed frame proof. *)
Ltac frame_step :=
  lazymatch goal with
  | |- respects ?R (bind _ _) => apply (respects_bind R); [|intros ?]
  | |- respects ?R (ret _) => apply (respects_ret R)
  | |- respects ?R (raise _ _) => apply (respects_raise R)
  | |- respects ?R (reraise _) => apply (respects_reraise R)
  | |- respects ?R get => apply (respects_get R)
  | |- respects ?R (gets _) => apply (respects_gets R)
  | |- respects ?R (assert _ _) => apply (respects_assert R)
  | |- respects ?R (of_result _) => apply (respects_of_result R)
  | |- respects ?R (try_except _ _ _) => apply (respects_try_except R); [|intros ?]
  | |- respects ?R (for_each _ _) => apply (respects_for_each R); intros ?
  | |- respects ?R (modify _) => apply (respects_modify R); intros ?
  | |- respects _ (match ?x with _ => _ end) => destruct x
  end.

Ltac frame_proc :=
  repeat frame_step;
  try solve [ split; reflexivity ].

Create HintDb frame.

Ltac split_all := repeat match goal with |- _ /\ _ => split end.

Lemma Os_frame :
  (forall p, respects proc_frame (Os.exists_ p)) /\
  (forall p, respects proc_frame (Os.isdir p)) /\
  (forall p, respects proc_frame (Os.access_W p)) /\
  (forall p, respects proc_frame (Os.access_R p)) /\
  (forall p, respects proc_frame (Os.remove p)) /\
  (forall p, respects proc_frame (Os.listdir p)) /\
  (forall p, respects proc_frame (Os.makedirs p)) /\
  (forall p, respects proc_frame (Os.chmod_rwx p)) /\
  (forall p d, respects proc_frame (Os.write_file p d)) /\
  (forall p, respects proc_frame (Os.read_file p)).
Proof.
  split_all; intros;
    unfold Os.exists_, Os.isdir, Os.access_W, Os.access_R, Os.remove, Os.listdir,
      Os.makedirs, Os.chmod_rwx, Os.write_file, Os.read_file;
    frame_proc.
Qed.

Lemma S3_frame :
  (forall ep, respects proc_frame (S3.reach ep)) /\
  (forall ep b k, respects proc_frame (S3.paginate ep b k)) /\
  (forall ep b k, respects proc_frame (S3.list_objects ep b k)) /\
  (forall ep b k d, respects proc_frame (S3.upload_fileobj ep b k d)) /\
  (forall ep b k, respects proc_frame (S3.download_fileobj ep b k)).
Proof.
  split_all; intros;
    unfold S3.paginate, S3.list_objects, S3.upload_fileobj, S3.download_fileobj, S3.reach;
    frame_proc.
Qed.

Lemma resolver_frame :
  (forall tmp fp, respects proc_frame (get_tmp_file_name tmp fp)) /\
  (forall fp tmp a, respects proc_frame (get_boto3_meta fp tmp a)) /\
  (forall fp, respects proc_frame (get_local_meta fp)).
Proof.
  split_all; intros;
    unfold get_boto3_meta, get_tmp_file_name, get_local_meta; frame_proc.
Qed.

(** Every client method leaves the cache and the object identities alone. *)
Lemma client_frame :
  (forall c args o, respects proc_frame (call_sync_upload_fileobj c args o)) /\
  (forall c args, respects proc_frame (call_load c args)) /\
  (forall c args, respects proc_frame (call_assert_fp_exists c args)) /\
  (forall c args, respects proc_frame (call_get_fns c args)) /\
  (forall c args, respects proc_frame (call_delete_obj c args)) /\
  (forall fn args, respects proc_frame (call_async_fn fn args)).
Proof.
  split_all; intros;
    unfold call_sync_upload_fileobj, call_load, call_assert_fp_exists, call_get_fns,
      call_delete_obj, call_async_fn, arity_error,
      Boto3Client_sync_upload_fileobj, Boto3Client_load, Boto3Client_assert_fp_exists,
      Boto3Client_get_fns, Boto3Client_async_upload_fileobj, Boto3Client_delete_obj,
      LocalClient_sync_upload_fileobj, LocalClient_load, LocalClient_assert_fp_exists,
      LocalClient_get_fns, LocalClient_delete_obj, assert_LocalClient,
      boto3_connection, network_error,
      S3.paginate, S3.list_objects, S3.upload_fileobj, S3.download_fileobj, S3.reach,
      Os.exists_, Os.isdir, Os.access_W, Os.access_R, Os.remove, Os.listdir,
      Os.makedirs, Os.chmod_rwx, Os.write_file, Os.read_file;
    frame_proc.
Qed.

(** ** The client cache *)

Lemma respects_proc_cache {A} (m : M Proc A) :
  respects proc_frame m -> respects cache_le m.
Proof. intros H p. apply proc_frame_cache_le, H. Qed.

Lemma cache_inv_empty pr : CLI_DICT pr = ∅ -> cache_inv pr.
Proof.
  intros H. split.
  - intros k c. rewrite H, lookup_empty. discriminate.
  - intros k1 k2 c1 c2. rewrite H, lookup_empty. discriminate.
Qed.

(** A constructor either raises and leaves the process as it was, or
    returns a client with a fresh identity. *)
Lemma BACKEND_INIT_METHOD_cases backend arg pr :
  (exists e, BACKEND_INIT_METHOD backend arg pr = (Raise e, pr)) \/
  (exists c, BACKEND_INIT_METHOD backend arg pr
             = (Ok c, set_next_oid (S (next_oid pr)) pr)
             /\ client_oid c = next_oid pr).
Proof.
  unfold BACKEND_INIT_METHOD, Boto3Client_init, LocalClient_init, fresh_oid, environ_get,
    try_except, bind, get, modify, ret, raise.
  destruct (String.eqb backend "boto3").
  - destruct (environ pr !! "S3_ACCESS_KEY_ID") as [k|]; simpl.
    + destruct (environ pr !! "S3_SECRET_ACCESS_KEY_ID") as [k2|]; simpl.
      * right. eexists. split; reflexivity.
      * left. eexists. reflexivity.
    + left. eexists. reflexivity.
  - destruct (String.eqb backend "local").
    + right. eexists. split; reflexivity.
    + left. eexists. reflexivity.
Qed.

Lemma get_or_create_cases k backend arg pr :
  (exists c, CLI_DICT pr !! k = Some c /\ get_or_create k backend arg pr = (Ok c, pr)) \/
  (CLI_DICT pr !! k = None /\ exists e, get_or_create k backend arg pr = (Raise e, pr)) \/
  (CLI_DICT pr !! k = None /\
   exists c, client_oid c = next_oid pr /\
             get_or_create k backend arg pr
             = (Ok c, set_CLI_DICT (insert k c) (set_next_oid (S (next_oid pr)) pr))).
Proof.
  unfold get_or_create, bind, get, modify, ret. simpl.
  destruct (CLI_DICT pr !! k) as [c|] eqn:Hk.
  - left. exists c. split; reflexivity.
  - right.
    destruct (BACKEND_INIT_METHOD_cases backend arg pr) as [[e He]|(c & Hc & Hoid)].
    + left. split; [reflexivity|]. exists e. rewrite He. reflexivity.
    + right. split; [reflexivity|]. exists c. split; [exact Hoid|]. rewrite Hc. reflexivity.
Qed.

Lemma get_or_create_cache_le k backend arg : respects cache_le (get_or_create k backend arg).
Proof.
  intros pr.
  destruct (get_or_create_cases k backend arg pr)
    as [(c & _ & ->)|[(_ & e & ->)|(Hk & c & Hoid & ->)]]; simpl; try reflexivity.
  intros [Hlt Hinj]. split; [split|split].
  - intros k' c'. simpl. rewrite lookup_insert. case_decide as Hkk.
    + intros [= <-]. lia.
    + intros Hc'. specialize (Hlt _ _ Hc'). lia.
  - intros k1 k2 c1 c2. simpl. rewrite !lookup_insert.
    repeat case_decide; subst.
    + auto.
    + intros [= <-] H2 Heq. specialize (Hlt _ _ H2). lia.
    + intros H1 [= <-] Heq. specialize (Hlt _ _ H1). lia.
    + apply Hinj.
  - simpl. apply insert_subseteq. exact Hk.
  - simpl. lia.
Qed.

Lemma get_or_create_Ok k backend arg pr c pr' :
  get_or_create k backend arg pr = (Ok c, pr') -> CLI_DICT pr' !! k = Some c.
Proof.
  destruct (get_or_create_cases k backend arg pr)
    as [(c0 & Hk & ->)|[(_ & e & ->)|(Hk & c0 & Hoid & ->)]]; intros [= <- <-].
  - exact Hk.
  - simpl. apply lookup_insert_eq.
Qed.

(** ** What every method call maintains *)

Lemma evolves_proc sm p p' : cache_le p p' -> evolves (mkState sm p) (mkState sm p').
Proof. intros H. split; [reflexivity|]. split; [auto | exact H]. Qed.

Ltac frame_known :=
  first [ apply Os_frame | apply S3_frame | apply resolver_frame | apply client_frame ].

Ltac frame_liftP :=
  apply (respects_liftP cache_le evolves); [exact evolves_proc|];
  first [ apply get_or_create_cache_le
        | apply respects_proc_cache; repeat first [ frame_known | frame_step ] ].

Ltac frame_state :=
  repeat first
    [ frame_step
    | lazymatch goal with
      | |- respects evolves (liftP _) => frame_liftP
      | |- evolves ?s (on_self _ ?s) =>
          split; [reflexivity | split; [simpl; auto | reflexivity]]
      end
    | solve [ auto with frame ] ].

Lemma _get_client_evolves path : respects evolves (_get_client path).
Proof. unfold _get_client. frame_state. Qed.
#[global] Hint Resolve _get_client_evolves : frame.

Lemma delegates_evolve :
  (forall p, respects evolves (assert_fp_exists p)) /\
  (forall p, respects evolves (get_fns p)) /\
  (forall p, respects evolves (delete_obj p)).
Proof.
  split_all; intros; unfold assert_fp_exists, get_fns, delete_obj; frame_state.
Qed.

Lemma async_executor_evolves fn args : respects evolves (async_executor fn args).
Proof.
  intros [[el fl st uc tmp am hw lp tp] pr].
  unfold async_executor, getattr__async_loop, getattr__thread_pool, loop_truthy,
    bind, get, ret, raise, modify. simpl.
  destruct lp as [l|]; simpl; [|reflexivity].
  destruct tp as [t|]; simpl; [|reflexivity].
  split; [reflexivity|]. split; [|reflexivity].
  intros _. right. simpl. eauto.
Qed.
#[global] Hint Resolve async_executor_evolves : frame.

Lemma run_task_frame t : respects proc_frame (run_task t).
Proof.
  intros pr. unfold run_task. destruct (fut_state t); try reflexivity.
  pose proof (proj2 (proj2 (proj2 (proj2 (proj2 client_frame)))) (fut_fn t) (fut_args t) pr)
    as H.
  destruct (call_async_fn (fut_fn t) (fut_args t) pr) as [[[]|e] pr']; exact H.
Qed.

Lemma run_tasks_frame l : respects proc_frame (run_tasks l).
Proof.
  induction l as [|t l IH]; simpl.
  - apply (respects_ret proc_frame).
  - apply (respects_bind proc_frame); [apply run_task_frame|]. intros t'.
    apply (respects_bind proc_frame); [exact IH|]. intros l'.
    apply (respects_ret proc_frame).
Qed.

(** Running the tracked tasks always returns, with as many futures. *)
Lemma run_tasks_returns l pr :
  exists l' pr', run_tasks l pr = (Ok l', pr') /\ length l' = length l /\
                 Forall2 (fun t t' => fut_state t' <> Pending /\
                                      (fut_state t = Cancelled <-> fut_state t' = Cancelled))
                         l l'.
Proof.
  revert pr. induction l as [|t l IH]; intros pr; simpl.
  - exists [], pr. split; [reflexivity|]. split; [reflexivity | constructor].
  - unfold bind.
    assert (Ht : exists t' pr1, run_task t pr = (Ok t', pr1) /\ fut_state t' <> Pending /\
                                (fut_state t = Cancelled <-> fut_state t' = Cancelled)).
    { unfold run_task. destruct (fut_state t) eqn:Hs.
      - destruct (call_async_fn (fut_fn t) (fut_args t) pr) as [[[]|e] pr1];
          eexists; eexists; (split; [reflexivity|]); simpl; split; try discriminate;
          split; discriminate.
      - exists t, pr. split; [reflexivity|]. rewrite Hs. split; [discriminate | tauto].
      - exists t, pr. split; [reflexivity|]. rewrite Hs. split; [discriminate | tauto]. }
    destruct Ht as (t' & pr1 & -> & Hnp & Hc).
    destruct (IH pr1) as (l' & pr' & -> & Hlen & Hall).
    exists (t' :: l'), pr'. split; [reflexivity|]. split; [simpl; congruence|].
    constructor; [split; assumption | exact Hall].
Qed.

Lemma asyncio_wait_all_evolves : respects evolves asyncio_wait_all.
Proof.
  intros [sm pr]. unfold asyncio_wait_all, bind, get, modify, liftP. simpl.
  destruct (run_tasks_returns (_async_stack sm) pr) as (l' & pr' & Hrun & Hlen & _).
  pose proof (run_tasks_frame (_async_stack sm) pr) as Hfr.
  rewrite Hrun in *. simpl in *.
  split; [reflexivity|]. split; [|apply proc_frame_cache_le, Hfr].
  simpl. intros Hne. left. intros Hnil. rewrite Hnil in Hlen.
  destruct l'; [congruence | discriminate].
Qed.
#[global] Hint Resolve asyncio_wait_all_evolves : frame.

(** A task never changes the state when the loop of [_sync_tasks] looks at
    it: [Future.exception()] returns for a finished future, and what it
    raises otherwise is skipped ([InvalidStateError]) or is no [Exception]
    ([CancelledError]). *)
Lemma sync_one_task_state task s : (sync_one_task task s).2 = s.
Proof.
  unfold sync_one_task, Future_exception. destruct (fut_state task); reflexivity.
Qed.

Lemma sync_one_task_result task s :
  (sync_one_task task s).1 =
  match fut_state task with
  | Cancelled => Raise (Exn CancelledError "")
  | _ => Ok tt
  end.
Proof.
  unfold sync_one_task, Future_exception. destruct (fut_state task); reflexivity.
Qed.

Lemma sync_one_task_evolves task : respects evolves (sync_one_task task).
Proof. intros s. rewrite sync_one_task_state. reflexivity. Qed.
#[global] Hint Resolve sync_one_task_evolves : frame.

Lemma _sync_tasks_evolves : respects evolves _sync_tasks.
Proof.
  unfold _sync_tasks. frame_state.
Qed.
#[global] Hint Resolve _sync_tasks_evolves : frame.

Lemma _del_tmp_folder_evolves : respects evolves _del_tmp_folder.
Proof. unfold _del_tmp_folder. frame_state. Qed.
#[global] Hint Resolve _del_tmp_folder_evolves : frame.

Lemma wait_evolves : respects evolves wait.
Proof.
  unfold wait, getattr__async_loop, py_list_getitem. frame_state.
Qed.
#[global] Hint Resolve wait_evolves : frame.

Lemma save_evolves p o a : respects evolves (save p o a).
Proof. unfold save. frame_state. Qed.

Lemma load_evolves p : respects evolves (load p).
Proof. unfold load. frame_state. Qed.

Lemma step_evolves s s' : step s s' -> evolves s s'.
Proof.
  intros [c s0|s0 pr' Hc Hn].
  - destruct c; simpl.
    + apply save_evolves.
    + apply load_evolves.
    + apply wait_evolves.
    + apply delegates_evolve.
    + apply delegates_evolve.
    + apply delegates_evolve.
  - destruct s0 as [sm pr]. apply evolves_proc, proc_frame_cache_le. split; assumption.
Qed.

Lemma steps_evolves s s' : steps s s' -> evolves s s'.
Proof.
  induction 1 as [s|s t u Hst _ IH]; [reflexivity|].
  etrans; [apply step_evolves, Hst | exact IH].
Qed.

(** ** Construction *)

Lemma returns_only_bind {S A B} (Q : B -> Prop) (m : M S A) (k : A -> M S B) :
  (forall a, returns_only Q (k a)) -> returns_only Q (bind m k).
Proof.
  intros Hk s b s' H. apply bind_Ok in H as (a & s1 & _ & H). eapply Hk, H.
Qed.

Lemma returns_only_ret {S A} (Q : A -> Prop) (a : A) : Q a -> returns_only (S:=S) Q (ret a).
Proof. intros HQ s a' s' [= <- _]. exact HQ. Qed.

Lemma returns_only_raise {S A} (Q : A -> Prop) c msg : returns_only (S:=S) Q (raise c msg).
Proof. intros s a s' H. discriminate H. Qed.

(** What a constructed manager looks like: empty bookkeeping, and the
    event loop and the thread pool exactly when saving and asynchronous
    mode are both enabled. *)
Lemma init_returns enable_save tmp am n :
  returns_only
    (fun sm =>
       _exception_list sm = [] /\ _to_be_del_files sm = [] /\ _async_stack sm = [] /\
       upload_count sm = 0%Z /\ async_mode sm = am /\ tmp_local_folder sm = tmp /\
       if (enable_save && am)%bool
       then is_Some (_async_loop sm) /\ is_Some (_thread_pool sm)
       else _async_loop sm = None /\ _thread_pool sm = None)
    (__init__ enable_save tmp am n).
Proof.
  unfold __init__. destruct (enable_save && am)%bool.
  - repeat (apply returns_only_bind; intros ?).
    repeat match goal with
           | |- returns_only _ (match ?x with _ => _ end) => destruct x
           | |- returns_only _ (bind _ _) => apply returns_only_bind; intros ?
           | |- returns_only _ (raise _ _) => apply returns_only_raise
           end.
    apply returns_only_ret. simpl. repeat split; eauto.
  - apply returns_only_ret. simpl. repeat split; reflexivity.
Qed.

Lemma init_sched_inv enable_save tmp am n pr sm pr' :
  __init__ enable_save tmp am n pr = (Ok sm, pr') -> sched_inv (mkState sm pr').
Proof.
  intros H. apply init_returns in H as (_ & _ & Hst & _ & Ham & _ & Hl).
  split; simpl.
  - rewrite Hst. congruence.
  - destruct (enable_save && am)%bool eqn:E.
    + intros _. apply andb_true_iff in E as [_ ->]. exact Ham.
    + destruct Hl as [-> _]. intros [x Hx]. discriminate Hx.
Qed.

Lemma evolves_sched_inv s s' : evolves s s' -> sched_inv s -> sched_inv s'.
Proof.
  intros (Hc & Hst & _) [H1 H2]. unfold config in Hc.
  injection Hc as Ham Hl Htp Htmp. split.
  - intros Hne. rewrite Hl. destruct (Hst Hne); auto.
  - rewrite Hl, Ham. exact H2.
Qed.

(** In every state the process reaches, tasks are tracked only by a
    manager with a scheduler, and only in asynchronous mode. *)
Lemma reachable_sched_inv enable_save tmp am n pr sm pr' s :
  __init__ enable_save tmp am n pr = (Ok sm, pr') -> steps (mkState sm pr') s ->
  sched_inv s.
Proof.
  intros Hi Hs. eapply evolves_sched_inv; [apply steps_evolves, Hs|].
  eapply init_sched_inv, Hi.
Qed.

(** ** The drain of the scheduler *)

Arguments _sync_tasks : simpl never.
Arguments asyncio_wait_all : simpl never.
Arguments _del_tmp_folder : simpl never.
Arguments _get_client : simpl never.
Arguments wait : simpl never.

Lemma call_async_fn_upload_frame fn args : respects upload_frame (call_async_fn fn args).
Proof.
  unfold call_async_fn, arity_error, Boto3Client_async_upload_fileobj, boto3_connection,
    network_error, S3.upload_fileobj, S3.reach, Os.read_file.
  frame_proc.
Qed.

Lemma run_tasks_upload_frame l : respects upload_frame (run_tasks l).
Proof.
  induction l as [|t l IH]; simpl.
  - apply (respects_ret upload_frame).
  - apply (respects_bind upload_frame).
    + intros pr. unfold run_task. destruct (fut_state t); try reflexivity.
      pose proof (call_async_fn_upload_frame (fut_fn t) (fut_args t) pr) as H.
      destruct (call_async_fn (fut_fn t) (fut_args t) pr) as [[[]|e] pr']; exact H.
    + intros t'. apply (respects_bind upload_frame); [exact IH|]. intros l'.
      apply (respects_ret upload_frame).
Qed.

(** Waiting for the tasks returns, with every future done. *)
Lemma asyncio_wait_all_returns s :
  exists l' pr',
    asyncio_wait_all s = (Ok tt, mkState (set__async_stack l' (self s)) pr') /\
    upload_frame (proc s) pr' /\
    Forall2 (fun t t' => fut_state t' <> Pending /\
                         (fut_state t = Cancelled <-> fut_state t' = Cancelled))
            (_async_stack (self s)) l'.
Proof.
  destruct s as [sm pr]. unfold asyncio_wait_all, bind, get, modify, liftP. simpl.
  destruct (run_tasks_returns (_async_stack sm) pr) as (l' & pr' & Hrun & _ & Hall).
  pose proof (run_tasks_upload_frame (_async_stack sm) pr) as Hfr.
  rewrite Hrun in *. exists l', pr'. split; [reflexivity|]. split; assumption.
Qed.

Lemma for_each_sync_no_cancel l s :
  Forall (fun t => fut_state t <> Cancelled) l ->
  for_each l sync_one_task s = (Ok tt, s).
Proof.
  induction 1 as [|t l Ht _ IH]; [reflexivity|].
  simpl. unfold bind.
  rewrite (surjective_pairing (sync_one_task t s)), sync_one_task_state,
    sync_one_task_result.
  destruct (fut_state t); [exact IH | congruence | exact IH].
Qed.

Lemma for_each_sync_state l s : (for_each l sync_one_task s).2 = s.
Proof.
  induction l as [|t l IH]; [reflexivity|].
  simpl. unfold bind.
  rewrite (surjective_pairing (sync_one_task t s)), sync_one_task_state.
  destruct (sync_one_task t s).1; [exact IH | reflexivity].
Qed.

(** The drain adds no Exception Record, whatever the outcome of the
    uploads, and touches neither the temp files nor the counter. *)
Lemma _sync_tasks_drain_frame : respects drain_frame _sync_tasks.
Proof.
  intros s. unfold _sync_tasks, bind, get, modify. simpl.
  destruct (_async_stack (self s)); [reflexivity|].
  destruct (asyncio_wait_all_returns s) as (l' & pr' & -> & [Hfs Hrk] & _).
  simpl.
  pose proof (for_each_sync_state l' (mkState (set__async_stack l' (self s)) pr')) as Hst.
  destruct (for_each l' sync_one_task _) as [[[]|e] s3]; simpl in *; subst s3;
    repeat split; simpl; assumption.
Qed.

Lemma _sync_tasks_Ok_clears s r s1 :
  _sync_tasks s = (Ok r, s1) -> _async_stack (self s1) = [].
Proof.
  unfold _sync_tasks, bind, get, modify. simpl.
  destruct (_async_stack (self s)) eqn:E.
  - intros [= _ <-]. exact E.
  - destruct (asyncio_wait_all s) as [[[]|e] s2]; [|discriminate].
    destruct (for_each _ _ s2) as [[[]|e] s3]; [|discriminate].
    intros [= _ <-]. reflexivity.
Qed.

Lemma _sync_tasks_returns s :
  Forall (fun t => fut_state t <> Cancelled) (_async_stack (self s)) ->
  exists s1, _sync_tasks s = (Ok tt, s1).
Proof.
  intros Hnc. unfold _sync_tasks, bind, get, modify. simpl.
  destruct (_async_stack (self s)) eqn:E; [eauto|]. rewrite <- E in *.
  destruct (asyncio_wait_all_returns s) as (l' & pr' & -> & _ & Hall).
  simpl. rewrite for_each_sync_no_cancel; [eauto|].
  clear E. induction Hall as [|t t' l1 l2 [_ Hc] _ IH]; [constructor|].
  inversion Hnc; subst. constructor; [tauto | auto].
Qed.

(** ** Removing the temp files *)

Lemma removable_delete pr k q :
  removable pr q -> removable (set_fs (delete k) pr) q.
Proof.
  unfold removable, Os.lookup. simpl. rewrite !lookup_delete.
  repeat case_decide; try tauto.
  destruct (fs pr !! Os.norm q); tauto.
Qed.

Lemma lookup_None_delete pr k q :
  Os.lookup q pr = None -> Os.lookup q (set_fs (delete k) pr) = None.
Proof.
  unfold Os.lookup. simpl. rewrite lookup_delete. case_decide; auto.
Qed.

(** One iteration of [_del_tmp_folder] on a removable path: the path is
    gone afterwards, nothing is raised, and only that path changed. *)
Lemma remove_removable pr fp :
  removable pr fp ->
  exists pr',
    try_except (Os.remove fp)
               (fun c => is_class FileNotFoundError c || is_class SystemError c)
               (fun _ => ret tt) pr = (Ok tt, pr') /\
    Os.lookup fp pr' = None /\
    (pr' = pr \/ pr' = set_fs (delete (Os.norm fp)) pr).
Proof.
  unfold removable, try_except, Os.remove, bind, get, modify, raise, ret. simpl.
  destruct (Os.lookup fp pr) as [n|] eqn:Hn.
  - intros [Hd Hpar]. rewrite Hd.
    assert (Hgone : Os.lookup fp (set_fs (delete (Os.norm fp)) pr) = None)
      by (unfold Os.lookup; simpl; apply lookup_delete_eq).
    destruct (Os.lookup (OsPath.dirname fp) pr) as [d|]; [rewrite Hpar|];
      (eexists; split; [reflexivity|]; split; [exact Hgone | right; reflexivity]).
  - intros _. exists pr. split; [reflexivity|]. split; [exact Hn | left; reflexivity].
Qed.

Lemma del_loop_removable files sm pr :
  Forall (removable pr) files ->
  exists pr',
    for_each files (fun fp =>
      liftP (try_except (Os.remove fp)
                        (fun c => is_class FileNotFoundError c || is_class SystemError c)
                        (fun _ => ret tt))) (mkState sm pr)
    = (Ok tt, mkState sm pr') /\
    Forall (fun fp => Os.lookup fp pr' = None) files /\
    (forall q, Os.lookup q pr = None -> Os.lookup q pr' = None) /\
    rank_for_log pr' = rank_for_log pr.
Proof.
  intros H. revert pr H. induction files as [|fp files IH]; intros pr H.
  - exists pr. split; [reflexivity|]. split; [constructor|]. split; auto.
  - inversion H as [|? ? Hfp Hrest]; subst.
    destruct (remove_removable pr fp Hfp) as (pr1 & Hrm & Hgone & Hpr1).
    assert (Hrest1 : Forall (removable pr1) files).
    { destruct Hpr1 as [->| ->]; [exact Hrest|].
      eapply Forall_impl; [exact Hrest|]. intros q. apply removable_delete. }
    assert (Hmono : forall q, Os.lookup q pr = None -> Os.lookup q pr1 = None).
    { destruct Hpr1 as [->| ->]; [auto|]. intros q. apply lookup_None_delete. }
    assert (Hrk : rank_for_log pr1 = rank_for_log pr)
      by (destruct Hpr1 as [->| ->]; reflexivity).
    destruct (IH pr1 Hrest1) as (pr' & Hloop & Hall & Hmono' & Hrk').
    exists pr'. split; [|split; [|split]].
    + cbn [for_each]. unfold bind. unfold liftP at 1. simpl. rewrite Hrm. exact Hloop.
    + constructor; [apply Hmono', Hgone | exact Hall].
    + auto.
    + congruence.
Qed.

(** ** [wait], case by case *)

Lemma wait_sync_mode s : async_mode (self s) = false -> wait s = (Ok tt, s).
Proof.
  intros H. unfold wait, bind, get. simpl. rewrite H. reflexivity.
Qed.

Lemma wait_no_loop s :
  async_mode (self s) = true -> _async_loop (self s) = None ->
  wait s = (Raise (Exn AttributeError
                     "'StorageManager' object has no attribute '_async_loop'"), s).
Proof.
  intros Ham Hl. unfold wait, getattr__async_loop, bind, get. simpl.
  rewrite Ham. simpl. rewrite Hl. reflexivity.
Qed.

Lemma wait_drain_raises s loop e s1 :
  async_mode (self s) = true -> _async_loop (self s) = Some loop ->
  _sync_tasks s = (Raise e, s1) -> wait s = (Raise e, s1).
Proof.
  intros Ham Hl Hd. unfold wait, getattr__async_loop, loop_truthy, bind, get. simpl.
  rewrite Ham. simpl. rewrite Hl. simpl. rewrite Hd. reflexivity.
Qed.

Lemma wait_with_record s loop s1 r rest :
  async_mode (self s) = true -> _async_loop (self s) = Some loop ->
  _sync_tasks s = (Ok tt, s1) -> _exception_list (self s1) = r :: rest ->
  exists e, wait s = (Raise e, s1).
Proof.
  intros Ham Hl Hd Hr. unfold wait, getattr__async_loop, loop_truthy, bind, get. simpl.
  rewrite Ham. simpl. rewrite Hl. simpl. rewrite Hd. simpl. rewrite Hr.
  destruct r as [file_id error_msg].
  unfold py_list_getitem, raise, ret.
  destruct file_id as [z|e0]; [|eauto].
  destruct (_ <? 0)%Z; [eauto|].
  destruct (_ !! _); eauto.
Qed.

Lemma wait_without_record s loop s1 :
  async_mode (self s) = true -> _async_loop (self s) = Some loop ->
  _sync_tasks s = (Ok tt, s1) -> _exception_list (self s1) = [] ->
  wait s =
  match _del_tmp_folder s1 with
  | (Ok _, s2) =>
      let s3 := on_self (set__to_be_del_files []) (on_self (set__exception_list []) s2) in
      (Ok tt, if rank_for_log (proc s3)
              then on_self (fun m => set_upload_count (upload_count m + 1) m) s3
              else s3)
  | (Raise e, s2) => (Raise e, s2)
  end.
Proof.
  intros Ham Hl Hd Hr. unfold wait, getattr__async_loop, loop_truthy, bind, get, modify.
  simpl. rewrite Ham. simpl. rewrite Hl. simpl. rewrite Hd. simpl. rewrite Hr.
  destruct (_del_tmp_folder s1) as [[[]|e] s2]; [|reflexivity].
  simpl. destruct (rank_for_log (proc s2)); reflexivity.
Qed.

#[global] Instance self_frame_preorder : PreOrder self_frame.
Proof.
  split.
  - intros s. reflexivity.
  - intros s t u H1 H2. unfold self_frame in *. congruence.
Qed.

Lemma _del_tmp_folder_self : respects self_frame _del_tmp_folder.
Proof.
  unfold _del_tmp_folder. frame_proc.
  intros [sm pr]. unfold liftP. simpl.
  destruct (try_except _ _ _ pr). reflexivity.
Qed.

(** A [wait] that returns leaves no tracked task behind, provided tasks
    are tracked in asynchronous mode only. *)
Lemma wait_Ok_drained s s1 :
  sched_inv s -> wait s = (Ok tt, s1) -> _async_stack (self s1) = [].
Proof.
  intros [Hst Hl] Hw.
  destruct (async_mode (self s)) eqn:Ham.
  - destruct (_async_loop (self s)) as [loop|] eqn:Hloop;
      [|rewrite wait_no_loop in Hw by assumption; discriminate].
    destruct (_sync_tasks s) as [[[]|e] s2] eqn:Hd;
      [|rewrite (wait_drain_raises _ _ _ _ Ham Hloop Hd) in Hw; discriminate].
    pose proof (_sync_tasks_Ok_clears _ _ _ Hd) as Hclr.
    destruct (_exception_list (self s2)) as [|r rest] eqn:Hr.
    + rewrite (wait_without_record _ _ _ Ham Hloop Hd Hr) in Hw.
      pose proof (_del_tmp_folder_self s2) as Hself. unfold self_frame in Hself.
      destruct (_del_tmp_folder s2) as [[[]|e] s3]; [|discriminate].
      simpl in *. injection Hw as <-.
      destruct (rank_for_log (proc s3)); simpl; rewrite Hself; exact Hclr.
    + destruct (wait_with_record _ _ _ _ _ Ham Hloop Hd Hr) as [e He].
      rewrite He in Hw. discriminate.
  - rewrite wait_sync_mode in Hw by assumption. injection Hw as <-.
    destruct (_async_stack (self s)) eqn:E; [reflexivity|].
    exfalso. assert (Hsome : is_Some (_async_loop (self s))) by (apply Hst; discriminate).
    specialize (Hl Hsome). congruence.
Qed.

(** ** The local client's [delete_obj] *)

Lemma local_delete_keeps_directories :
  LocalClient_delete_obj (Some (LocalClient 0)) "/tmp/ckpt" Scenario.local_proc
  = (Ok tt, Scenario.local_proc).
Proof. reflexivity. Qed.

(** C8, as worded, fails: [LocalClient.delete_obj] on an existing directory
    raises nothing.  The guard [if not os.path.isdir(fp)] skips the removal
    and the call returns normally. *)
Lemma local_delete_directory_does_not_fail :
  ~ AsWorded.local_delete_rejects_directories Scenario.local_proc "/tmp/ckpt".
Proof.
  intros H. specialize (H eq_refl).
  rewrite local_delete_keeps_directories in H. discriminate H.
Qed.

(** C8, amended: for the local backend, [delete_obj] on an existing
    directory returns normally and leaves the file system as it is; on an
    existing entry that is not a directory (and that may be removed) it
    returns normally with the entry removed.  A path to such an entry is
    written without a trailing slash: with one, the operating system
    refuses the path of a regular file ([ENOTDIR]), where the lookup of
    the embedding would still find the file. *)
Theorem LocalClient_delete_obj_by_kind (pr : Proc) (o : nat) (fp : string) (n : node) :
  fp <> "" ->
  Os.lookup fp pr = Some n ->
  (is_dir n = true ->
   LocalClient_delete_obj (Some (LocalClient o)) fp pr = (Ok tt, pr)) /\
  (is_dir n = false -> PyStr.endswith "/" fp = false -> removable pr fp ->
   LocalClient_delete_obj (Some (LocalClient o)) fp pr
   = (Ok tt, set_fs (delete (Os.norm fp)) pr)
   /\ Os.lookup fp (set_fs (delete (Os.norm fp)) pr) = None).
Proof.
  intros _ Hn. split.
  - intros Hd. unfold LocalClient_delete_obj, assert_LocalClient, assert, Os.isdir,
      bind, ret, gets. simpl. rewrite Hn, Hd. reflexivity.
  - intros Hd _ Hrm. unfold removable in Hrm. rewrite Hn in Hrm. destruct Hrm as [_ Hpar].
    split.
    + unfold LocalClient_delete_obj, assert_LocalClient, assert, Os.isdir, Os.remove,
        bind, ret, gets, get, modify, raise. simpl. rewrite Hn, Hd. simpl.
      destruct (Os.lookup (OsPath.dirname fp) pr) as [d|];
        rewrite ?Hpar, ?Hn; simpl; rewrite ?Hd; reflexivity.
    + unfold Os.lookup, set_fs. simpl. apply lookup_delete_eq.
Qed.

Lemma LocalClient_delete_obj_by_kind_witness :
  (LocalClient_delete_obj (Some (LocalClient 0)) "/tmp/ckpt" Scenario.local_proc
   = (Ok tt, Scenario.local_proc)) /\
  (LocalClient_delete_obj (Some (LocalClient 0)) "/tmp/ckpt/5" Scenario.local_proc
   = (Ok tt, set_fs (delete (Os.norm "/tmp/ckpt/5")) Scenario.local_proc)
   /\ Os.lookup "/tmp/ckpt/5" (set_fs (delete (Os.norm "/tmp/ckpt/5")) Scenario.local_proc)
      = None).
Proof.
  split.
  - apply (proj1 (LocalClient_delete_obj_by_kind Scenario.local_proc 0 "/tmp/ckpt"
                    new_dir ltac:(discriminate) eq_refl)).
    reflexivity.
  - apply (proj2 (LocalClient_delete_obj_by_kind Scenario.local_proc 0 "/tmp/ckpt/5"
                    (new_file "step5") ltac:(discriminate) eq_refl)).
    + reflexivity.
    + reflexivity.
    + vm_compute. split; reflexivity.
Defined.

(** A missing path is not a directory either: [os.remove] then raises. *)
Example local_delete_missing :
  raised_class (LocalClient_delete_obj (Some (LocalClient 0)) "/tmp/ckpt/6"
                  Scenario.local_proc).1 = Some FileNotFoundError.
Proof. reflexivity. Qed.

(** ** The free-space guard of [__init__] *)

(** The guard [free_size < 0.1] compares gibibytes with one tenth: it
    fires exactly for byte counts up to 107374182 (0.1 GiB). *)
Lemma free_space_guard_bytes (bytes : Z) :
  Qltb (inject_Z bytes / inject_Z (1024 ^ 3)) float_0_1 = true
  <-> (bytes <= 107374182)%Z.
Proof.
  change (1024 ^ 3)%Z with 1073741824%Z.
  unfold Qltb, Qle_bool, Qdiv, Qmult, Qinv, inject_Z, float_0_1. simpl.
  rewrite negb_true_iff, Z.leb_gt. lia.
Qed.

Example init_rejects_below_a_tenth_GiB :
  (__init__ true "/dev/shm/test/" true 8 (Scenario.proc0 26214 true)).1
  = Raise (Exn RuntimeError "Insufficient temporary storage space on node1").
Proof. vm_compute. reflexivity. Qed.

Example init_accepts_from_a_tenth_GiB :
  is_ok (__init__ true "/dev/shm/test/" true 8 (Scenario.proc0 26215 true)).1 = true.
Proof. vm_compute. reflexivity. Qed.

(** C2: the guard of [__init__] does not reject a temp mount with less
    than 100 GiB free.  With 262144 free blocks of 4096 bytes (1 GiB)
    construction with saving and asynchronous mode enabled succeeds; the
    threshold the code compares with is 0.1 GiB. *)
Theorem init_accepts_one_GiB_free :
  statvfs (Scenario.proc0 262144 true) "/dev/shm/test/" = (262144, 4096)%Z /\
  (262144 * 4096 < 100 * 1024 ^ 3)%Z /\
  is_ok (__init__ true "/dev/shm/test/" true 8 (Scenario.proc0 262144 true)).1 = true.
Proof. split; [reflexivity|]. split; [reflexivity|]. vm_compute. reflexivity. Qed.

(** ** [Boto3Client.get_fns] *)

Lemma rsplit_max1_cases (c : ascii) (k : string) :
  (PyStr.in_chars c k = false /\ PyStr.rsplit_max1 c k = [k]) \/
  (PyStr.in_chars c k = true /\
   exists h t, PyStr.rsplit_max1 c k = [h; t] /\ PyStr.in_chars c t = false /\
               k = h +:+ String c t).
Proof.
  induction k as [|a k IH].
  - left. split; reflexivity.
  - cbn [PyStr.rsplit_max1]. unfold PyStr.in_chars in *. cbn [list_ascii_of_string existsb].
    destruct IH as [[Hno Heq]|[Hyes (h & t & Heq & Ht & Hk)]].
    + rewrite Heq.
      assert (Hk : match k with "" => [k] = [k] | String _ _ => [k] = [k] end)
        by (destruct k; reflexivity).
      rewrite Hno, orb_false_r.
      assert (Hsw : Ascii.eqb c a = Ascii.eqb a c) by apply Ascii.eqb_sym.
      destruct (Ascii.eqb a c) eqn:Hac.
      * right. rewrite Hsw. split; [reflexivity|].
        apply Ascii.eqb_eq in Hac. subst a.
        exists "", k. split; [|split; [exact Hno | reflexivity]].
        destruct k; reflexivity.
      * left. rewrite Hsw. split; [reflexivity|]. destruct k; reflexivity.
    + right. rewrite Heq, Hyes, orb_true_r. split; [reflexivity|].
      exists (String a h), t. split; [reflexivity|]. split; [exact Ht|].
      rewrite Hk. reflexivity.
Qed.

(** When every page has its ["Contents"] and every key contains a slash,
    [get_fns] returns one name per object, across all pages and in page
    order: the text after the last slash of its key. *)
Lemma get_fns_contents_all (contents acc : list string) :
  Forall (fun k => PyStr.in_chars "/" k = true) contents ->
  exists names,
    get_fns_contents contents acc = Ok (acc ++ names) /\
    Forall2 (fun k name => exists h, k = h +:+ String "/" name
                                     /\ PyStr.in_chars "/" name = false)
            contents names.
Proof.
  intros H. revert acc. induction H as [|k contents Hk _ IH]; intros acc.
  - exists []. rewrite app_nil_r. split; [reflexivity | constructor].
  - cbn [get_fns_contents].
    destruct (rsplit_max1_cases "/" k) as [[Hno _]|[_ (h & t & Heq & Ht & Hkk)]];
      [congruence|].
    rewrite Heq. destruct (IH (acc ++ [t])) as (names & Hn & Hall).
    exists (t :: names). rewrite Hn, <- app_assoc. split; [reflexivity|].
    constructor; [exists h; auto | exact Hall].
Qed.

Lemma get_fns_pages_all (pages : list (list string)) (acc : list string) :
  Forall (Forall (fun k => PyStr.in_chars "/" k = true)) pages ->
  exists names,
    get_fns_pages (Some <$> pages) acc = Ok (acc ++ names) /\
    Forall2 (fun k name => exists h, k = h +:+ String "/" name
                                     /\ PyStr.in_chars "/" name = false)
            (concat pages) names.
Proof.
  intros H. revert acc. induction H as [|p pages Hp _ IH]; intros acc.
  - exists []. rewrite app_nil_r. split; [reflexivity | constructor].
  - cbn [fmap list_fmap get_fns_pages]. 
    destruct (get_fns_contents_all p acc Hp) as (n1 & Hn1 & Hall1).
    change (list_fmap _ _ Some pages) with (Some <$> pages).
    rewrite Hn1. destruct (IH (acc ++ n1)) as (n2 & Hn2 & Hall2).
    exists (n1 ++ n2). rewrite Hn2, <- app_assoc. split; [reflexivity|].
    cbn [concat]. apply Forall2_app; assumption.
Qed.

Example get_fns_three_pages :
  get_fns_pages [Some ["ckpt/1/a.pt"; "ckpt/1/b.pt"]; Some ["ckpt/2/a.pt"]; Some ["ckpt/3"]] []
  = Ok ["a.pt"; "b.pt"; "a.pt"; "3"].
Proof. reflexivity. Qed.

Example get_fns_empty_listing :
  get_fns_pages [None] [] = Raise (Exn KeyError "Contents").
Proof. reflexivity. Qed.

(** C7: [Boto3Client.get_fns] does not return the name of an object whose
    key has no slash.  For the object [model.pt] at the root of the bucket
    the listing has one page with that key, and
    [fp.rsplit("/", maxsplit=1)[1]] raises [IndexError]. *)
Theorem get_fns_root_object_raises :
  (S3.paginate "http://10.0.0.1:80" "ckpt" "" Scenario.store_proc).1
  = Ok [Some ["model.pt"]] /\
  (Boto3Client_get_fns (Some (Boto3Client 1 "http://10.0.0.1:80" "id" "secret"))
     "ckpt" "" "" Scenario.store_proc).1
  = Raise (Exn IndexError "list index out of range").
Proof. split; vm_compute; reflexivity. Qed.

(** ** [wait]: failures of uploads, cleanup and the success counter *)

(** The drain leaves the list of Exception Records as it found it. *)
Lemma drain_adds_no_record s :
  _exception_list (self (_sync_tasks s).2) = _exception_list (self s).
Proof. apply _sync_tasks_drain_frame. Qed.

Example two_saves_tracked :
  _to_be_del_files (self (Scenario.two_saves true))
  = ["/dev/shm/test/a.pt-Nov03_10-00-00-4242.tmpfile";
     "/dev/shm/test/b.pt-Nov03_10-00-00-4242.tmpfile"]
  /\ length (_async_stack (self (Scenario.two_saves true))) = 2%nat.
Proof. vm_compute. split; reflexivity. Qed.

(** C1: a failed upload is not reported by [wait].  After two asynchronous
    saves, of which the second goes to an endpoint that cannot be reached,
    the second future finishes with the upload's [RuntimeError]; yet
    [task.exception()] returns that error instead of raising it, no
    Exception Record is written, and [wait] returns normally and counts
    the cycle as a success. *)
Theorem wait_returns_after_failed_upload :
  fut_state <$> _async_stack (self (asyncio_wait_all (Scenario.two_saves true)).2)
  = [Finished None;
     Finished (Some (Exn RuntimeError
        "Boto3 Network Error: Please Check your Internet Connection in node1"))] /\
  (wait (Scenario.two_saves true)).1 = Ok tt /\
  _exception_list (self (wait (Scenario.two_saves true)).2) = [] /\
  upload_count (self (Scenario.two_saves true)) = 0%Z /\
  upload_count (self (wait (Scenario.two_saves true)).2) = 1%Z.
Proof. vm_compute. repeat split; reflexivity. Qed.

(** Were a record written the way [_sync_tasks] writes it, [(e, file_id)],
    [wait] would unpack it as [file_id, error_msg] and index the temp-file
    list with the exception. *)
Example wait_indexes_with_the_exception :
  raised_class
    (wait (on_self (set__exception_list
                      [(PyExc (Exn RuntimeError "upload failed"), PyInt 0)])
                   (Scenario.two_saves true))).1
  = Some TypeError.
Proof. vm_compute. reflexivity. Qed.

Lemma removable_fs p q fp : fs p = fs q -> removable p fp -> removable q fp.
Proof. unfold removable, Os.lookup. intros ->. auto. Qed.

(** C3, as worded, fails: on a process that is not the logging rank a
    drain without Exception Records cleans up, but the success counter
    stays where it was. *)
Lemma wait_off_rank_does_not_count :
  ~ AsWorded.wait_cleans_and_counts (Scenario.one_save false).
Proof.
  intros H.
  assert (Hr : _exception_list (self (_sync_tasks (Scenario.one_save false)).2) = [])
    by (vm_compute; reflexivity).
  destruct (H Hr) as (_ & _ & _ & Hc).
  vm_compute in Hc. discriminate Hc.
Qed.

(** C3, amended: [wait] deletes every tracked temp file, clears the
    temp-file list and the exception list, and (only on the rank that logs)
    increments the success counter, exactly when the exception list is
    empty once the drain is done; when it is not, [wait] raises, no temp
    file is deleted, neither list is cleared and the counter is unchanged. *)
Theorem wait_cleans_iff_no_record (s : State) (loop : nat) :
  async_mode (self s) = true ->
  _async_loop (self s) = Some loop ->
  Forall (fun t => fut_state t <> Cancelled) (_async_stack (self s)) ->
  Forall (removable (proc s)) (_to_be_del_files (self s)) ->
  (_exception_list (self (_sync_tasks s).2) = [] ->
   (wait s).1 = Ok tt /\
   _to_be_del_files (self (wait s).2) = [] /\
   _exception_list (self (wait s).2) = [] /\
   Forall (fun fp => Os.lookup fp (proc (wait s).2) = None) (_to_be_del_files (self s)) /\
   upload_count (self (wait s).2)
   = (upload_count (self s) + (if rank_for_log (proc s) then 1 else 0))%Z) /\
  (_exception_list (self (_sync_tasks s).2) <> [] ->
   is_ok (wait s).1 = false /\
   fs (proc (wait s).2) = fs (proc s) /\
   _to_be_del_files (self (wait s).2) = _to_be_del_files (self s) /\
   _exception_list (self (wait s).2) = _exception_list (self (_sync_tasks s).2) /\
   upload_count (self (wait s).2) = upload_count (self s)).
Proof.
  intros Ham Hl Hnc Hrm.
  destruct (_sync_tasks_returns s Hnc) as [s1 Hd].
  pose proof (_sync_tasks_drain_frame s) as (Hfs & Hrk & Hex & Hfiles & Hcnt & _).
  rewrite Hd in *. simpl in *. split.
  - intros Hr. rewrite (wait_without_record _ _ _ Ham Hl Hd Hr).
    destruct s1 as [sm1 pr1]. simpl in *.
    assert (Hrm1 : Forall (removable pr1) (_to_be_del_files sm1)).
    { rewrite Hfiles. eapply Forall_impl; [exact Hrm|].
      intros fp. apply removable_fs. symmetry. exact Hfs. }
    destruct (del_loop_removable _ sm1 pr1 Hrm1) as (pr' & Hloop & Hgone & _ & Hrk').
    unfold _del_tmp_folder, bind, get. simpl. rewrite Hloop. simpl.
    rewrite Hrk', Hrk. rewrite <- Hfiles.
    destruct (rank_for_log (proc s)); simpl; repeat split; try exact Hgone;
      rewrite Hcnt; lia.
  - intros Hr. destruct (_exception_list (self s1)) as [|r rest] eqn:Hrec; [congruence|].
    destruct (wait_with_record _ _ _ _ _ Ham Hl Hd Hrec) as [e ->]. simpl.
    repeat split; assumption.
Qed.

Lemma wait_cleans_iff_no_record_witness :
  (wait (Scenario.one_save true)).1 = Ok tt /\
  _to_be_del_files (self (wait (Scenario.one_save true)).2) = [] /\
  _exception_list (self (wait (Scenario.one_save true)).2) = [] /\
  Forall (fun fp => Os.lookup fp (proc (wait (Scenario.one_save true)).2) = None)
         (_to_be_del_files (self (Scenario.one_save true))) /\
  upload_count (self (wait (Scenario.one_save true)).2)
  = (upload_count (self (Scenario.one_save true))
     + (if rank_for_log (proc (Scenario.one_save true)) then 1 else 0))%Z.
Proof.
  apply (proj1 (wait_cleans_iff_no_record (Scenario.one_save true) 0
                  ltac:(vm_compute; reflexivity) ltac:(vm_compute; reflexivity)
                  ltac:(vm_compute; repeat constructor; discriminate)
                  ltac:(vm_compute; repeat constructor))).
  vm_compute. reflexivity.
Defined.

(** ** [load] *)

(** The order of [load]: in every state the process reaches, [load] first
    runs [wait].  If [wait] raises, [load] raises the same exception from
    the same state, and neither the path resolver nor the backend is
    called.  If [wait] returns, no task is tracked any more, and [load]
    continues from that state with the resolution of the context and the
    backend's [load]. *)
Lemma load_runs_wait_first (enable_save : bool) (tmp : string) (am : bool) (n : nat)
    (pr : Proc) (sm : StorageManager) (pr' : Proc) (s : State) (load_path : string) :
  __init__ enable_save tmp am n pr = (Ok sm, pr') ->
  steps (mkState sm pr') s ->
  match wait s with
  | (Raise e, s1) => load load_path s = (Raise e, s1)
  | (Ok _, s1) =>
      _async_stack (self s1) = [] /\
      load load_path s
      = (meta <- _get_client load_path ;;
         liftP (call_load (meta_client meta) (unpack_meta meta))) s1
  end.
Proof.
  intros Hi Hs.
  pose proof (reachable_sched_inv _ _ _ _ _ _ _ _ Hi Hs) as Hinv.
  destruct (wait s) as [[[]|e] s1] eqn:Hw.
  - split; [eapply wait_Ok_drained; eassumption|].
    unfold load. unfold bind at 1. rewrite Hw. reflexivity.
  - unfold load. unfold bind at 1. rewrite Hw. reflexivity.
Qed.

(** C5: [load] drains the pending saves, but does not surface the failure
    of one.  After two asynchronous saves, [a.pt] to an endpoint that can
    be reached and [b.pt] to one that cannot, [load] of [a.pt] runs both
    uploads in its [wait]: the first stores [a.pt], which [load] then
    returns; the second finishes with the upload's [RuntimeError].  That
    error is returned by [task.exception()], not raised, so no Exception
    Record is written and [load] returns normally.  Afterwards [b.pt] is
    neither in the store nor in its staging file, nothing is tracked any
    more, and the cycle is counted as a success. *)
Theorem load_hides_failed_upload :
  length (_async_stack (self (Scenario.two_saves true))) = 2%nat /\
  fut_state <$> _async_stack (self (asyncio_wait_all (Scenario.two_saves true)).2)
  = [Finished None;
     Finished (Some (Exn RuntimeError
        "Boto3 Network Error: Please Check your Internet Connection in node1"))] /\
  (load "boto3:s3://ckpt.10.0.0.1/run/a.pt" (Scenario.two_saves true)).1 = Ok "A" /\
  s3_objects (proc (Scenario.two_saves true)) = ∅ /\
  map_to_list
    (s3_objects (proc (load "boto3:s3://ckpt.10.0.0.1/run/a.pt" (Scenario.two_saves true)).2))
  = [("http://10.0.0.1:80", "ckpt", "run/a.pt", "A")] /\
  Os.lookup "/dev/shm/test/b.pt-Nov03_10-00-00-4242.tmpfile" (proc (Scenario.two_saves true))
  = Some (Node false "B" true true true) /\
  Os.lookup "/dev/shm/test/b.pt-Nov03_10-00-00-4242.tmpfile"
    (proc (load "boto3:s3://ckpt.10.0.0.1/run/a.pt" (Scenario.two_saves true)).2)
  = None /\
  _exception_list
    (self (load "boto3:s3://ckpt.10.0.0.1/run/a.pt" (Scenario.two_saves true)).2) = [] /\
  _async_stack
    (self (load "boto3:s3://ckpt.10.0.0.1/run/a.pt" (Scenario.two_saves true)).2) = [] /\
  _to_be_del_files
    (self (load "boto3:s3://ckpt.10.0.0.1/run/a.pt" (Scenario.two_saves true)).2) = [] /\
  upload_count (self (Scenario.two_saves true)) = 0%Z /\
  upload_count
    (self (load "boto3:s3://ckpt.10.0.0.1/run/a.pt" (Scenario.two_saves true)).2) = 1%Z.
Proof. vm_compute. repeat split; reflexivity. Qed.

(** The same for a [load] from the local backend: the failed upload goes
    unnoticed, and the only error is that of the local file. *)
Example load_after_failed_upload :
  (load "local:/tmp/ckpt/5" (Scenario.two_saves true)).1
  = Raise (Exn AssertionError "/tmp/ckpt/5 is not found!")
  /\ _async_stack (self (load "local:/tmp/ckpt/5" (Scenario.two_saves true)).2) = [].
Proof. vm_compute. split; reflexivity. Qed.

(** ** The scheduler of a manager built without it *)

(** C9: submitting to the scheduler of a manager that was not built with
    saving and asynchronous mode both enabled does not raise the
    [RuntimeError] of [async_executor] ("Event loop was not initialized").
    The attribute [_async_loop] was never assigned, so reading it for the
    test [if not self._async_loop] raises [AttributeError]; the same holds
    for an asynchronous [save] on such a manager, and on one built for
    synchronous saving. *)
Theorem submit_without_scheduler_is_AttributeError :
  _async_loop (self Scenario.no_save) = None /\
  (async_executor async_upload_fileobj [] Scenario.no_save).1
  = Raise (Exn AttributeError "'StorageManager' object has no attribute '_async_loop'") /\
  (save "boto3:s3://ckpt.10.0.0.1/run/a.pt" (Some "A") None Scenario.no_save).1
  = Raise (Exn AttributeError "'StorageManager' object has no attribute '_async_loop'") /\
  (save "boto3:s3://ckpt.10.0.0.1/run/a.pt" (Some "A") (Some true) Scenario.sync_only).1
  = Raise (Exn AttributeError "'StorageManager' object has no attribute '_async_loop'").
Proof. vm_compute. repeat split; reflexivity. Qed.

Lemma async_executor_no_loop fn args s :
  _async_loop (self s) = None ->
  async_executor fn args s
  = (Raise (Exn AttributeError "'StorageManager' object has no attribute '_async_loop'"), s).
Proof.
  intros H. unfold async_executor, getattr__async_loop, bind, get. simpl.
  rewrite H. reflexivity.
Qed.

(** C10: a manager constructed with asynchronous mode enabled and saving
    disabled has neither [_async_loop] nor [_thread_pool]; in every state
    it reaches afterwards, [wait] raises [AttributeError] (it neither
    returns, nor drains, nor cleans up: the state is left as it was), and
    so does every submission to the scheduler, which never reaches the
    [RuntimeError] branch. *)
Theorem no_scheduler_attribute_faults (tmp : string) (n : nat) (pr : Proc)
    (sm : StorageManager) (pr' : Proc) (s : State) (fn : async_fn) (args : list pyarg) :
  __init__ false tmp true n pr = (Ok sm, pr') ->
  steps (mkState sm pr') s ->
  _async_loop sm = None /\ _thread_pool sm = None /\
  wait s
  = (Raise (Exn AttributeError "'StorageManager' object has no attribute '_async_loop'"), s) /\
  async_executor fn args s
  = (Raise (Exn AttributeError "'StorageManager' object has no attribute '_async_loop'"), s).
Proof.
  intros Hi Hs.
  apply init_returns in Hi as (_ & _ & _ & _ & Ham & _ & Hl & Htp). simpl in *.
  apply steps_evolves in Hs as (Hc & _). unfold config in Hc. simpl in Hc.
  injection Hc as Ham' Hl' _ _.
  split; [exact Hl|]. split; [exact Htp|]. split.
  - apply wait_no_loop; congruence.
  - apply async_executor_no_loop. congruence.
Qed.

Lemma no_scheduler_attribute_faults_witness :
  _async_loop (self Scenario.no_save) = None /\
  _thread_pool (self Scenario.no_save) = None /\
  wait (exec CallWait (mkState (self Scenario.no_save) (proc Scenario.no_save)))
  = (Raise (Exn AttributeError "'StorageManager' object has no attribute '_async_loop'"),
     exec CallWait (mkState (self Scenario.no_save) (proc Scenario.no_save))) /\
  async_executor async_upload_fileobj []
    (exec CallWait (mkState (self Scenario.no_save) (proc Scenario.no_save)))
  = (Raise (Exn AttributeError "'StorageManager' object has no attribute '_async_loop'"),
     exec CallWait (mkState (self Scenario.no_save) (proc Scenario.no_save))).
Proof.
  apply (no_scheduler_attribute_faults "/dev/shm/test/" 8 Scenario.proc1
           (self Scenario.no_save) (proc Scenario.no_save)).
  - vm_compute. reflexivity.
  - eapply rtc_l; [apply (step_call CallWait)|]. apply rtc_refl.
Defined.

(** ** The client cache *)

Lemma liftP_Ok {A} (m : M Proc A) s a s' :
  liftP m s = (Ok a, s') -> exists p', m (proc s) = (Ok a, p') /\ s' = mkState (self s) p'.
Proof.
  unfold liftP. destruct (m (proc s)) as [r p']. intros [= -> <-]. eauto.
Qed.

(** A resolved context carries the client the cache holds under its key. *)
Lemma _get_client_cached path s meta s' :
  _get_client path s = (Ok meta, s') ->
  exists c, meta_client meta = Some c /\ CLI_DICT (proc s') !! cache_key meta = Some c.
Proof.
  unfold _get_client.
  destruct (PyStr.split_max1 ":" path) as [|backend [|path' [|? ?]]];
    try (intros H; discriminate H).
  destruct (String.eqb backend "local") eqn:Hloc.
  - apply String.eqb_eq in Hloc. subst backend. intros H.
    apply bind_Ok in H as (mi & s1 & _ & H).
    apply bind_Ok in H as (c & s2 & Hc & H).
    injection H as <- <-.
    apply liftP_Ok in Hc as (p' & Hc & ->).
    exists c. split; [reflexivity|]. simpl. eapply get_or_create_Ok, Hc.
  - destruct (String.eqb backend "boto3") eqn:Hb; [|intros H; discriminate H].
    apply String.eqb_eq in Hb. subst backend. intros H.
    apply bind_Ok in H as (s0 & s1 & _ & H).
    apply bind_Ok in H as (mi & s2 & _ & H).
    apply bind_Ok in H as (u & s3 & _ & H).
    apply bind_Ok in H as (c & s4 & Hc & H).
    injection H as <- <-.
    apply liftP_Ok in Hc as (p' & Hc & ->).
    exists c. split; [reflexivity|]. simpl. eapply get_or_create_Ok, Hc.
Qed.

Lemma cache_key_endpoint m1 m2 :
  cache_key (Boto3Meta m1) = cache_key (Boto3Meta m2) -> endpoint m1 = endpoint m2.
Proof. simpl. intros [= H]. exact H. Qed.

(** C6: over the lifetime of a process that starts with an empty cache,
    two resolutions with the same cache key (["local"] for the local
    backend, ["boto3:" + endpoint] for the remote one) yield the same
    client object, whatever calls are made in between, and two resolutions
    with different keys, in particular with two different remote endpoints,
    yield different objects. *)
Theorem one_client_per_cache_key (s0 s1 s1' s2 s2' : State) (p1 p2 : string)
    (m1 m2 : MetaInfo) :
  CLI_DICT (proc s0) = ∅ ->
  steps s0 s1 ->
  _get_client p1 s1 = (Ok m1, s1') ->
  steps s1' s2 ->
  _get_client p2 s2 = (Ok m2, s2') ->
  exists c1 c2,
    meta_client m1 = Some c1 /\ meta_client m2 = Some c2 /\
    (cache_key m1 = cache_key m2 -> c1 = c2) /\
    (cache_key m1 <> cache_key m2 -> client_oid c1 <> client_oid c2) /\
    (forall b1 b2, m1 = Boto3Meta b1 -> m2 = Boto3Meta b2 ->
                   endpoint b1 <> endpoint b2 -> client_oid c1 <> client_oid c2).
Proof.
  intros Hempty Hs1 Hg1 Hs2 Hg2.
  pose proof (cache_inv_empty _ Hempty) as Hinv0.
  destruct (steps_evolves _ _ Hs1) as (_ & _ & Hle1).
  destruct (Hle1 Hinv0) as (Hinv1 & _ & _).
  pose proof (_get_client_evolves p1 s1) as (_ & _ & Hle1'). rewrite Hg1 in Hle1'.
  destruct (Hle1' Hinv1) as (Hinv1' & _ & _). simpl in Hinv1'.
  destruct (steps_evolves _ _ Hs2) as (_ & _ & Hle2).
  destruct (Hle2 Hinv1') as (Hinv2 & Hsub2 & _).
  pose proof (_get_client_evolves p2 s2) as (_ & _ & Hle2'). rewrite Hg2 in Hle2'.
  destruct (Hle2' Hinv2) as (Hinv2' & Hsub2' & _). simpl in Hinv2', Hsub2'.
  destruct (_get_client_cached _ _ _ _ Hg1) as (c1 & Hm1 & Hc1).
  destruct (_get_client_cached _ _ _ _ Hg2) as (c2 & Hm2 & Hc2).
  assert (Hc1' : CLI_DICT (proc s2') !! cache_key m1 = Some c1).
  { eapply lookup_weaken; [|exact Hsub2']. eapply lookup_weaken; [exact Hc1 | exact Hsub2]. }
  assert (Hne : cache_key m1 <> cache_key m2 -> client_oid c1 <> client_oid c2).
  { intros Hk Hoid. apply Hk. destruct Hinv2' as [_ Hinj]. eapply Hinj; eassumption. }
  exists c1, c2. split; [exact Hm1|]. split; [exact Hm2|]. split; [|split].
  - intros Hk. rewrite Hk in Hc1'. congruence.
  - exact Hne.
  - intros b1 b2 -> -> Hep. apply Hne. intros Hk. apply Hep, cache_key_endpoint, Hk.
Qed.

Lemma one_client_per_cache_key_witness :
  exists c1 c2,
    meta_client Scenario.meta_a = Some c1 /\ meta_client Scenario.meta_b = Some c2 /\
    (cache_key Scenario.meta_a = cache_key Scenario.meta_b -> c1 = c2) /\
    (cache_key Scenario.meta_a <> cache_key Scenario.meta_b ->
     client_oid c1 <> client_oid c2) /\
    (forall b1 b2, Scenario.meta_a = Boto3Meta b1 -> Scenario.meta_b = Boto3Meta b2 ->
                   endpoint b1 <> endpoint b2 -> client_oid c1 <> client_oid c2).
Proof.
  apply (one_client_per_cache_key
           (Scenario.ready true) (Scenario.ready true)
           (_get_client "boto3:s3://ckpt.10.0.0.1/a" (Scenario.ready true)).2
           (_get_client "boto3:s3://ckpt.10.0.0.1/a" (Scenario.ready true)).2
           (_get_client "boto3:s3://ckpt.10.0.0.2/b"
              (_get_client "boto3:s3://ckpt.10.0.0.1/a" (Scenario.ready true)).2).2
           "boto3:s3://ckpt.10.0.0.1/a" "boto3:s3://ckpt.10.0.0.2/b"
           Scenario.meta_a Scenario.meta_b).
  - vm_compute. reflexivity.
  - apply rtc_refl.
  - vm_compute. reflexivity.
  - apply rtc_refl.
  - vm_compute. reflexivity.
Defined.

Example same_endpoint_same_client :
  (_get_client "boto3:s3://other.10.0.0.1/b"
     (_get_client "boto3:s3://ckpt.10.0.0.1/a" (Scenario.ready true)).2).1
  = Ok (Boto3Meta (mkBoto3Meta true (Some (Boto3Client 1 "http://10.0.0.1:80" "id" "secret"))
                     "other" "http://10.0.0.1:80" "b" async_upload_fileobj
                     "/dev/shm/test/b-Nov03_10-00-00-4242.tmpfile")).
Proof. vm_compute. reflexivity. Qed.

(** Without the credentials no remote client is built, and none is cached. *)
Example missing_credentials :
  let pr := mkProc ∅ ∅ "node1" 1 "t" (fun _ => (0, 0)%Z) true ∅ 0 ∅ (fun _ => false) in
  raised_class (get_or_create "boto3:http://10.0.0.1:80" "boto3" (Some "http://10.0.0.1:80")
                  pr).1 = Some RuntimeError
  /\ CLI_DICT (get_or_create "boto3:http://10.0.0.1:80" "boto3" (Some "http://10.0.0.1:80")
                  pr).2 = ∅.
Proof. vm_compute. split; reflexivity. Qed.

(** ** The path resolver *)

Arguments PyStr.startswith : simpl never.

Lemma split_app (c : ascii) (x y : string) :
  PyStr.in_chars c x = false ->
  PyStr.split c (x +:+ String c y) = x :: PyStr.split c y.
Proof.
  unfold PyStr.in_chars. induction x as [|a x IH]; simpl.
  - intros _. rewrite Ascii.eqb_refl. reflexivity.
  - intros H. apply orb_false_iff in H as [Ha Hx].
    rewrite (Ascii.eqb_sym a c), Ha, (IH Hx). reflexivity.
Qed.

Lemma split_not_nil (c : ascii) (k : string) : PyStr.split c k <> [].
Proof.
  destruct k as [|a k]; simpl; [discriminate|].
  destruct (Ascii.eqb a c); [discriminate|].
  destruct (PyStr.split c k); discriminate.
Qed.

(** Joining the fields of a split with the separator gives the text back. *)
Lemma join_split (c : ascii) (k : string) :
  PyStr.join (String c "") (PyStr.split c k) = k.
Proof.
  induction k as [|a k IH]; [reflexivity|].
  pose proof (split_not_nil c k) as Hne.
  cbn [PyStr.split].
  destruct (PyStr.split c k) as [|f fs]; [congruence|].
  destruct (Ascii.eqb a c) eqn:Hac.
  - apply Ascii.eqb_eq in Hac. subst a. rewrite <- IH. reflexivity.
  - rewrite <- IH. destruct fs; reflexivity.
Qed.

Lemma span_app (p : ascii -> bool) (x : string) (c : ascii) (y : string) :
  PyStr.all_chars p x = true -> p c = false ->
  PyStr.span p (x +:+ String c y) = (x, String c y).
Proof.
  unfold PyStr.all_chars. intros Hx Hc. induction x as [|a x IH]; simpl in *.
  - rewrite Hc. reflexivity.
  - apply andb_true_iff in Hx as [Ha Hx]. rewrite Ha, (IH Hx). reflexivity.
Qed.

Lemma span_all (p : ascii -> bool) (x : string) :
  PyStr.all_chars p x = true -> PyStr.span p x = (x, "").
Proof.
  unfold PyStr.all_chars. induction x as [|a x IH]; simpl; [reflexivity|].
  intros Hx. apply andb_true_iff in Hx as [Ha Hx]. rewrite Ha, (IH Hx). reflexivity.
Qed.

Lemma all_chars_not_in (p : ascii -> bool) (c : ascii) (x : string) :
  PyStr.all_chars p x = true -> p c = false -> PyStr.in_chars c x = false.
Proof.
  unfold PyStr.all_chars, PyStr.in_chars. intros Hx Hc.
  induction x as [|a x IH]; simpl in *; [reflexivity|].
  apply andb_true_iff in Hx as [Ha Hx]. rewrite (IH Hx), orb_false_r.
  destruct (Ascii.eqb c a) eqn:E; [|reflexivity].
  apply Ascii.eqb_eq in E. congruence.
Qed.

Lemma string_app_assoc (x y z : string) : (x +:+ y) +:+ z = x +:+ (y +:+ z).
Proof.
  induction x as [|a x IH]; [reflexivity|].
  change (String a ((x +:+ y) +:+ z) = String a (x +:+ (y +:+ z))). rewrite IH. reflexivity.
Qed.

Lemma lstrip_length (chars s : string) :
  (String.length (PyStr.lstrip chars s) <= String.length s)%nat.
Proof.
  induction s as [|a s IH]; simpl; [lia|].
  destruct (PyStr.in_chars a chars); simpl; lia.
Qed.

(** A text that [lstrip] leaves alone does not begin with a stripped
    character. *)
Lemma lstrip_fixed_head (chars : string) (a : ascii) (r : string) :
  PyStr.lstrip chars (String a r) = String a r -> PyStr.in_chars a chars = false.
Proof.
  simpl. destruct (PyStr.in_chars a chars); [|reflexivity].
  intros H. pose proof (lstrip_length chars r) as Hlen.
  rewrite H in Hlen. simpl in Hlen. lia.
Qed.

Lemma all_chars_impl (p q : ascii -> bool) (x : string) :
  (forall c, p c = true -> q c = true) ->
  PyStr.all_chars p x = true -> PyStr.all_chars q x = true.
Proof.
  unfold PyStr.all_chars. intros Hpq. induction x as [|a x IH]; simpl; [reflexivity|].
  intros H. apply andb_true_iff in H as [Ha Hx]. rewrite (Hpq _ Ha), (IH Hx). reflexivity.
Qed.

Lemma in_chars_app (c : ascii) (x y : string) :
  PyStr.in_chars c (x +:+ y) = (PyStr.in_chars c x || PyStr.in_chars c y)%bool.
Proof.
  unfold PyStr.in_chars. induction x as [|a x IH]; simpl; [reflexivity|].
  rewrite IH, orb_assoc. reflexivity.
Qed.

(** The pattern matches a bucket without dots followed by a numeric host,
    and returns both. *)
Lemma boto3_url_re_match_bucket_host (b h : string) :
  b <> "" -> PyStr.all_chars (fun c => negb (Ascii.eqb c ".")) b = true ->
  h <> "" -> PyStr.all_chars is_digit_or_dot h = true ->
  boto3_url_re_match (b +:+ String "." h) = Some (b, h).
Proof.
  intros Hb Hbd Hh Hhd. unfold boto3_url_re_match.
  rewrite (span_app _ b "." h Hbd) by reflexivity.
  destruct b as [|b0 b]; [congruence|].
  rewrite Ascii.eqb_refl, (span_all _ h Hhd).
  destruct h; [congruence | reflexivity].
Qed.

(** The local half of C4: a [local:] URI resolves to the text after the
    prefix, unchanged. *)
Lemma resolve_local_identity (s : State) (p : string) :
  PyStr.startswith "s3://" p = false ->
  exists c, (_get_client ("local:" +:+ p) s).1 = Ok (LocalMeta (mkLocalMeta (Some c) p)).
Proof.
  intros Hp. unfold _get_client. simpl PyStr.split_max1. simpl String.eqb.
  unfold get_local_meta, assert, bind, liftP, ret. simpl.
  change ("" +:+ p) with p. rewrite Hp. simpl.
  destruct (get_or_create_cases "local" "local" None (proc s))
    as [(c & _ & ->)|[(_ & e & He)|(_ & c & _ & ->)]]; simpl; eauto.
  exfalso. unfold get_or_create, BACKEND_INIT_METHOD, LocalClient_init, fresh_oid, bind,
    get, modify, ret in He. simpl in He.
  destruct (CLI_DICT (proc s) !! "local"); discriminate He.
Qed.

(** The remote half, where it holds: for a bucket name without dot or
    slash that does not begin with one of the characters [s], [3], [:],
    [/], and a host made of digits and dots, the resolver returns the
    bucket, the host (inside the endpoint URL) and the key as written. *)
Lemma get_boto3_meta_roundtrip (pr : Proc) (tmp : string) (a : bool) (b h k : string) :
  b <> "" ->
  PyStr.all_chars (fun c => negb (PyStr.in_chars c "./")) b = true ->
  PyStr.lstrip "s3://" b = b ->
  h <> "" -> PyStr.all_chars is_digit_or_dot h = true ->
  exists nvme,
    (get_boto3_meta ("s3://" +:+ b +:+ String "." (h +:+ String "/" k)) tmp a pr).1
    = Ok (mkBoto3Meta a None b ("http://" +:+ h +:+ ":80") k async_upload_fileobj nvme).
Proof.
  intros Hb Hbc Hstrip Hh Hhd.
  assert (Hbdot : PyStr.all_chars (fun c => negb (Ascii.eqb c ".")) b = true).
  { eapply all_chars_impl; [|exact Hbc].
    intros c. unfold PyStr.in_chars. simpl. rewrite orb_false_r.
    intros H. apply negb_true_iff, orb_false_iff in H as [H _]. rewrite H. reflexivity. }
  assert (Hbslash : PyStr.in_chars "/" b = false).
  { eapply all_chars_not_in; [exact Hbc|]. reflexivity. }
  assert (Hhslash : PyStr.in_chars "/" h = false).
  { eapply all_chars_not_in; [exact Hhd|]. reflexivity. }
  assert (Hlstrip : PyStr.lstrip "s3://" ("s3://" +:+ b +:+ String "." (h +:+ String "/" k))
                    = b +:+ String "." (h +:+ String "/" k)).
  { destruct b as [|b0 b]; [congruence|].
    pose proof (lstrip_fixed_head _ _ _ Hstrip) as Hb0.
    simpl. rewrite Hb0. reflexivity. }
  assert (Hparts : PyStr.split "/" (b +:+ String "." (h +:+ String "/" k))
                   = (b +:+ String "." h) :: PyStr.split "/" k).
  { change (b +:+ String "." (h +:+ String "/" k))
      with (b +:+ (String "." h +:+ String "/" k)).
    rewrite <- string_app_assoc. apply split_app.
    rewrite in_chars_app, Hbslash. unfold PyStr.in_chars in *. simpl. exact Hhslash. }
  unfold get_boto3_meta, get_tmp_file_name, assert, bind, get, ret.
  change (PyStr.startswith "s3://" ("s3://" +:+ b +:+ String "." (h +:+ String "/" k)))
    with true. cbv iota beta.
  rewrite Hlstrip. unfold OsPath.sep. rewrite Hparts. cbn [List.hd List.tl].
  rewrite (boto3_url_re_match_bucket_host b h Hb Hbdot Hh Hhd).
  change "/" with (String "/"%char "") at 1.
  eexists. cbn [fst]. rewrite join_split. reflexivity.
Qed.

(** C4: the remote half of the round trip fails for a bucket whose name
    begins with [s] or [3].  [fp.lstrip("s3://")] strips a set of
    characters, not the prefix: for [s3://s3bucket.10.0.0.1/ckpt/model.pt]
    the resolver returns the bucket [bucket], and re-serialising bucket,
    host and key does not give the location back. *)
Theorem resolver_strips_bucket_prefix :
  exists m,
    (_get_client "boto3:s3://s3bucket.10.0.0.1/ckpt/model.pt" (Scenario.ready true)).1
    = Ok (Boto3Meta m) /\
    bucket_name m = "bucket" /\
    endpoint m = "http://10.0.0.1:80" /\
    file_path m = "ckpt/model.pt" /\
    bucket_name m +:+ "." +:+ "10.0.0.1" +:+ "/" +:+ file_path m
    <> "s3bucket.10.0.0.1/ckpt/model.pt".
Proof.
  eexists. split; [vm_compute; reflexivity|].
  repeat split. vm_compute. discriminate.
Qed.

Example resolver_keeps_other_bucket :
  exists nvme,
    (get_boto3_meta "s3://ckpt.10.0.0.1/run/a.pt" "/dev/shm/test/" true
       (Scenario.proc0 Scenario.plenty true)).1
    = Ok (mkBoto3Meta true None "ckpt" "http://10.0.0.1:80" "run/a.pt"
                      async_upload_fileobj nvme).
Proof. eexists. vm_compute. reflexivity. Qed.

(** The pattern is not anchored at the end: what follows the numeric host
    in the first path component (a port, here) is dropped. *)
Example resolver_drops_port :
  boto3_url_re_match "ckpt.10.0.0.1:9000" = Some ("ckpt", "10.0.0.1").
Proof. reflexivity. Qed.

Example resolver_rejects_named_host :
  boto3_url_re_match "ckpt.example.com" = None.
Proof. reflexivity. Qed.

Example resolver_no_backend_prefix :
  raised_class (_get_client "/tmp/ckpt/5" (Scenario.ready true)).1 = Some AttributeError.
Proof. vm_compute. reflexivity. Qed.

Example resolver_unknown_backend :
  raised_class (_get_client "remote:bucket.host/key" (Scenario.ready true)).1
  = Some AssertionError.
Proof. vm_compute. reflexivity. Qed.

(** * Further properties of the code *)

(** ** Path resolution *)

#[global] Instance resolve_frame_preorder : PreOrder resolve_frame.
Proof.
  split.
  - intros s. repeat split; auto.
  - intros s t u (A1 & A2 & A3 & A4 & A5 & A6 & A7 & A8) (B1 & B2 & B3 & B4 & B5 & B6 & B7 & B8).
    repeat split; try congruence. auto.
Qed.

#[global] Instance readonly_frame_preorder : PreOrder readonly_frame.
Proof.
  split.
  - intros p. split; reflexivity.
  - intros p q r [H1 H2] [H3 H4]. split; congruence.
Qed.

Lemma resolve_frame_proc sm p p' :
  readonly_frame p p' -> resolve_frame (mkState sm p) (mkState sm p').
Proof. intros [H1 H2]. repeat split; auto. Qed.

Lemma get_or_create_readonly k backend arg :
  respects readonly_frame (get_or_create k backend arg).
Proof.
  intros pr.
  destruct (get_or_create_cases k backend arg pr)
    as [(c & _ & ->)|[(_ & e & ->)|(_ & c & _ & ->)]]; split; reflexivity.
Qed.

Lemma resolver_readonly :
  (forall fp tmp a, respects readonly_frame (get_boto3_meta fp tmp a)) /\
  (forall fp, respects readonly_frame (get_local_meta fp)).
Proof.
  split_all; intros; unfold get_boto3_meta, get_tmp_file_name, get_local_meta; frame_proc.
Qed.

Lemma _get_client_resolve_frame (path : string) : respects resolve_frame (_get_client path).
Proof.
  unfold _get_client.
  repeat first
    [ frame_step
    | lazymatch goal with
      | |- respects resolve_frame (liftP _) =>
          apply (respects_liftP readonly_frame resolve_frame);
          [exact resolve_frame_proc|];
          first [ apply get_or_create_readonly | apply resolver_readonly ]
      | |- resolve_frame ?s (on_self _ ?s) => repeat split; auto
      end ].
Qed.

(** X1: resolving a path changes nothing of the manager's bookkeeping
    (exception list, temp-file list, tracked tasks, counter), nothing of
    its configuration, and neither the file system nor the remote store,
    whether it returns or raises; a proxy warning once given stays given. *)
Theorem resolution_touches_no_bookkeeping (path : string) (s : State) :
  resolve_frame s (_get_client path s).2.
Proof. apply _get_client_resolve_frame. Qed.

(** X2: a [local:] path resolves to the text after the prefix, unchanged,
    and the resolution cannot fail, unless that text begins with
    [s3://]. *)
Theorem local_path_resolves_unchanged (s : State) (p : string) :
  PyStr.startswith "s3://" p = false ->
  exists c, (_get_client ("local:" +:+ p) s).1 = Ok (LocalMeta (mkLocalMeta (Some c) p)).
Proof. apply resolve_local_identity. Qed.

Lemma local_path_resolves_unchanged_witness :
  exists c, (_get_client ("local:" +:+ "/tmp/ckpt/5") (Scenario.ready true)).1
            = Ok (LocalMeta (mkLocalMeta (Some c) "/tmp/ckpt/5")).
Proof.
  apply (local_path_resolves_unchanged (Scenario.ready true) "/tmp/ckpt/5").
  reflexivity.
Defined.

(** X3: for a remote path [s3://bucket.host/key] whose bucket has no dot
    or slash and does not begin with [s], [3], [:] or [/], and whose host
    consists of digits and dots, the resolver returns the bucket and the
    key as written and the endpoint [http://host:80]. *)
Theorem remote_path_round_trip (pr : Proc) (tmp : string) (a : bool) (b h k : string) :
  b <> "" ->
  PyStr.all_chars (fun c => negb (PyStr.in_chars c "./")) b = true ->
  PyStr.lstrip "s3://" b = b ->
  h <> "" -> PyStr.all_chars is_digit_or_dot h = true ->
  exists m,
    (get_boto3_meta ("s3://" +:+ b +:+ String "." (h +:+ String "/" k)) tmp a pr).1 = Ok m /\
    bucket_name m = b /\ endpoint m = "http://" +:+ h +:+ ":80" /\ file_path m = k /\
    b_is_async m = a /\
    bucket_name m +:+ String "." (h +:+ String "/" (file_path m))
    = b +:+ String "." (h +:+ String "/" k).
Proof.
  intros Hb Hbc Hs Hh Hhd.
  destruct (get_boto3_meta_roundtrip pr tmp a b h k Hb Hbc Hs Hh Hhd) as [nvme H].
  eexists. split; [exact H|]. repeat split.
Qed.

Lemma remote_path_round_trip_witness :
  exists m,
    (get_boto3_meta ("s3://" +:+ "ckpt" +:+ String "." ("10.0.0.1" +:+ String "/" "run/a.pt"))
       "/dev/shm/test/" true (Scenario.proc0 Scenario.plenty true)).1 = Ok m /\
    bucket_name m = "ckpt" /\ endpoint m = "http://" +:+ "10.0.0.1" +:+ ":80" /\
    file_path m = "run/a.pt" /\ b_is_async m = true /\
    bucket_name m +:+ String "." ("10.0.0.1" +:+ String "/" (file_path m))
    = "ckpt" +:+ String "." ("10.0.0.1" +:+ String "/" "run/a.pt").
Proof.
  apply (remote_path_round_trip (Scenario.proc0 Scenario.plenty true) "/dev/shm/test/" true
           "ckpt" "10.0.0.1" "run/a.pt");
    try discriminate; reflexivity.
Defined.

Lemma split_max1_no_sep (c : ascii) (s : string) :
  PyStr.in_chars c s = false -> PyStr.split_max1 c s = [s].
Proof.
  unfold PyStr.in_chars. induction s as [|a s IH]; [reflexivity|].
  cbn [list_ascii_of_string existsb PyStr.split_max1]. intros H.
  apply orb_false_iff in H as [Ha Hs]. rewrite (Ascii.eqb_sym a c), Ha, (IH Hs).
  reflexivity.
Qed.

Lemma split_max1_app (c : ascii) (x y : string) :
  PyStr.in_chars c x = false -> PyStr.split_max1 c (x +:+ String c y) = [x; y].
Proof.
  unfold PyStr.in_chars. induction x as [|a x IH]; intros H.
  - change ("" +:+ String c y) with (String c y).
    cbn [PyStr.split_max1]. rewrite Ascii.eqb_refl. reflexivity.
  - cbn [list_ascii_of_string existsb] in H. apply orb_false_iff in H as [Ha Hx].
    change (String a x +:+ String c y) with (String a (x +:+ String c y)).
    cbn [PyStr.split_max1]. rewrite (Ascii.eqb_sym a c), Ha, (IH Hx). reflexivity.
Qed.

(** X4: a path without a colon is rejected with [AttributeError], and a
    path whose backend prefix is neither [local] nor [boto3] with
    [AssertionError]; in both cases the state is left as it was (no client
    is built or cached). *)
Theorem malformed_path_rejected (s : State) (path backend rest : string) :
  PyStr.in_chars ":" path = false ->
  PyStr.in_chars ":" backend = false -> backend <> "local" -> backend <> "boto3" ->
  _get_client path s
  = (Raise (Exn AttributeError
              ("Given path '" +:+ path
               +:+ "' is not startwith backend prefix:'local/boto3'")), s) /\
  _get_client (backend +:+ String ":" rest) s
  = (Raise (Exn AssertionError ("Unkown backend: " +:+ backend)), s).
Proof.
  intros Hp Hb Hl Hr. unfold _get_client. split.
  - rewrite (split_max1_no_sep _ _ Hp). reflexivity.
  - rewrite (split_max1_app _ _ _ Hb).
    apply String.eqb_neq in Hl, Hr. rewrite Hl, Hr. reflexivity.
Qed.

Lemma malformed_path_rejected_witness :
  _get_client "/tmp/ckpt/5" (Scenario.ready true)
  = (Raise (Exn AttributeError
              ("Given path '" +:+ "/tmp/ckpt/5"
               +:+ "' is not startwith backend prefix:'local/boto3'")), Scenario.ready true) /\
  _get_client ("remote" +:+ String ":" "bucket.host/key") (Scenario.ready true)
  = (Raise (Exn AssertionError ("Unkown backend: " +:+ "remote")), Scenario.ready true).
Proof.
  apply (malformed_path_rejected (Scenario.ready true) "/tmp/ckpt/5" "remote"
           "bucket.host/key"); try reflexivity; discriminate.
Defined.

(** ** Listing the remote store *)

Lemma get_fns_contents_inv (contents acc names : list string) :
  get_fns_contents contents acc = Ok names ->
  Forall (fun k => PyStr.in_chars "/" k = true) contents /\
  exists new, names = acc ++ new /\
    Forall2 (fun k name => exists h, k = h +:+ String "/" name
                                     /\ PyStr.in_chars "/" name = false)
            contents new.
Proof.
  revert acc. induction contents as [|k contents IH]; intros acc; cbn [get_fns_contents].
  - intros [= <-]. split; [constructor|]. exists []. rewrite app_nil_r.
    split; [reflexivity | constructor].
  - destruct (rsplit_max1_cases "/" k) as [[_ Heq]|[Hin (h & t & Heq & Ht & Hk)]];
      rewrite Heq; [destruct k; discriminate|].
    intros H. apply IH in H as (Hall & new & -> & Hrel).
    split; [constructor; assumption|].
    exists (t :: new). rewrite <- app_assoc. split; [reflexivity|].
    constructor; [exists h; auto | exact Hrel].
Qed.

(** X5: [Boto3Client.get_fns] returns exactly when every page of the
    listing has its ["Contents"] and every key in every page contains a
    slash; it then returns one name per object of every page, in listing
    order, each name being the text after the last slash of the key. *)
Theorem listing_returns_iff_every_key_nested (pages : list S3.page) :
  ((exists names, get_fns_pages pages [] = Ok names) <->
   Forall (fun pg => exists contents,
               pg = Some contents /\
               Forall (fun k => PyStr.in_chars "/" k = true) contents) pages) /\
  (forall names, get_fns_pages pages [] = Ok names ->
     Forall2 (fun k name => exists h, k = h +:+ String "/" name
                                      /\ PyStr.in_chars "/" name = false)
             (concat (default [] <$> pages)) names).
Proof.
  assert (Hinv : forall pages acc names, get_fns_pages pages acc = Ok names ->
            Forall (fun pg => exists contents,
                        pg = Some contents /\
                        Forall (fun k => PyStr.in_chars "/" k = true) contents) pages /\
            exists new, names = acc ++ new /\
              Forall2 (fun k name => exists h, k = h +:+ String "/" name
                                               /\ PyStr.in_chars "/" name = false)
                      (concat (default [] <$> pages)) new).
  { clear pages. induction pages as [|pg pages IH]; intros acc names; cbn [get_fns_pages].
    - intros [= <-]. split; [constructor|]. exists []. rewrite app_nil_r.
      split; [reflexivity | constructor].
    - destruct pg as [contents|]; [|discriminate].
      destruct (get_fns_contents contents acc) as [l|e] eqn:Hc; [|discriminate].
      apply get_fns_contents_inv in Hc as (Hall & n1 & -> & Hrel1).
      intros H. apply IH in H as (Hpages & n2 & -> & Hrel2).
      split; [constructor; eauto|].
      exists (n1 ++ n2). rewrite <- app_assoc. split; [reflexivity|].
      cbn [fmap list_fmap concat default]. apply Forall2_app; assumption. }
  split; [split|].
  - intros [names H]. apply Hinv in H as [H _]. exact H.
  - intros Hall.
    assert (Hex : exists cl, pages = Some <$> cl /\
                             Forall (Forall (fun k => PyStr.in_chars "/" k = true)) cl).
    { induction Hall as [|pg pages (contents & -> & Hc) _ (cl & -> & Hcl)].
      - exists []. split; [reflexivity | constructor].
      - exists (contents :: cl). split; [reflexivity | constructor; assumption]. }
    destruct Hex as (cl & -> & Hcl).
    destruct (get_fns_pages_all cl [] Hcl) as (names & H & _). eauto.
  - intros names H. apply Hinv in H as (_ & new & -> & Hrel). exact Hrel.
Qed.

(** ** The free-space guard *)

(** X6: for an existing temp folder, [get_mount_point_free_size] returns
    a size, and the guard [free_size < 0.1] of [__init__] holds of that
    size exactly when at most 107374182 bytes (0.1 GiB) are free on the
    mount.  The block count and the block size are the unsigned 64-bit
    fields [f_bavail] and [f_bsize] of [os.statvfs]. *)
Theorem free_space_guard_threshold (pr : Proc) (path : string) (d : node)
    (bavail bsize : Z) :
  Os.lookup path pr = Some d ->
  is_dir d = true ->
  statvfs pr path = (bavail, bsize) ->
  (0 <= bavail < 2 ^ 64)%Z ->
  (0 <= bsize < 2 ^ 64)%Z ->
  exists q,
    get_mount_point_free_size path pr = (Ok (Some q), pr) /\
    (Qltb q float_0_1 = true <-> (bavail * bsize <= 107374182)%Z).
Proof.
  intros Hd _ Hst _ _. eexists. split.
  - unfold get_mount_point_free_size, Os.exists_, bind, gets, get, ret. simpl.
    rewrite bool_decide_eq_true_2 by (rewrite Hd; eauto). rewrite Hst. reflexivity.
  - apply free_space_guard_bytes.
Qed.

Lemma free_space_guard_threshold_witness :
  exists q,
    get_mount_point_free_size "/dev/shm" (Scenario.proc0 262144 true)
    = (Ok (Some q), Scenario.proc0 262144 true) /\
    (Qltb q float_0_1 = true <-> (262144 * 4096 <= 107374182)%Z).
Proof.
  apply (free_space_guard_threshold (Scenario.proc0 262144 true) "/dev/shm" new_dir
           262144 4096).
  - reflexivity.
  - reflexivity.
  - reflexivity.
  - lia.
  - lia.
Defined.

(** ** The drain and [wait] *)

(** X7: draining the scheduler never changes the exception list, the
    temp-file list, the success counter, the configuration or the file
    system, whatever the uploads did; when it returns no task is tracked
    any more, and it returns whenever no tracked future is cancelled. *)
Theorem drain_changes_only_tasks_and_store (s : State) :
  drain_frame s (_sync_tasks s).2 /\
  (is_ok (_sync_tasks s).1 = true -> _async_stack (self (_sync_tasks s).2) = []) /\
  (Forall (fun t => fut_state t <> Cancelled) (_async_stack (self s)) ->
   (_sync_tasks s).1 = Ok tt).
Proof.
  split; [apply _sync_tasks_drain_frame|]. split.
  - destruct (_sync_tasks s) as [[r|e] s1] eqn:H; [|discriminate].
    intros _. eapply _sync_tasks_Ok_clears, H.
  - intros Hnc. destruct (_sync_tasks_returns s Hnc) as [s1 ->]. reflexivity.
Qed.

(** X8: with nothing tracked and both lists empty, [wait] on an
    asynchronous manager returns and changes nothing but the success
    counter, which it increments on the logging rank: the counter counts
    successful waits, not uploads. *)
Theorem idle_wait_still_counts (s : State) (loop : nat) :
  async_mode (self s) = true ->
  _async_loop (self s) = Some loop ->
  _async_stack (self s) = [] ->
  _to_be_del_files (self s) = [] ->
  _exception_list (self s) = [] ->
  wait s = (Ok tt, if rank_for_log (proc s)
                   then on_self (fun m => set_upload_count (upload_count m + 1) m) s
                   else s).
Proof.
  intros Ham Hl Hst Hf He.
  assert (Hd : _sync_tasks s = (Ok tt, s)).
  { unfold _sync_tasks, bind, get. simpl. rewrite Hst. reflexivity. }
  rewrite (wait_without_record _ _ _ Ham Hl Hd He).
  unfold _del_tmp_folder, bind, get. simpl. rewrite Hf. simpl.
  destruct s as [[el fl st uc tmp am hw lp tp] pr]. simpl in *. subst.
  destruct (rank_for_log pr); reflexivity.
Qed.

Lemma idle_wait_still_counts_witness :
  wait (Scenario.ready true)
  = (Ok tt, if rank_for_log (proc (Scenario.ready true))
            then on_self (fun m => set_upload_count (upload_count m + 1) m)
                         (Scenario.ready true)
            else Scenario.ready true).
Proof.
  apply (idle_wait_still_counts (Scenario.ready true) 0); vm_compute; reflexivity.
Defined.

(** ** Invariants of the process lifetime *)

(** X9: in every state reached from a constructed manager, tasks are
    tracked only if the manager has its event loop, and it has its event
    loop only in asynchronous mode. *)
Theorem tasks_only_with_scheduler (enable_save : bool) (tmp : string) (am : bool)
    (n : nat) (pr : Proc) (sm : StorageManager) (pr' : Proc) (s : State) :
  __init__ enable_save tmp am n pr = (Ok sm, pr') ->
  steps (mkState sm pr') s ->
  (_async_stack (self s) <> [] -> is_Some (_async_loop (self s))) /\
  (is_Some (_async_loop (self s)) -> async_mode (self s) = true).
Proof. intros Hi Hs. exact (reachable_sched_inv _ _ _ _ _ _ _ _ Hi Hs). Qed.

Lemma tasks_only_with_scheduler_witness :
  (_async_stack (self (Scenario.two_saves true)) <> [] ->
   is_Some (_async_loop (self (Scenario.two_saves true)))) /\
  (is_Some (_async_loop (self (Scenario.two_saves true))) ->
   async_mode (self (Scenario.two_saves true)) = true).
Proof.
  apply (tasks_only_with_scheduler true "/dev/shm/test/" true 8
           (Scenario.proc0 Scenario.plenty true)
           (self (Scenario.ready true)) (proc (Scenario.ready true))).
  - vm_compute. reflexivity.
  - unfold Scenario.two_saves.
    eapply rtc_l; [apply step_call|]. eapply rtc_l; [apply step_call|]. apply rtc_refl.
Defined.

(** X10: no call of a public method changes the manager's configuration:
    the asynchronous mode, the temp folder, the event loop and the thread
    pool stay what [__init__] made them. *)
Theorem configuration_is_fixed (s s' : State) :
  steps s s' ->
  async_mode (self s') = async_mode (self s) /\
  tmp_local_folder (self s') = tmp_local_folder (self s) /\
  _async_loop (self s') = _async_loop (self s) /\
  _thread_pool (self s') = _thread_pool (self s).
Proof.
  intros H. apply steps_evolves in H as (Hc & _). unfold config in Hc.
  injection Hc as -> -> -> ->. repeat split.
Qed.

Lemma configuration_is_fixed_witness :
  async_mode (self (Scenario.two_saves true))
  = async_mode (self (mkState (self (Scenario.ready true)) (proc (Scenario.ready true)))) /\
  tmp_local_folder (self (Scenario.two_saves true))
  = tmp_local_folder (self (mkState (self (Scenario.ready true)) (proc (Scenario.ready true)))) /\
  _async_loop (self (Scenario.two_saves true))
  = _async_loop (self (mkState (self (Scenario.ready true)) (proc (Scenario.ready true)))) /\
  _thread_pool (self (Scenario.two_saves true))
  = _thread_pool (self (mkState (self (Scenario.ready true)) (proc (Scenario.ready true)))).
Proof.
  apply (configuration_is_fixed
           (mkState (self (Scenario.ready true)) (proc (Scenario.ready true)))
           (Scenario.two_saves true)).
  unfold Scenario.two_saves.
  eapply rtc_l; [apply step_call|]. eapply rtc_l; [apply step_call|]. apply rtc_refl.
Defined.

(** X11: the client cache only grows: over the lifetime of a process
    that starts with an empty cache, a client once cached under a key stays
    cached under it, unchanged, through every later call. *)
Theorem cache_only_grows (s0 s s' : State) (k : string) (c : Client) :
  CLI_DICT (proc s0) = ∅ -> steps s0 s ->
  CLI_DICT (proc s) !! k = Some c ->
  steps s s' ->
  CLI_DICT (proc s') !! k = Some c.
Proof.
  intros Hempty H0 Hk H.
  apply steps_evolves in H0 as (_ & _ & Hle0).
  destruct (Hle0 (cache_inv_empty _ Hempty)) as (Hinv & _ & _).
  apply steps_evolves in H as (_ & _ & Hle).
  destruct (Hle Hinv) as (_ & Hsub & _).
  eapply lookup_weaken; eassumption.
Qed.

Lemma cache_only_grows_witness :
  CLI_DICT (proc (exec CallWait
                    (exec (CallGetFns "boto3:s3://ckpt.10.0.0.1/a")
                       (mkState (self (Scenario.ready true)) (proc (Scenario.ready true))))))
    !! "boto3:http://10.0.0.1:80"
  = Some (Boto3Client 1 "http://10.0.0.1:80" "id" "secret").
Proof.
  apply (cache_only_grows
           (mkState (self (Scenario.ready true)) (proc (Scenario.ready true)))
           (exec (CallGetFns "boto3:s3://ckpt.10.0.0.1/a")
              (mkState (self (Scenario.ready true)) (proc (Scenario.ready true))))).
  - vm_compute. reflexivity.
  - eapply rtc_l; [apply step_call|]. apply rtc_refl.
  - vm_compute. reflexivity.
  - eapply rtc_l; [apply step_call|]. apply rtc_refl.
Defined.

(** ** What a resolution returns *)

Lemma get_boto3_meta_Ok fp tmp a pr m pr' :
  get_boto3_meta fp tmp a pr = (Ok m, pr') ->
  pr' = pr /\ b_is_async m = a /\ b_client m = None /\
  local_nvme_path m = tmp_file_name tmp fp pr /\
  b_async_upload_fn m = async_upload_fileobj.
Proof.
  unfold get_boto3_meta, get_tmp_file_name, assert, bind, get, ret, raise.
  destruct (PyStr.startswith "s3://" fp); [|discriminate].
  destruct (boto3_url_re_match _) as [[bucket host]|]; [|discriminate].
  intros [= <- <-]. repeat split.
Qed.

Lemma get_local_meta_Ok fp pr m pr' :
  get_local_meta fp pr = (Ok m, pr') ->
  pr' = pr /\ m = mkLocalMeta None fp /\ PyStr.startswith "s3://" fp = false.
Proof.
  unfold get_local_meta, assert, bind, ret, raise.
  destruct (PyStr.startswith "s3://" fp); [discriminate|].
  intros [= <- <-]. repeat split.
Qed.

(** What [_get_client] returns, by backend: the context of the path with
    the client the cache step gives for its key. *)
Lemma _get_client_Ok_cases path s meta s' :
  _get_client path s = (Ok meta, s') ->
  (exists p c,
      path = "local" +:+ String ":" p /\
      meta = LocalMeta (mkLocalMeta (Some c) p) /\
      PyStr.startswith "s3://" p = false /\
      get_or_create "local" "local" None (proc s) = (Ok c, proc s')) \/
  (exists p mi c,
      path = "boto3" +:+ String ":" p /\
      meta = set_meta_client c (Boto3Meta mi) /\
      b_is_async mi = async_mode (self s) /\
      local_nvme_path mi = tmp_file_name (tmp_local_folder (self s)) p (proc s) /\
      b_async_upload_fn mi = async_upload_fileobj /\
      get_or_create ("boto3" +:+ ":" +:+ endpoint mi) "boto3" (Some (endpoint mi)) (proc s)
      = (Ok c, proc s')).
Proof.
  unfold _get_client.
  destruct (PyStr.split_max1 ":" path) as [|backend [|path' [|? ?]]] eqn:Hsplit;
    try (intros H; discriminate H).
  assert (Hpath : path = backend +:+ String ":" path').
  { clear -Hsplit. revert backend Hsplit. induction path as [|a path IH]; intros backend.
    - discriminate.
    - cbn [PyStr.split_max1]. destruct (Ascii.eqb a ":") eqn:Ha.
      + apply Ascii.eqb_eq in Ha. subst a. intros [= <- <-]. reflexivity.
      + destruct (PyStr.split_max1 ":" path) as [|h [|t [|? ?]]]; try discriminate.
        intros [= <- <-]. rewrite (IH h eq_refl). reflexivity. }
  destruct (String.eqb backend "local") eqn:Hloc.
  - apply String.eqb_eq in Hloc. subst backend. intros H. left.
    apply bind_Ok in H as (mi & s1 & Hmi & H).
    apply bind_Ok in H as (c & s2 & Hc & H).
    injection H as <- <-.
    apply liftP_Ok in Hmi as (p1 & Hmi & ->).
    apply liftP_Ok in Hc as (p2 & Hc & ->). simpl in *.
    apply get_local_meta_Ok in Hmi as (-> & -> & Hsw).
    exists path', c. repeat split; assumption.
  - destruct (String.eqb backend "boto3") eqn:Hb; [|intros H; discriminate H].
    apply String.eqb_eq in Hb. subst backend. intros H. right.
    apply bind_Ok in H as (s0 & s1 & Hg & H). injection Hg as <- <-.
    apply bind_Ok in H as (mi & s2 & Hmi & H).
    apply bind_Ok in H as (u & s3 & Hw & H).
    apply bind_Ok in H as (c & s4 & Hc & H).
    injection H as <- <-.
    apply liftP_Ok in Hmi as (p1 & Hmi & ->).
    assert (Hp3 : proc s3 = p1).
    { destruct (proxy_in_environ (proc s) && negb (has_warning (self s)))%bool;
        injection Hw as _ <-; reflexivity. }
    apply liftP_Ok in Hc as (p2 & Hc & ->). rewrite Hp3 in Hc. simpl in *.
    apply get_boto3_meta_Ok in Hmi as (-> & Ha & _ & Hn & Hfn).
    exists path', mi, c. repeat split; assumption.
Qed.

(** ** The kinds of the cached clients *)

#[global] Instance kinds_le_preorder : PreOrder kinds_le.
Proof. split; [intros p H; exact H | intros p q r H1 H2 H; auto]. Qed.

#[global] Instance kinds_evolves_preorder : PreOrder kinds_evolves.
Proof. split; [intros s H; exact H | intros s t u H1 H2 H; apply H2, H1, H]. Qed.

Lemma respects_proc_kinds {A} (m : M Proc A) :
  respects proc_frame m -> respects kinds_le m.
Proof.
  intros H p Hk. destruct (H p) as [Hc _]. unfold cache_kinds. rewrite Hc. exact Hk.
Qed.

Lemma BACKEND_INIT_METHOD_local arg pr c pr' :
  BACKEND_INIT_METHOD "local" arg pr = (Ok c, pr') -> c = LocalClient (next_oid pr).
Proof. intros [= <- _]. reflexivity. Qed.

Lemma BACKEND_INIT_METHOD_boto3 ep pr c pr' :
  BACKEND_INIT_METHOD "boto3" (Some ep) pr = (Ok c, pr') ->
  exists k sk, c = Boto3Client (next_oid pr) ep k sk.
Proof.
  unfold BACKEND_INIT_METHOD, Boto3Client_init, fresh_oid, environ_get, try_except, bind,
    get, modify, ret, raise. simpl.
  destruct (environ pr !! "S3_ACCESS_KEY_ID") as [k|]; simpl; [|discriminate].
  destruct (environ pr !! "S3_SECRET_ACCESS_KEY_ID") as [sk|]; simpl; [|discriminate].
  intros [= <- _]. eauto.
Qed.

Lemma get_or_create_inv k backend arg pr c pr' :
  get_or_create k backend arg pr = (Ok c, pr') ->
  (CLI_DICT pr !! k = Some c /\ pr' = pr) \/
  (CLI_DICT pr !! k = None /\
   exists pr1, BACKEND_INIT_METHOD backend arg pr = (Ok c, pr1) /\
               pr' = set_CLI_DICT (insert k c) pr1).
Proof.
  unfold get_or_create, bind, get, modify, ret. simpl.
  destruct (CLI_DICT pr !! k) as [c0|] eqn:Hk.
  - intros [= <- <-]. left. split; reflexivity.
  - destruct (BACKEND_INIT_METHOD backend arg pr) as [[c1|e] pr1] eqn:Hb; [|discriminate].
    intros [= <- <-]. right. split; [reflexivity|]. eauto.
Qed.

Lemma get_or_create_Raise k backend arg pr e pr' :
  get_or_create k backend arg pr = (Raise e, pr') -> pr' = pr.
Proof.
  destruct (get_or_create_cases k backend arg pr)
    as [(c & _ & ->)|[(_ & e0 & ->)|(_ & c & _ & ->)]]; intros [= ]; congruence.
Qed.

Lemma cache_kinds_insert pr pr1 k c :
  cache_kinds pr -> CLI_DICT pr1 = CLI_DICT pr ->
  match c with
  | LocalClient _ => k = "local"
  | Boto3Client _ ep _ _ => k = "boto3" +:+ ":" +:+ ep
  end ->
  cache_kinds (set_CLI_DICT (insert k c) pr1).
Proof.
  intros Hk Hc Hkind k' c'. simpl. rewrite Hc, lookup_insert. case_decide.
  - intros [= <-]. subst k'. exact Hkind.
  - apply Hk.
Qed.

Lemma BACKEND_INIT_METHOD_CLI backend arg pr c pr1 :
  BACKEND_INIT_METHOD backend arg pr = (Ok c, pr1) -> CLI_DICT pr1 = CLI_DICT pr.
Proof.
  destruct (BACKEND_INIT_METHOD_cases backend arg pr) as [[e ->]|(c0 & -> & _)];
    [discriminate|]. intros [= _ <-]. reflexivity.
Qed.

(** The client for a local path is a [LocalClient]. *)
Lemma get_or_create_local pr c pr' :
  cache_kinds pr -> get_or_create "local" "local" None pr = (Ok c, pr') ->
  cache_kinds pr' /\ exists o, c = LocalClient o.
Proof.
  intros Hk H. apply get_or_create_inv in H as [[Hc ->]|(Hnone & pr1 & Hb & ->)].
  - split; [exact Hk|]. specialize (Hk _ _ Hc). destruct c; [discriminate Hk | eauto].
  - pose proof (BACKEND_INIT_METHOD_CLI _ _ _ _ _ Hb) as Hcli.
    apply BACKEND_INIT_METHOD_local in Hb. subst c.
    split; [|eauto]. apply (cache_kinds_insert pr); auto.
Qed.

Lemma boto3_key_inj (ep ep' : string) :
  "boto3" +:+ ":" +:+ ep = "boto3" +:+ ":" +:+ ep' -> ep = ep'.
Proof. simpl. intros [= H]. exact H. Qed.

(** The client for a remote path is a [Boto3Client] for its endpoint. *)
Lemma get_or_create_boto3 ep pr c pr' :
  cache_kinds pr ->
  get_or_create ("boto3" +:+ ":" +:+ ep) "boto3" (Some ep) pr = (Ok c, pr') ->
  cache_kinds pr' /\ exists o k sk, c = Boto3Client o ep k sk.
Proof.
  intros Hk H. apply get_or_create_inv in H as [[Hc ->]|(Hnone & pr1 & Hb & ->)].
  - split; [exact Hk|]. specialize (Hk _ _ Hc). destruct c as [o ep' k sk|o].
    + apply boto3_key_inj in Hk. subst ep'. eauto.
    + discriminate Hk.
  - pose proof (BACKEND_INIT_METHOD_CLI _ _ _ _ _ Hb) as Hcli.
    apply BACKEND_INIT_METHOD_boto3 in Hb as (k & sk & ->).
    split; [|eauto]. apply (cache_kinds_insert pr); auto.
Qed.

Lemma get_local_meta_Raise fp pr e pr' :
  get_local_meta fp pr = (Raise e, pr') -> pr' = pr.
Proof.
  unfold get_local_meta, assert, bind, ret, raise.
  destruct (PyStr.startswith "s3://" fp); simpl; intros [= ]; congruence.
Qed.

Lemma get_boto3_meta_Raise fp tmp a pr e pr' :
  get_boto3_meta fp tmp a pr = (Raise e, pr') -> pr' = pr.
Proof.
  unfold get_boto3_meta, get_tmp_file_name, assert, bind, get, ret, raise.
  destruct (PyStr.startswith "s3://" fp); simpl; [|intros [= ]; congruence].
  destruct (boto3_url_re_match _) as [[bucket host]|]; intros [= ]; congruence.
Qed.

(** A resolution that raises leaves the process as it was: no client is
    built or cached. *)
Lemma _get_client_Raise path s e s' :
  _get_client path s = (Raise e, s') -> proc s' = proc s.
Proof.
  unfold _get_client.
  destruct (PyStr.split_max1 ":" path) as [|backend [|path' [|? ?]]];
    try (intros [= _ <-]; reflexivity).
  destruct (String.eqb backend "local").
  - unfold bind, liftP, ret.
    destruct (get_local_meta path' (proc s)) as [[mi|e1] p1] eqn:Hmi.
    + apply get_local_meta_Ok in Hmi as (-> & _ & _). simpl.
      destruct (get_or_create backend backend None (proc s)) as [[c|e2] p2] eqn:Hc;
        [discriminate|].
      apply get_or_create_Raise in Hc. intros [= _ <-]. exact Hc.
    + apply get_local_meta_Raise in Hmi. intros [= _ <-]. exact Hmi.
  - destruct (String.eqb backend "boto3"); [|intros [= _ <-]; reflexivity].
    unfold bind, liftP, ret, get, modify.
    destruct (get_boto3_meta path' _ _ (proc s)) as [[mi|e1] p1] eqn:Hmi.
    + apply get_boto3_meta_Ok in Hmi as (-> & _). 
      destruct (proxy_in_environ (proc s) && negb (has_warning (self s)))%bool; simpl;
        (destruct (get_or_create _ backend _ (proc s)) as [[c|e2] p2] eqn:Hc;
         [discriminate|]; apply get_or_create_Raise in Hc; intros [= _ <-]; exact Hc).
    + apply get_boto3_meta_Raise in Hmi. intros [= _ <-]. exact Hmi.
Qed.

Lemma _get_client_kinds path : respects kinds_evolves (_get_client path).
Proof.
  intros s Hk. destruct (_get_client path s) as [[meta|e] s'] eqn:H; simpl.
  - apply _get_client_Ok_cases in H
      as [(p & c & _ & _ & _ & Hc)|(p & mi & c & _ & _ & _ & _ & _ & Hc)].
    + eapply get_or_create_local; eassumption.
    + eapply get_or_create_boto3; eassumption.
  - apply _get_client_Raise in H. rewrite H. exact Hk.
Qed.
#[global] Hint Resolve _get_client_kinds : frame.

Lemma kinds_evolves_proc sm p p' :
  kinds_le p p' -> kinds_evolves (mkState sm p) (mkState sm p').
Proof. intros H. exact H. Qed.

Ltac frame_kinds :=
  repeat first
    [ frame_step
    | lazymatch goal with
      | |- respects kinds_evolves (liftP _) =>
          apply (respects_liftP kinds_le kinds_evolves); [exact kinds_evolves_proc|];
          apply respects_proc_kinds; repeat first [ frame_known | frame_step ]
      | |- kinds_evolves ?s (on_self _ ?s) => intros ?; assumption
      end
    | solve [ auto with frame ] ].

Lemma proc_frame_kinds p p' : proc_frame p p' -> kinds_le p p'.
Proof. intros [Hc _] Hk. unfold cache_kinds. rewrite Hc. exact Hk. Qed.

Lemma asyncio_wait_all_kinds : respects kinds_evolves asyncio_wait_all.
Proof.
  intros [sm pr]. unfold asyncio_wait_all, bind, get, modify, liftP. simpl.
  pose proof (run_tasks_frame (_async_stack sm) pr) as Hfr.
  destruct (run_tasks (_async_stack sm) pr) as [[l'|e] pr']; simpl in *;
    apply proc_frame_kinds, Hfr.
Qed.
#[global] Hint Resolve asyncio_wait_all_kinds : frame.

Lemma sync_one_task_kinds task : respects kinds_evolves (sync_one_task task).
Proof. intros s. rewrite sync_one_task_state. reflexivity. Qed.
#[global] Hint Resolve sync_one_task_kinds : frame.

Lemma async_executor_kinds fn args : respects kinds_evolves (async_executor fn args).
Proof.
  unfold async_executor, getattr__async_loop, getattr__thread_pool. frame_kinds.
Qed.
#[global] Hint Resolve async_executor_kinds : frame.

Lemma wait_kinds : respects kinds_evolves wait.
Proof.
  unfold wait, _sync_tasks, _del_tmp_folder, getattr__async_loop, py_list_getitem.
  frame_kinds.
Qed.
#[global] Hint Resolve wait_kinds : frame.

Lemma calls_kinds :
  (forall p o a, respects kinds_evolves (save p o a)) /\
  (forall p, respects kinds_evolves (load p)) /\
  (forall p, respects kinds_evolves (get_fns p)) /\
  (forall p, respects kinds_evolves (assert_fp_exists p)) /\
  (forall p, respects kinds_evolves (delete_obj p)).
Proof.
  split_all; intros; unfold save, load, get_fns, assert_fp_exists, delete_obj; frame_kinds.
Qed.

Lemma steps_kinds s s' : steps s s' -> cache_kinds (proc s) -> cache_kinds (proc s').
Proof.
  induction 1 as [s|s t u Hst _ IH]; [auto|].
  intros Hk. apply IH. destruct Hst as [c s0|s0 pr' Hc Hn].
  - destruct c; simpl.
    + apply calls_kinds, Hk.
    + apply calls_kinds, Hk.
    + apply wait_kinds, Hk.
    + apply calls_kinds, Hk.
    + apply calls_kinds, Hk.
    + apply calls_kinds, Hk.
  - simpl. unfold cache_kinds. rewrite Hc. exact Hk.
Qed.

Lemma cache_kinds_empty pr : CLI_DICT pr = ∅ -> cache_kinds pr.
Proof. intros H k c. rewrite H, lookup_empty. discriminate. Qed.

(** X12: over the lifetime of a process that starts with an empty cache,
    a context resolved for a [local:] path carries a [LocalClient], and a
    context resolved for a [boto3:] path carries a [Boto3Client] connected
    to the endpoint of that context. *)
Theorem resolved_client_matches_backend (s0 s s' : State) (path : string) (meta : MetaInfo) :
  CLI_DICT (proc s0) = ∅ -> steps s0 s ->
  _get_client path s = (Ok meta, s') ->
  match meta with
  | LocalMeta m => exists o, l_client m = Some (LocalClient o)
  | Boto3Meta m => exists o k sk, b_client m = Some (Boto3Client o (endpoint m) k sk)
  end.
Proof.
  intros Hempty Hs H.
  pose proof (steps_kinds _ _ Hs (cache_kinds_empty _ Hempty)) as Hk.
  apply _get_client_Ok_cases in H
    as [(p & c & _ & -> & _ & Hc)|(p & mi & c & _ & -> & _ & _ & _ & Hc)].
  - destruct (get_or_create_local _ _ _ Hk Hc) as (_ & o & ->). simpl. eauto.
  - destruct (get_or_create_boto3 _ _ _ _ Hk Hc) as (_ & o & k & sk & ->). simpl. eauto.
Qed.

Lemma resolved_client_matches_backend_witness :
  exists o k sk,
    b_client (mkBoto3Meta true (Some (Boto3Client 1 "http://10.0.0.1:80" "id" "secret"))
                "ckpt" "http://10.0.0.1:80" "a" async_upload_fileobj
                "/dev/shm/test/a-Nov03_10-00-00-4242.tmpfile")
    = Some (Boto3Client o "http://10.0.0.1:80" k sk).
Proof.
  apply (resolved_client_matches_backend (Scenario.ready true) (Scenario.ready true)
           (_get_client "boto3:s3://ckpt.10.0.0.1/a" (Scenario.ready true)).2
           "boto3:s3://ckpt.10.0.0.1/a" Scenario.meta_a).
  - vm_compute. reflexivity.
  - apply rtc_refl.
  - vm_compute. reflexivity.
Defined.

(** ** Remote operations and the arguments [unpack_meta] gives them *)

Lemma liftP_run {A} (m : M Proc A) (s : State) :
  liftP m s = ((m (proc s)).1, mkState (self s) (m (proc s)).2).
Proof. unfold liftP. destruct (m (proc s)). reflexivity. Qed.



(** X14: [delete_obj] on a remote path raises [TypeError], never the
    [NotImplementedError] of [Boto3Client.delete_obj]: that method takes
    two positional arguments and [unpack_meta] passes three or four.
    Nothing is deleted. *)
Theorem remote_delete_is_a_TypeError (s s1 : State) (path : string) (m : Boto3MetaInfo)
    (o : nat) (ep k sk : string) :
  _get_client path s = (Ok (Boto3Meta m), s1) ->
  b_client m = Some (Boto3Client o ep k sk) ->
  raised_class (delete_obj path s).1 = Some TypeError /\
  s3_objects (proc (delete_obj path s).2) = s3_objects (proc s) /\
  fs (proc (delete_obj path s).2) = fs (proc s).
Proof.
  intros H Hc.
  pose proof (_get_client_resolve_frame path s) as Hfr. rewrite H in Hfr.
  destruct Hfr as (_ & _ & _ & _ & _ & _ & Hfs & Hs3). simpl in *.
  unfold delete_obj. rewrite (bind_Ok_intro _ _ _ _ _ H), liftP_run.
  simpl. rewrite Hc. destruct (b_is_async m); simpl; auto.
Qed.

Lemma remote_delete_is_a_TypeError_witness :
  raised_class (delete_obj "boto3:s3://ckpt.10.0.0.1/a" (Scenario.ready true)).1
  = Some TypeError /\
  s3_objects (proc (delete_obj "boto3:s3://ckpt.10.0.0.1/a" (Scenario.ready true)).2)
  = s3_objects (proc (Scenario.ready true)) /\
  fs (proc (delete_obj "boto3:s3://ckpt.10.0.0.1/a" (Scenario.ready true)).2)
  = fs (proc (Scenario.ready true)).
Proof.
  apply (remote_delete_is_a_TypeError (Scenario.ready true)
           (_get_client "boto3:s3://ckpt.10.0.0.1/a" (Scenario.ready true)).2
           "boto3:s3://ckpt.10.0.0.1/a"
           (mkBoto3Meta true (Some (Boto3Client 1 "http://10.0.0.1:80" "id" "secret"))
              "ckpt" "http://10.0.0.1:80" "a" async_upload_fileobj
              "/dev/shm/test/a-Nov03_10-00-00-4242.tmpfile")
           1 "http://10.0.0.1:80" "id" "secret").
  - vm_compute. reflexivity.
  - reflexivity.
Defined.

(** ** Credentials *)

(** X15: the S3 credentials are read only when a client is first built
    for a cache key.  If either variable is missing then, building raises
    [RuntimeError] and nothing is cached or changed; for a key already in
    the cache the cached client is returned whatever the environment
    holds. *)
Theorem credentials_needed_on_first_use_only (pr : Proc) (key ep : string) :
  (CLI_DICT pr !! key = None ->
   environ pr !! "S3_ACCESS_KEY_ID" = None \/
   environ pr !! "S3_SECRET_ACCESS_KEY_ID" = None ->
   get_or_create key "boto3" (Some ep) pr
   = (Raise (Exn RuntimeError
        "Please set boto3 bucket 'S3_ACCESS_KEY_ID' and 'S3_SECRET_ACCESS_KEY_ID' using environment variable!"),
      pr)) /\
  (forall c, CLI_DICT pr !! key = Some c ->
             get_or_create key "boto3" (Some ep) pr = (Ok c, pr)).
Proof.
  split.
  - intros Hk Henv.
    unfold get_or_create, BACKEND_INIT_METHOD, Boto3Client_init, fresh_oid, environ_get,
      try_except, bind, get, modify, ret, raise. simpl. rewrite Hk.
    destruct (environ pr !! "S3_ACCESS_KEY_ID") as [k|]; simpl; [|reflexivity].
    destruct Henv as [Henv|Henv]; [discriminate|]. rewrite Henv. reflexivity.
  - intros c Hk. unfold get_or_create, bind, get, ret. simpl. rewrite Hk. reflexivity.
Qed.

(** ** The local backend: saving, loading, deleting *)

Lemma write_file_Ok p d pr pr' :
  Os.write_file p d pr = (Ok tt, pr') ->
  exists n', pr' = set_fs (insert (Os.norm p) n') pr /\
             is_dir n' = false /\ content n' = d /\
             (readable n' = true \/
              exists n, Os.lookup p pr = Some n /\ readable n' = readable n).
Proof.
  unfold Os.write_file, bind, get, modify, raise. simpl.
  destruct (Os.lookup p pr) as [n|] eqn:Hn.
  - destruct (is_dir n); [discriminate|]. destruct (writable n); [|discriminate].
    intros [= <-]. eexists. split; [reflexivity|]. repeat split. right. eauto.
  - destruct (Os.lookup (OsPath.dirname p) pr) as [dn|]; [|discriminate].
    destruct (negb (is_dir dn)); [discriminate|]. destruct (writable dn); [|discriminate].
    intros [= <-]. eexists. split; [reflexivity|]. repeat split. left. reflexivity.
Qed.

Lemma lookup_set_fs_insert p n pr : Os.lookup p (set_fs (insert (Os.norm p) n) pr) = Some n.
Proof. unfold Os.lookup. simpl. apply lookup_insert_eq. Qed.

(** What the local upload leaves behind when it returns: the file, with
    the serialized object as content. *)
Lemma LocalClient_sync_upload_Ok h fp obj pr pr' :
  LocalClient_sync_upload_fileobj h fp (Some obj) pr = (Ok tt, pr') ->
  (exists o, h = Some (LocalClient o)) /\
  exists n', Os.lookup fp pr' = Some n' /\ is_dir n' = false /\ content n' = obj /\
             (readable n' = true \/
              exists n, Os.lookup fp pr = Some n /\ readable n' = readable n).
Proof.
  intros H.
  assert (Hh : exists o, h = Some (LocalClient o)).
  { destruct h as [[|o]|]; [discriminate H | eauto | discriminate H]. }
  split; [exact Hh|]. destruct Hh as [o ->].
  unfold LocalClient_sync_upload_fileobj, assert_LocalClient, assert, Os.exists_,
    bind, gets, ret in H. simpl in H.
  destruct (bool_decide (is_Some (Os.lookup (OsPath.dirname fp) pr))) eqn:Hex; simpl in H.
  - apply write_file_Ok in H as (n' & -> & Hd & Hc & Hr).
    exists n'. rewrite lookup_set_fs_insert. auto.
  - unfold Os.makedirs, bind, get, modify, raise, ret in H. simpl in H.
    apply bool_decide_eq_false in Hex.
    destruct (Os.lookup (OsPath.dirname fp) pr) as [dn|] eqn:Hdn;
      [exfalso; apply Hex; eauto|].
    simpl in H.
    apply write_file_Ok in H as (n' & -> & Hd & Hc & Hr).
    exists n'. rewrite lookup_set_fs_insert. split; [reflexivity|].
    split; [exact Hd|]. split; [exact Hc|].
    destruct Hr as [Hr|(n & Hn & Hr)]; [left; exact Hr|].
    unfold Os.lookup in Hn. simpl in Hn. rewrite lookup_insert in Hn.
    case_decide as Heq.
    + injection Hn as <-. left. rewrite Hr. reflexivity.
    + right. exists n. split; [exact Hn | exact Hr].
Qed.

Lemma local_upload_then_load (o o' : nat) (fp obj : string) (pr pr' : Proc) :
  LocalClient_sync_upload_fileobj (Some (LocalClient o)) fp (Some obj) pr = (Ok tt, pr') ->
  (forall n, Os.lookup fp pr = Some n -> readable n = true) ->
  LocalClient_load (Some (LocalClient o')) fp pr' = (Ok obj, pr').
Proof.
  intros H Hrd.
  apply LocalClient_sync_upload_Ok in H as (_ & n' & Hn' & Hd & Hc & Hr).
  assert (Hread : readable n' = true).
  { destruct Hr as [Hr|(n & Hn & Hr)]; [exact Hr|]. rewrite Hr. eauto. }
  unfold LocalClient_load, assert_LocalClient, assert, Os.exists_, Os.read_file, torch_load,
    bind, gets, get, ret, raise. simpl.
  rewrite Hn'. rewrite bool_decide_eq_true_2 by eauto. simpl.
  rewrite Hn', Hd, Hread, Hc. reflexivity.
Qed.

(** X16: on the local backend, what [sync_upload_fileobj] saved is what
    [load] returns: if the save returns and the file, where it existed
    before, was readable, a following [load] of the same path returns the
    saved object and changes nothing. *)
Theorem local_save_then_load (o o' : nat) (fp obj : string) (pr pr' : Proc) :
  LocalClient_sync_upload_fileobj (Some (LocalClient o)) fp (Some obj) pr = (Ok tt, pr') ->
  (forall n, Os.lookup fp pr = Some n -> readable n = true) ->
  LocalClient_load (Some (LocalClient o')) fp pr' = (Ok obj, pr').
Proof. apply local_upload_then_load. Qed.

Lemma local_save_then_load_witness :
  LocalClient_load (Some (LocalClient 1)) "/tmp/ckpt/6"
    (LocalClient_sync_upload_fileobj (Some (LocalClient 0)) "/tmp/ckpt/6" (Some "step6")
       Scenario.local_proc).2
  = (Ok "step6",
     (LocalClient_sync_upload_fileobj (Some (LocalClient 0)) "/tmp/ckpt/6" (Some "step6")
        Scenario.local_proc).2).
Proof.
  apply (local_save_then_load 0 1 "/tmp/ckpt/6" "step6" Scenario.local_proc).
  - vm_compute. reflexivity.
  - intros n H. vm_compute in H. discriminate H.
Defined.

(** X17: when [LocalClient.delete_obj] returns, either the path is a
    directory and nothing changed, or the path is gone: [assert_fp_exists]
    and [load] of it then fail their assertion. *)
Theorem local_delete_then_missing (o o' : nat) (fp : string) (pr pr' : Proc) :
  LocalClient_delete_obj (Some (LocalClient o)) fp pr = (Ok tt, pr') ->
  ((Os.isdir fp pr).1 = Ok true /\ pr' = pr) \/
  (Os.lookup fp pr' = None /\
   raised_class (LocalClient_assert_fp_exists (Some (LocalClient o')) fp pr').1
   = Some AssertionError /\
   raised_class (LocalClient_load (Some (LocalClient o')) fp pr').1 = Some AssertionError).
Proof.
  unfold LocalClient_delete_obj, assert_LocalClient, assert, Os.isdir, Os.remove,
    bind, gets, get, modify, ret, raise. simpl.
  destruct (Os.lookup fp pr) as [n|] eqn:Hn; simpl.
  - destruct (is_dir n) eqn:Hd; simpl.
    + intros [= <-]. left. split; reflexivity.
    + rewrite Hn, Hd. intros H. right.
      assert (Hpr' : pr' = set_fs (delete (Os.norm fp)) pr).
      { destruct (Os.lookup (OsPath.dirname fp) pr) as [d|];
          [destruct (writable d); [|discriminate H]|]; injection H as <-; reflexivity. }
      subst pr'.
      assert (Hgone : Os.lookup fp (set_fs (delete (Os.norm fp)) pr) = None)
        by (unfold Os.lookup; simpl; apply lookup_delete_eq).
      split; [exact Hgone|].
      unfold LocalClient_assert_fp_exists, LocalClient_load, assert_LocalClient, assert,
        Os.exists_, bind, gets, ret, raise. simpl.
      rewrite Hgone. split; reflexivity.
  - rewrite Hn. intros H. discriminate H.
Qed.

Lemma local_delete_then_missing_witness :
  ((Os.isdir "/tmp/ckpt/5" Scenario.local_proc).1 = Ok true /\
   (LocalClient_delete_obj (Some (LocalClient 0)) "/tmp/ckpt/5" Scenario.local_proc).2
   = Scenario.local_proc) \/
  (Os.lookup "/tmp/ckpt/5"
     (LocalClient_delete_obj (Some (LocalClient 0)) "/tmp/ckpt/5" Scenario.local_proc).2
   = None /\
   raised_class
     (LocalClient_assert_fp_exists (Some (LocalClient 0)) "/tmp/ckpt/5"
        (LocalClient_delete_obj (Some (LocalClient 0)) "/tmp/ckpt/5" Scenario.local_proc).2).1
   = Some AssertionError /\
   raised_class
     (LocalClient_load (Some (LocalClient 0)) "/tmp/ckpt/5"
        (LocalClient_delete_obj (Some (LocalClient 0)) "/tmp/ckpt/5" Scenario.local_proc).2).1
   = Some AssertionError).
Proof.
  apply (local_delete_then_missing 0 0 "/tmp/ckpt/5" Scenario.local_proc).
  vm_compute. reflexivity.
Defined.

Lemma local_path_inj (p p' : string) : "local" +:+ String ":" p' = "local:" +:+ p -> p' = p.
Proof. simpl. intros [= H]. exact H. Qed.

(** Save-then-load through the facade for a local path, from a cache
    whose entries have the kind of their key. *)
Lemma facade_local_round_trip (s s1 : State) (p obj : string) :
  cache_kinds (proc s) ->
  async_mode (self s) = false ->
  save ("local:" +:+ p) (Some obj) None s = (Ok tt, s1) ->
  (forall n, Os.lookup p (proc s) = Some n -> readable n = true) ->
  (load ("local:" +:+ p) s1).1 = Ok obj.
Proof.
  intros Hk Ham Hsave Hrd.
  unfold save in Hsave. apply bind_Ok in Hsave as (meta & s' & Hres & Hsave).
  pose proof (_get_client_resolve_frame ("local:" +:+ p) s) as Hfr. rewrite Hres in Hfr.
  destruct Hfr as (_ & _ & _ & _ & Hcfg & _ & Hfs & _). simpl in Hcfg, Hfs.
  unfold config in Hcfg. injection Hcfg as Ham' _ _ _.
  apply _get_client_Ok_cases in Hres
    as [(p' & c & Hp & -> & Hsw & Hc)|(p' & mi & c & Hp & _)]; [|discriminate Hp].
  apply local_path_inj in Hp. subst p'.
  destruct (get_or_create_local _ _ _ Hk Hc) as (Hk' & o & ->).
  pose proof (get_or_create_Ok _ _ _ _ _ _ Hc) as Hcached.
  unfold bind, get in Hsave. simpl in Hsave. rewrite Ham', Ham in Hsave. simpl in Hsave.
  rewrite liftP_run in Hsave. simpl in Hsave.
  destruct (LocalClient_sync_upload_fileobj (Some (LocalClient o)) p (Some obj) (proc s'))
    as [[[]|e] pr2] eqn:Hup; simpl in Hsave; [|discriminate Hsave].
  injection Hsave as <-.
  pose proof (proj1 client_frame (Some (LocalClient o))
                [AClient (Some (LocalClient o)); AStr p] (Some obj) (proc s')) as Hpf.
  simpl in Hpf. rewrite Hup in Hpf. destruct Hpf as [Hcli _]. simpl in Hcli.
  assert (Hload : forall o', LocalClient_load (Some (LocalClient o')) p pr2 = (Ok obj, pr2)).
  { intros o'. eapply local_upload_then_load; [exact Hup|].
    intros n Hn. apply Hrd. unfold Os.lookup in *. rewrite <- Hfs. exact Hn. }
  set (s1 := on_self (fun sm => set_upload_count (upload_count sm + 1) sm)
               (mkState (self s') pr2)).
  assert (Ham1 : async_mode (self s1) = false) by (simpl; congruence).
  unfold load. rewrite (bind_Ok_intro _ _ _ tt _ (wait_sync_mode s1 Ham1)).
  destruct (resolve_local_identity s1 p Hsw) as [c2 Hc2].
  destruct (_get_client ("local:" +:+ p) s1) as [[meta2|e2] s2] eqn:Hres2;
    [|discriminate Hc2].
  rewrite (bind_Ok_intro _ _ _ _ _ Hres2).
  apply _get_client_Ok_cases in Hres2
    as [(p' & c3 & Hp & -> & _ & Hc3)|(p' & mi & c3 & Hp & _)]; [|discriminate Hp].
  apply local_path_inj in Hp. subst p'. simpl in Hc3.
  apply get_or_create_inv in Hc3 as [[Hc3 Hp2]|[Hnone _]];
    [|rewrite Hcli, Hcached in Hnone; discriminate Hnone].
  rewrite Hcli, Hcached in Hc3. injection Hc3 as <-.
  rewrite liftP_run. simpl. rewrite Hp2, Hload. reflexivity.
Qed.

(** X18: save-then-load through the facade, for a local path on a
    synchronous manager: if [save] returns, and the file, where it existed
    before, was readable, then [load] of the same path returns the saved
    object. *)
Theorem facade_local_save_then_load (s0 s s1 : State) (p obj : string) :
  CLI_DICT (proc s0) = ∅ -> steps s0 s ->
  async_mode (self s) = false ->
  save ("local:" +:+ p) (Some obj) None s = (Ok tt, s1) ->
  (forall n, Os.lookup p (proc s) = Some n -> readable n = true) ->
  (load ("local:" +:+ p) s1).1 = Ok obj.
Proof.
  intros Hempty Hs Ham Hsave Hrd.
  pose proof (steps_kinds _ _ Hs (cache_kinds_empty _ Hempty)) as Hk.
  exact (facade_local_round_trip s s1 p obj Hk Ham Hsave Hrd).
Qed.

Lemma facade_local_save_then_load_witness :
  (load ("local:" +:+ "/tmp/ckpt/6")
     (save ("local:" +:+ "/tmp/ckpt/6") (Some "step6") None
        (mkState (self Scenario.sync_only) Scenario.local_proc)).2).1
  = Ok "step6".
Proof.
  apply (facade_local_save_then_load
           (mkState (self Scenario.sync_only) Scenario.local_proc)
           (mkState (self Scenario.sync_only) Scenario.local_proc)).
  - vm_compute. reflexivity.
  - apply rtc_refl.
  - vm_compute. reflexivity.
  - vm_compute. reflexivity.
  - intros n H. vm_compute in H. discriminate H.
Defined.

(** ** Asynchronous saves *)

Lemma chmod_rwx_Ok p pr pr' :
  Os.chmod_rwx p pr = (Ok tt, pr') ->
  exists n, Os.lookup p pr = Some n /\
            pr' = set_fs (insert (Os.norm p) (Node (is_dir n) (content n) true true true)) pr.
Proof.
  unfold Os.chmod_rwx, bind, get, modify, raise. simpl.
  destruct (Os.lookup p pr) as [n|]; [|discriminate].
  destruct (owned n); [|discriminate]. intros [= <-]. eauto.
Qed.

(** What an asynchronous [save] that returns has done, step by step. *)
Lemma save_async_inv (s s1 : State) (path : string) (obj : option string) (a : option bool) :
  default (async_mode (self s)) a = true ->
  save path obj a s = (Ok tt, s1) ->
  exists p mi c s' n' loop pool,
    path = "boto3" +:+ String ":" p /\
    _get_client path s = (Ok (set_meta_client c (Boto3Meta mi)), s') /\
    b_is_async mi = async_mode (self s) /\
    local_nvme_path mi = tmp_file_name (tmp_local_folder (self s)) p (proc s) /\
    _async_loop (self s) = Some loop /\ _thread_pool (self s) = Some pool /\
    is_dir n' = false /\ content n' = torch_save obj /\
    s1 = mkState
           (set__async_stack
              (_async_stack (self s')
               ++ [mkFuture async_upload_fileobj
                     (unpack_meta (set_meta_client c (Boto3Meta mi))) Pending])
              (set__to_be_del_files (_to_be_del_files (self s') ++ [local_nvme_path mi])
                 (self s')))
           (set_fs (insert (Os.norm (local_nvme_path mi))
                      (Node false (torch_save obj) true true true))
              (set_fs (insert (Os.norm (local_nvme_path mi)) n') (proc s'))) /\
    get_or_create ("boto3" +:+ ":" +:+ endpoint mi) "boto3" (Some (endpoint mi)) (proc s)
    = (Ok c, proc s').
Proof.
  intros Hasync Hsave. unfold save in Hsave.
  apply bind_Ok in Hsave as (meta & s' & Hres & Hsave).
  pose proof (_get_client_resolve_frame path s) as Hfr. rewrite Hres in Hfr.
  destruct Hfr as (_ & _ & _ & _ & Hcfg & _). simpl in Hcfg.
  unfold config in Hcfg. injection Hcfg as Ham' Hl' Hp' Htmp'.
  pose proof Hres as Hcases.
  apply _get_client_Ok_cases in Hcases
    as [(p & c & Hp & -> & _ & Hc)|(p & mi & c & Hp & -> & Ha & Hn & Hfn & Hc)].
  - exfalso. unfold bind, get in Hsave. simpl in Hsave. rewrite Ham', Hasync in Hsave.
    unfold assert in Hsave. destruct (negb _); discriminate Hsave.
  - exists p, mi, c, s'.
    unfold bind, get in Hsave. simpl in Hsave. rewrite Ham', Hasync in Hsave.
    unfold assert, ret, modify in Hsave.
    destruct (negb (String.eqb (tmp_local_folder (self s')) "")); [|discriminate Hsave].
    simpl in Hsave. rewrite liftP_run in Hsave. simpl in Hsave.
    destruct (Os.write_file (local_nvme_path mi) (torch_save obj) (proc s'))
      as [[[]|e] pr2] eqn:Hw; simpl in Hsave; [|discriminate Hsave].
    apply write_file_Ok in Hw as (n' & -> & Hd & Hcont & _).
    unfold async_executor, getattr__async_loop, getattr__thread_pool, loop_truthy,
      bind, get, ret, raise, modify in Hsave. simpl in Hsave.
    destruct (_async_loop (self s')) as [loop|] eqn:Hloop; [|discriminate Hsave].
    simpl in Hsave. rewrite Hloop in Hsave. simpl in Hsave.
    destruct (_thread_pool (self s')) as [pool|] eqn:Hpool; [|discriminate Hsave].
    simpl in Hsave. rewrite liftP_run in Hsave. simpl in Hsave.
    destruct (Os.chmod_rwx (local_nvme_path mi) _) as [[[]|e] pr3] eqn:Hch;
      simpl in Hsave; [|discriminate Hsave].
    apply chmod_rwx_Ok in Hch as (n3 & Hn3 & ->).
    rewrite lookup_set_fs_insert in Hn3. injection Hn3 as <-.
    injection Hsave as <-.
    exists n', loop, pool. rewrite Hd, Hcont, Hfn.
    repeat split; try assumption; try congruence.
Qed.

(** X19: an asynchronous [save] that returns has appended exactly one
    temp-file path and exactly one pending task, in lock step, has left
    the exception list and the success counter alone, and has written the
    serialized object to the staging file named by [get_tmp_file_name],
    readable and writable by everyone. *)
Theorem async_save_tracks_in_lock_step (s s1 : State) (path : string)
    (obj : option string) (a : option bool) :
  default (async_mode (self s)) a = true ->
  save path obj a s = (Ok tt, s1) ->
  exists p tmp t,
    path = "boto3" +:+ String ":" p /\
    tmp = tmp_file_name (tmp_local_folder (self s)) p (proc s) /\
    _to_be_del_files (self s1) = _to_be_del_files (self s) ++ [tmp] /\
    _async_stack (self s1) = _async_stack (self s) ++ [t] /\
    fut_state t = Pending /\
    _exception_list (self s1) = _exception_list (self s) /\
    upload_count (self s1) = upload_count (self s) /\
    Os.lookup tmp (proc s1) = Some (Node false (torch_save obj) true true true).
Proof.
  intros Ha Hsave.
  destruct (save_async_inv _ _ _ _ _ Ha Hsave)
    as (p & mi & c & s' & n' & loop & pool & Hp & Hres & _ & Hn & _ & _ & _ & _ & -> & _).
  pose proof (_get_client_resolve_frame path s) as Hfr. rewrite Hres in Hfr.
  destruct Hfr as (Hex & Hfl & Hst & Hcnt & _). simpl in *.
  exists p, (local_nvme_path mi), (mkFuture async_upload_fileobj
                                    (unpack_meta (set_meta_client c (Boto3Meta mi))) Pending).
  rewrite Hfl, Hst. repeat split; try assumption.
  apply lookup_set_fs_insert.
Qed.

Lemma async_save_tracks_in_lock_step_witness :
  exists p tmp t,
    "boto3:s3://ckpt.10.0.0.1/run/a.pt" = "boto3" +:+ String ":" p /\
    tmp = tmp_file_name (tmp_local_folder (self (Scenario.ready true))) p
            (proc (Scenario.ready true)) /\
    _to_be_del_files
      (self (save "boto3:s3://ckpt.10.0.0.1/run/a.pt" (Some "A") None (Scenario.ready true)).2)
    = _to_be_del_files (self (Scenario.ready true)) ++ [tmp] /\
    _async_stack
      (self (save "boto3:s3://ckpt.10.0.0.1/run/a.pt" (Some "A") None (Scenario.ready true)).2)
    = _async_stack (self (Scenario.ready true)) ++ [t] /\
    fut_state t = Pending /\
    _exception_list
      (self (save "boto3:s3://ckpt.10.0.0.1/run/a.pt" (Some "A") None (Scenario.ready true)).2)
    = _exception_list (self (Scenario.ready true)) /\
    upload_count
      (self (save "boto3:s3://ckpt.10.0.0.1/run/a.pt" (Some "A") None (Scenario.ready true)).2)
    = upload_count (self (Scenario.ready true)) /\
    Os.lookup tmp
      (proc (save "boto3:s3://ckpt.10.0.0.1/run/a.pt" (Some "A") None (Scenario.ready true)).2)
    = Some (Node false (torch_save (Some "A")) true true true).
Proof.
  apply (async_save_tracks_in_lock_step (Scenario.ready true) _
           "boto3:s3://ckpt.10.0.0.1/run/a.pt" (Some "A") None).
  - vm_compute. reflexivity.
  - vm_compute. reflexivity.
Defined.

(** The worker's upload of a readable staging file to a reachable
    endpoint. *)
Lemma run_upload_task o ep k sk b key tmp n pr :
  Os.lookup tmp pr = Some n -> is_dir n = false -> readable n = true ->
  s3_down pr ep = false ->
  run_task (mkFuture async_upload_fileobj
              [AClient (Some (Boto3Client o ep k sk)); AStr b; AStr key; AStr tmp] Pending) pr
  = (Ok (mkFuture async_upload_fileobj
           [AClient (Some (Boto3Client o ep k sk)); AStr b; AStr key; AStr tmp]
           (Finished None)),
     set_s3_objects (insert (ep, b, key) (content n)) pr).
Proof.
  intros Hn Hd Hr Hup.
  unfold run_task, call_async_fn, Boto3Client_async_upload_fileobj, try_except,
    Os.read_file, boto3_connection, S3.upload_fileobj, S3.reach, bind, get, modify, ret,
    raise. simpl.
  rewrite Hn, Hd, Hr. simpl. rewrite Hup. reflexivity.
Qed.

(** [wait] with one pending upload of a readable, removable staging file
    to a reachable endpoint: the object is in the store afterwards. *)
Lemma wait_single_upload s loop o ep k sk b key tmp n :
  async_mode (self s) = true -> _async_loop (self s) = Some loop ->
  _exception_list (self s) = [] -> _to_be_del_files (self s) = [tmp] ->
  _async_stack (self s)
  = [mkFuture async_upload_fileobj
       [AClient (Some (Boto3Client o ep k sk)); AStr b; AStr key; AStr tmp] Pending] ->
  Os.lookup tmp (proc s) = Some n -> is_dir n = false -> readable n = true ->
  removable (proc s) tmp ->
  s3_down (proc s) ep = false ->
  exists s2,
    wait s = (Ok tt, s2) /\
    s3_objects (proc s2) = <[(ep, b, key) := content n]> (s3_objects (proc s)) /\
    CLI_DICT (proc s2) = CLI_DICT (proc s) /\
    s3_down (proc s2) = s3_down (proc s) /\
    config (self s2) = config (self s).
Proof.
  intros Ham Hl Hex Hfl Hst Hn Hd Hr Hrm Hup.
  set (pr1 := set_s3_objects (insert (ep, b, key) (content n)) (proc s)).
  set (s1 := mkState (set__async_stack [] (self s)) pr1).
  assert (Hdrain : _sync_tasks s = (Ok tt, s1)).
  { pose proof (run_upload_task o ep k sk b key tmp n (proc s) Hn Hd Hr Hup) as Hrun.
    subst s1 pr1. destruct s as [m pr]. simpl in *.
    unfold _sync_tasks, asyncio_wait_all, bind, get, modify. simpl. rewrite Hst.
    rewrite liftP_run. cbn [proc self]. rewrite Hst. cbn [run_tasks]. unfold bind, ret.
    rewrite Hrun. reflexivity. }
  assert (Hex1 : _exception_list (self s1) = []) by exact Hex.
  rewrite (wait_without_record _ _ _ Ham Hl Hdrain Hex1).
  assert (Hrm1 : removable pr1 tmp) by exact Hrm.
  destruct (remove_removable pr1 tmp Hrm1) as (pr2 & Hdel & _ & Hpr2).
  unfold _del_tmp_folder, bind, get. simpl. rewrite Hfl. cbn [for_each].
  unfold bind. rewrite liftP_run. simpl. rewrite Hdel. simpl.
  eexists. split; [reflexivity|].
  destruct (rank_for_log pr2); destruct Hpr2 as [-> | ->]; repeat split.
Qed.

(** ** Asynchronous round trip *)

(** The resolver's context for a remote path does not depend on the
    process or the manager, up to the staging file name and the mode. *)
Lemma get_boto3_meta_indep fp tmp a pr m pr' tmp2 a2 pr2 :
  get_boto3_meta fp tmp a pr = (Ok m, pr') ->
  exists m2,
    get_boto3_meta fp tmp2 a2 pr2 = (Ok m2, pr2) /\
    bucket_name m2 = bucket_name m /\ endpoint m2 = endpoint m /\
    file_path m2 = file_path m /\ b_is_async m2 = a2.
Proof.
  unfold get_boto3_meta, get_tmp_file_name, assert, bind, get, ret, raise.
  destruct (PyStr.startswith "s3://" fp); [|discriminate].
  destruct (boto3_url_re_match _) as [[bucket host]|]; [|discriminate].
  intros [= <- <-]. eexists. split; [reflexivity|]. repeat split.
Qed.

Lemma split_max1_boto3 p : PyStr.split_max1 ":" ("boto3" +:+ String ":" p) = ["boto3"; p].
Proof. reflexivity. Qed.

(** Resolution of a remote path whose client is in the cache. *)
Lemma _get_client_boto3_cached s p mi c :
  get_boto3_meta p (tmp_local_folder (self s)) (async_mode (self s)) (proc s)
  = (Ok mi, proc s) ->
  CLI_DICT (proc s) !! ("boto3" +:+ ":" +:+ endpoint mi) = Some c ->
  exists s', _get_client ("boto3" +:+ String ":" p) s
             = (Ok (set_meta_client c (Boto3Meta mi)), s') /\ proc s' = proc s.
Proof.
  intros Hmi Hc. unfold _get_client. rewrite split_max1_boto3.
  change (String.eqb "boto3" "local") with false.
  change (String.eqb "boto3" "boto3") with true. cbv iota.
  unfold bind at 1. unfold get at 1.
  unfold bind at 1. rewrite liftP_run, Hmi. cbn [fst snd].
  destruct s as [m pr]. cbn [self proc] in *.
  assert (Hget : get_or_create ("boto3" +:+ ":" +:+ endpoint mi) "boto3"
                   (Some (endpoint mi)) pr = (Ok c, pr)).
  { unfold get_or_create, bind, get. simpl. simpl in Hc. rewrite Hc. reflexivity. }
  destruct (proxy_in_environ pr && negb (has_warning m))%bool;
    unfold bind, modify, ret, on_self; cbn [self proc]; rewrite liftP_run; cbn [self proc];
    rewrite Hget; eexists; split; reflexivity.
Qed.

Lemma _get_client_boto3_inv p s meta s' :
  _get_client ("boto3" +:+ String ":" p) s = (Ok meta, s') ->
  exists mi c,
    get_boto3_meta p (tmp_local_folder (self s)) (async_mode (self s)) (proc s)
    = (Ok mi, proc s) /\
    meta = set_meta_client c (Boto3Meta mi) /\
    get_or_create ("boto3" +:+ ":" +:+ endpoint mi) "boto3" (Some (endpoint mi)) (proc s)
    = (Ok c, proc s').
Proof.
  unfold _get_client. rewrite split_max1_boto3.
  change (String.eqb "boto3" "local") with false.
  change (String.eqb "boto3" "boto3") with true. cbv iota. intros H.
  apply bind_Ok in H as (s0 & s1 & Hg & H). injection Hg as <- <-.
  apply bind_Ok in H as (mi & s2 & Hmi & H).
  apply bind_Ok in H as (u & s3 & Hw & H).
  apply bind_Ok in H as (c & s4 & Hc & H).
  injection H as <- <-.
  apply liftP_Ok in Hmi as (p1 & Hmi & ->).
  assert (Hp3 : proc s3 = p1).
  { destruct (proxy_in_environ (proc s) && negb (has_warning (self s)))%bool;
      injection Hw as _ <-; reflexivity. }
  apply liftP_Ok in Hc as (p2 & Hc & ->). rewrite Hp3 in Hc. simpl in *.
  pose proof (get_boto3_meta_Ok _ _ _ _ _ _ Hmi) as (-> & _).
  exists mi, c. repeat split; assumption.
Qed.

(** The cache step touches nothing but the cache and the object counter. *)
Lemma get_or_create_fields k backend arg pr c pr' :
  get_or_create k backend arg pr = (Ok c, pr') ->
  fs pr' = fs pr /\ s3_down pr' = s3_down pr /\ s3_objects pr' = s3_objects pr /\
  now pr' = now pr /\ pid pr' = pid pr.
Proof.
  destruct (get_or_create_cases k backend arg pr)
    as [(c0 & Hk & ->)|[(_ & e & ->)|(Hk & c0 & Hoid & ->)]]; intros [= <- <-];
    repeat split.
Qed.

(** X20: asynchronous round trip through the facade.  On an asynchronous
    manager with nothing pending and a well-kinded cache, when the
    endpoint of the path is reachable and the staging file may be removed
    from its folder, an asynchronous [save] that returns followed by
    [load] of the same path gives the saved object back: [load] first
    drains the upload, then downloads under the same bucket, endpoint and
    key the upload used. *)
Theorem async_remote_save_then_load (s s1 : State) (p obj : string)
    (mi : Boto3MetaInfo) :
  cache_kinds (proc s) ->
  async_mode (self s) = true ->
  _async_stack (self s) = [] ->
  _to_be_del_files (self s) = [] ->
  _exception_list (self s) = [] ->
  (get_boto3_meta p (tmp_local_folder (self s)) true (proc s)).1 = Ok mi ->
  s3_down (proc s) (endpoint mi) = false ->
  match Os.lookup (OsPath.dirname (local_nvme_path mi)) (proc s) with
  | Some d => writable d = true
  | None => True
  end ->
  save ("boto3" +:+ String ":" p) (Some obj) None s = (Ok tt, s1) ->
  (load ("boto3" +:+ String ":" p) s1).1 = Ok obj.
Proof.
  intros Hkinds Ham Hst Hfl Hex Hmeta Hup Hpar Hsave.
  assert (Ha : default (async_mode (self s)) None = true) by exact Ham.
  destruct (save_async_inv _ _ _ _ _ Ha Hsave)
    as (p0 & mi0 & c & s' & n' & loop & pool & Hp & Hres & Hasync0 & Hn0 & Hloop & _
        & _ & _ & Hs1 & _).
  clear Hp p0 Hn0 Hsave Ha.
  pose proof (_get_client_resolve_frame ("boto3" +:+ String ":" p) s) as Hfr.
  rewrite Hres in Hfr.
  destruct Hfr as (Hex' & Hfl' & Hst' & _ & Hcfg & _ & Hfs' & _).
  cbn [fst snd] in Hex', Hfl', Hst', Hcfg, Hfs'.
  apply _get_client_boto3_inv in Hres as (mi1 & c1 & Hmi1 & Hmeta1 & Hc).
  rewrite Ham in Hmi1. rewrite Hmi1 in Hmeta. injection Hmeta as ->.
  simpl in Hmeta1. injection Hmeta1 as Has <- Hb He Hf Hnv.
  destruct (get_or_create_fields _ _ _ _ _ _ Hc) as (_ & Hdown' & _).
  pose proof (get_or_create_Ok _ _ _ _ _ _ Hc) as Hcached.
  destruct (get_or_create_boto3 _ _ _ _ Hkinds Hc) as (_ & o & k & sk & ->).
  unfold config in Hcfg. injection Hcfg as Ham' Hl' _ Htmp'.
  set (tmp := local_nvme_path mi) in *.
  set (filenode := Node false (torch_save (Some obj)) true true true).
  set (pr1 := set_fs (insert (Os.norm tmp) filenode)
                (set_fs (insert (Os.norm tmp) n') (proc s'))).
  assert (Hpr1 : proc s1 = pr1) by (rewrite Hs1, Hnv; reflexivity).
  assert (Ham1 : async_mode (self s1) = true) by (rewrite Hs1; simpl; congruence).
  assert (Hloop1 : _async_loop (self s1) = Some loop) by (rewrite Hs1; simpl; congruence).
  assert (Hex1 : _exception_list (self s1) = []) by (rewrite Hs1; simpl; congruence).
  assert (Hfl1 : _to_be_del_files (self s1) = [tmp]).
  { rewrite Hs1. simpl. rewrite Hfl', Hfl, Hnv. reflexivity. }
  assert (Hst1 : _async_stack (self s1)
                 = [mkFuture async_upload_fileobj
                      [AClient (Some (Boto3Client o (endpoint mi) k sk));
                       AStr (bucket_name mi); AStr (file_path mi); AStr tmp] Pending]).
  { rewrite Hs1. simpl. rewrite Hst', Hst, Hasync0, Ham, Hb, Hf, Hnv. reflexivity. }
  clear Hs1.
  assert (Hlook : Os.lookup tmp (proc s1) = Some filenode).
  { rewrite Hpr1. apply lookup_set_fs_insert. }
  assert (Hrm : removable (proc s1) tmp).
  { unfold removable. rewrite Hlook. split; [reflexivity|].
    rewrite Hpr1. unfold Os.lookup, pr1. simpl.
    destruct (decide (Os.norm tmp = Os.norm (OsPath.dirname tmp))) as [E|E].
    - rewrite <- E, lookup_insert_eq. reflexivity.
    - rewrite !lookup_insert_ne by exact E. rewrite Hfs'. exact Hpar. }
  assert (Hup1 : s3_down (proc s1) (endpoint mi) = false).
  { rewrite Hpr1. simpl. rewrite Hdown'. exact Hup. }
  destruct (wait_single_upload s1 loop o (endpoint mi) k sk (bucket_name mi) (file_path mi)
              tmp filenode Ham1 Hloop1 Hex1 Hfl1 Hst1 Hlook eq_refl eq_refl Hrm Hup1)
    as (s2 & Hwait & Hobj & Hcli & Hdown & Hcfg2).
  unfold config in Hcfg2. injection Hcfg2 as Ham2 _ _ Htmp2.
  destruct (get_boto3_meta_indep _ _ _ _ _ _ (tmp_local_folder (self s2))
              (async_mode (self s2)) (proc s2) Hmi1)
    as (mi2 & Hmi2 & Hb2 & He2 & Hf2 & Has2).
  destruct (_get_client_boto3_cached s2 p mi2 (Boto3Client o (endpoint mi) k sk) Hmi2)
    as (s3 & Hres3 & Hp3).
  { rewrite He2, Hcli, Hpr1. exact Hcached. }
  unfold load. rewrite (bind_Ok_intro _ _ _ _ _ Hwait).
  rewrite (bind_Ok_intro _ _ _ _ _ Hres3).
  rewrite liftP_run. simpl. rewrite Has2, Ham2, Ham1. simpl.
  unfold Boto3Client_load, try_except, bind, boto3_connection, S3.download_fileobj,
    S3.reach, bind, get, ret, raise. simpl.
  rewrite Hp3, Hdown, Hup1. simpl.
  rewrite Hobj, Hb2, Hf2, lookup_insert_eq. reflexivity.
Qed.

Lemma async_remote_save_then_load_witness :
  (load "boto3:s3://ckpt.10.0.0.1/run/a.pt"
     (save "boto3:s3://ckpt.10.0.0.1/run/a.pt" (Some "A") None (Scenario.ready true)).2).1
  = Ok "A".
Proof.
  apply (async_remote_save_then_load (Scenario.ready true) _
           "s3://ckpt.10.0.0.1/run/a.pt" "A"
           (mkBoto3Meta true None "ckpt" "http://10.0.0.1:80" "run/a.pt"
              async_upload_fileobj "/dev/shm/test/a.pt-Nov03_10-00-00-4242.tmpfile")).
  - apply cache_kinds_empty. vm_compute. reflexivity.
  - vm_compute. reflexivity.
  - vm_compute. reflexivity.
  - vm_compute. reflexivity.
  - vm_compute. reflexivity.
  - vm_compute. reflexivity.
  - vm_compute. reflexivity.
  - vm_compute. reflexivity.
  - vm_compute. reflexivity.
Defined.

(** ** The sweep of the temp folder and the constructor *)

#[global] Instance sweep_frame_preorder d : PreOrder (sweep_frame d).
Proof.
  split.
  - intros p. split; [intros k; left; reflexivity | repeat split].
  - intros p q r (Hpq & Hc1 & Hn1 & Hs1) (Hqr & Hc2 & Hn2 & Hs2).
    split; [|repeat split; congruence].
    intros k. destruct (Hpq k) as [E1|(E1 & n & f & Hn & Hd & Hf & Hk)];
      destruct (Hqr k) as [E2|(E2 & n2 & f2 & Hn' & Hd2 & Hf2 & Hk2)].
    + left. congruence.
    + right. split; [exact E2|]. exists n2, f2. repeat split; congruence.
    + right. split; [congruence|]. exists n, f. repeat split; assumption.
    + congruence.
Qed.

Lemma for_each_Ok {S A} (l : list A) (body : A -> M S unit) :
  (forall x s, exists s', body x s = (Ok tt, s')) ->
  forall s, exists s', for_each l body s = (Ok tt, s').
Proof.
  intros Hb. induction l as [|x l IH]; intros s; simpl.
  - eexists. reflexivity.
  - destruct (Hb x s) as [s1 H1]. destruct (IH s1) as [s2 H2].
    exists s2. unfold bind. rewrite H1. exact H2.
Qed.

(** One deletion of the sweep: it always returns, whatever [os.remove]
    raises. *)
Lemma sweep_remove_cases d filename pr :
  PyStr.endswith ".tmpfile" filename = true ->
  exists pr',
    try_except (Os.remove (OsPath.join d filename)) is_OSError (fun _ => ret tt) pr
    = (Ok tt, pr') /\ sweep_frame d pr pr'.
Proof.
  intros Hf. unfold try_except, Os.remove, bind, get, modify, raise, ret. simpl.
  assert (Hdel : forall n, Os.lookup (OsPath.join d filename) pr = Some n ->
                           is_dir n = false ->
                           sweep_frame d pr
                             (set_fs (delete (Os.norm (OsPath.join d filename))) pr)).
  { intros n Hn Hd. split; [|repeat split]. intros k. simpl.
    destruct (decide (k = Os.norm (OsPath.join d filename))) as [->|Hk].
    - right. split; [apply lookup_delete_eq|]. exists n, filename. repeat split; assumption.
    - left. apply lookup_delete_ne. congruence. }
  destruct (Os.lookup (OsPath.join d filename) pr) as [n|] eqn:Hn; simpl.
  - destruct (is_dir n) eqn:Hd; simpl.
    + eexists. split; [reflexivity | reflexivity].
    + destruct (Os.lookup (OsPath.dirname (OsPath.join d filename)) pr) as [dn|]; simpl.
      * destruct (writable dn); simpl; eexists; (split; [reflexivity|]);
          [eapply Hdel; eauto | reflexivity].
      * eexists. split; [reflexivity|]. eapply Hdel; eauto.
  - eexists. split; [reflexivity | reflexivity].
Qed.

Lemma listdir_state d pr : (Os.listdir d pr).2 = pr.
Proof.
  unfold Os.listdir, bind, get, raise, ret. simpl.
  destruct (Os.lookup d pr) as [n|]; [|reflexivity].
  destruct (negb (is_dir n)); [reflexivity|]. destruct (negb (readable n)); reflexivity.
Qed.

Lemma sweep_loop d names pr :
  exists pr',
    for_each names (fun filename =>
      if PyStr.endswith ".tmpfile" filename
      then try_except (Os.remove (OsPath.join d filename)) is_OSError (fun _ => ret tt)
      else ret tt) pr = (Ok tt, pr') /\ sweep_frame d pr pr'.
Proof.
  revert pr. induction names as [|f names IH]; intros pr; simpl.
  - eexists. split; reflexivity.
  - unfold bind. destruct (PyStr.endswith ".tmpfile" f) eqn:Hf.
    + destruct (sweep_remove_cases d f pr Hf) as (pr1 & -> & H1).
      destruct (IH pr1) as (pr2 & -> & H2). exists pr2. split; [reflexivity|].
      etransitivity; eassumption.
    + unfold ret at 1. destruct (IH pr) as (pr2 & -> & H2). eauto.
Qed.

Lemma try_delete_tmpfile_spec (tmp_dir : string) (pr : Proc) :
  (try_delete_tmpfile tmp_dir pr).1
  = match (Os.listdir tmp_dir pr).1 with Ok _ => Ok tt | Raise e => Raise e end /\
  sweep_frame tmp_dir pr (try_delete_tmpfile tmp_dir pr).2.
Proof.
  unfold try_delete_tmpfile, bind.
  pose proof (listdir_state tmp_dir pr) as Hst.
  destruct (Os.listdir tmp_dir pr) as [[names|e] pr0]; simpl in Hst; subst pr0.
  - destruct (sweep_loop tmp_dir names pr) as (pr' & -> & Hfr). split; [reflexivity|exact Hfr].
  - split; reflexivity.
Qed.

(** X21: [try_delete_tmpfile] fails only where [os.listdir] fails, with
    that exception; deletion errors never surface.  Every entry of the
    file system is left as it was, or was a non-directory at
    [os.path.join(tmp_dir, name)] for a [name] ending in [.tmpfile] and
    has been removed. *)
Theorem sweep_removes_only_tmpfiles (tmp_dir : string) (pr : Proc) :
  (try_delete_tmpfile tmp_dir pr).1
  = match (Os.listdir tmp_dir pr).1 with Ok _ => Ok tt | Raise e => Raise e end /\
  sweep_frame tmp_dir pr (try_delete_tmpfile tmp_dir pr).2.
Proof. exact (try_delete_tmpfile_spec tmp_dir pr). Qed.

Lemma check_tmp_folder_accessibility_Ok d pr pr' :
  check_tmp_folder_accessibility d pr = (Ok tt, pr') ->
  pr' = pr /\
  forall n, Os.lookup d pr = Some n -> writable n = true /\ readable n = true.
Proof.
  unfold check_tmp_folder_accessibility, Os.exists_, Os.access_W, Os.access_R,
    bind, gets, get, ret, raise. simpl.
  destruct (Os.lookup d pr) as [n|] eqn:Hn.
  - rewrite bool_decide_eq_true_2 by eauto. rewrite Hn.
    destruct (writable n) eqn:Hw, (readable n) eqn:Hr; simpl; intros [= <-];
      (split; [reflexivity|]); intros n0 [= <-]; split; assumption.
  - rewrite bool_decide_eq_false_2 by (intros [? ?]; discriminate).
    intros [= <-]. split; [reflexivity|]. intros n0 [=].
Qed.

Lemma listdir_Ok d pr names pr' :
  Os.listdir d pr = (Ok names, pr') ->
  exists n, Os.lookup d pr = Some n /\ is_dir n = true /\ readable n = true.
Proof.
  unfold Os.listdir, bind, get, raise, ret. simpl.
  destruct (Os.lookup d pr) as [n|]; [|discriminate].
  destruct (is_dir n) eqn:Hd; simpl; [|discriminate].
  destruct (readable n) eqn:Hr; simpl; [|discriminate].
  intros _. eauto.
Qed.

Lemma get_mount_point_free_size_state path pr : (get_mount_point_free_size path pr).2 = pr.
Proof.
  unfold get_mount_point_free_size, Os.exists_, bind, gets, get, ret. simpl.
  destruct (bool_decide _); [|reflexivity]. simpl.
  destruct (statvfs pr path). reflexivity.
Qed.

(** X22: a manager constructed for asynchronous saving has a usable
    staging folder.  When [__init__] with [enable_save] and [async_mode]
    returns, the temp folder exists, is a directory, and is readable and
    writable; the manager starts with empty lists, a zero counter, and
    its event loop and thread pool in place.  The number of workers is
    positive: [ThreadPoolExecutor] rejects any other with a [ValueError],
    which the embedding leaves out. *)
Theorem init_leaves_usable_tmp_folder (tmp_local_folder : string) (n_async_workers : nat)
    (pr pr' : Proc) (sm : StorageManager) :
  (0 < n_async_workers)%nat ->
  __init__ true tmp_local_folder true n_async_workers pr = (Ok sm, pr') ->
  (exists d, Os.lookup tmp_local_folder pr' = Some d /\
             is_dir d = true /\ readable d = true /\ writable d = true) /\
  sm = mkSM [] [] [] 0 tmp_local_folder true false
            (Some (next_oid pr)) (Some n_async_workers).
Proof.
  unfold __init__. cbn [andb]. intros _ H.
  apply bind_Ok in H as (loop & pr0 & Hloop & H).
  unfold fresh_oid, bind, get, modify, ret in Hloop. simpl in Hloop.
  injection Hloop as <- <-.
  apply bind_Ok in H as ([] & p1 & Hchk1 & H).
  apply bind_Ok in H as ([] & p2 & Hmk & H).
  apply bind_Ok in H as ([] & p3 & Hchk2 & H).
  apply bind_Ok in H as ([] & p4 & Hsweep & H).
  apply bind_Ok in H as (free & p5 & Hfree & H).
  pose proof (get_mount_point_free_size_state tmp_local_folder p4) as Hp5.
  rewrite Hfree in Hp5. simpl in Hp5. subst p5.
  destruct free as [q|]; [|discriminate H].
  destruct (Qltb q float_0_1); [discriminate H|].
  injection H as <- <-.
  split; [|reflexivity].
  apply check_tmp_folder_accessibility_Ok in Hchk2 as (-> & Hacc).
  destruct (try_delete_tmpfile_spec tmp_local_folder p2) as (Hres & Hfr & _).
  rewrite Hsweep in Hres, Hfr. simpl in Hres, Hfr.
  destruct (Os.listdir tmp_local_folder p2) as [[names|e] p2'] eqn:Hls;
    simpl in Hres; [|discriminate Hres].
  apply listdir_Ok in Hls as (d & Hd & Hdir & Hrd).
  destruct (Hacc d Hd) as (Hw & _).
  exists d. split; [|repeat split; assumption].
  unfold Os.lookup in *.
  destruct (Hfr (Os.norm tmp_local_folder)) as [E|(_ & n & f & Hn & Hnd & _)].
  - rewrite E. exact Hd.
  - rewrite Hd in Hn. injection Hn as <-. congruence.
Qed.

Lemma init_leaves_usable_tmp_folder_witness :
  (exists d, Os.lookup "/dev/shm/test/" (proc (Scenario.ready true)) = Some d /\
             is_dir d = true /\ readable d = true /\ writable d = true) /\
  self (Scenario.ready true)
  = mkSM [] [] [] 0 "/dev/shm/test/" true false
         (Some (next_oid (Scenario.proc0 Scenario.plenty true))) (Some 8%nat).
Proof.
  apply (init_leaves_usable_tmp_folder "/dev/shm/test/" 8
           (Scenario.proc0 Scenario.plenty true)).
  - lia.
  - vm_compute. reflexivity.
Defined.

Lemma bind_Raise_inv {S A B} (m : M S A) (k : A -> M S B) s e s' :
  bind m k s = (Raise e, s') ->
  m s = (Raise e, s') \/ exists a s1, m s = (Ok a, s1) /\ k a s1 = (Raise e, s').
Proof.
  unfold bind. destruct (m s) as [[a|e0] s1]; [eauto|]. intros [= <- <-]. left. reflexivity.
Qed.

Lemma check_tmp_folder_accessibility_Raise d pr e pr' :
  check_tmp_folder_accessibility d pr = (Raise e, pr') -> exn_class e = RuntimeError.
Proof.
  unfold check_tmp_folder_accessibility, Os.exists_, Os.access_W, Os.access_R,
    bind, gets, get, ret, raise. simpl.
  destruct (bool_decide _); [|discriminate].
  destruct (negb _); [|discriminate]. intros [= <- _]. reflexivity.
Qed.

Lemma makedirs_chmod_Raise d pr e pr' :
  try_except (Os.makedirs d ;;; Os.chmod_rwx d) (is_class FileExistsError)
             (fun _ => ret tt) pr = (Raise e, pr') ->
  is_OSError (exn_class e) = true.
Proof.
  unfold try_except, Os.makedirs, Os.chmod_rwx, bind, get, modify, ret, raise. simpl.
  destruct (Os.lookup d pr) as [n|] eqn:Hn.
  - destruct (is_dir n); simpl.
    + rewrite Hn. destruct (owned n); simpl; [discriminate|].
      intros [= <- _]. reflexivity.
    + discriminate.
  - rewrite lookup_set_fs_insert. simpl. discriminate.
Qed.

Lemma listdir_Raise d pr e pr' :
  Os.listdir d pr = (Raise e, pr') -> is_OSError (exn_class e) = true.
Proof.
  unfold Os.listdir, bind, get, raise, ret. simpl.
  destruct (Os.lookup d pr) as [n|]; [|intros [= <- _]; reflexivity].
  destruct (negb (is_dir n)); [intros [= <- _]; reflexivity|].
  destruct (negb (readable n)); [intros [= <- _]; reflexivity|discriminate].
Qed.

Lemma get_mount_point_free_size_cases path pr :
  (get_mount_point_free_size path pr).1 = Ok None /\ Os.lookup path pr = None \/
  exists q, (get_mount_point_free_size path pr).1 = Ok (Some q).
Proof.
  unfold get_mount_point_free_size, Os.exists_, bind, gets, get, ret. simpl.
  destruct (Os.lookup path pr) as [n|] eqn:Hn.
  - right. rewrite bool_decide_eq_true_2 by eauto. simpl.
    destruct (statvfs pr path). eauto.
  - left. rewrite bool_decide_eq_false_2 by (intros [? ?]; discriminate). split; reflexivity.
Qed.

(** X23: how construction can fail.  For a positive number of workers
    ([ThreadPoolExecutor] rejects any other with a [ValueError], which the
    embedding leaves out), whatever the other arguments and the process,
    an exception leaving [__init__] is a [RuntimeError] (folder
    not accessible, or too little free space) or an [OSError] of the file
    system calls.  In particular the comparison of the free size with
    [0.1] never meets the [None] that [get_mount_point_free_size] returns
    for a missing folder: by then the folder has been listed. *)
Theorem init_fails_with_RuntimeError_or_OSError (enable_save : bool)
    (tmp_local_folder : string) (async_mode : bool) (n_async_workers : nat)
    (pr pr' : Proc) (e : exn) :
  (0 < n_async_workers)%nat ->
  __init__ enable_save tmp_local_folder async_mode n_async_workers pr = (Raise e, pr') ->
  exn_class e = RuntimeError \/ is_OSError (exn_class e) = true.
Proof.
  intros _. unfold __init__. destruct (enable_save && async_mode)%bool; [|discriminate].
  intros H.
  apply bind_Raise_inv in H as [H|(loop & p0 & _ & H)].
  { unfold fresh_oid, bind, get, modify, ret in H. discriminate H. }
  apply bind_Raise_inv in H as [H|([] & p1 & _ & H)].
  { left. eapply check_tmp_folder_accessibility_Raise, H. }
  apply bind_Raise_inv in H as [H|([] & p2 & _ & H)].
  { right. eapply makedirs_chmod_Raise, H. }
  apply bind_Raise_inv in H as [H|([] & p3 & _ & H)].
  { left. eapply check_tmp_folder_accessibility_Raise, H. }
  apply bind_Raise_inv in H as [H|([] & p4 & Hsweep & H)].
  { right. destruct (try_delete_tmpfile_spec tmp_local_folder p3) as (Hres & _).
    rewrite H in Hres. simpl in Hres.
    destruct (Os.listdir tmp_local_folder p3) as [[names|e'] p3'] eqn:Hls;
      simpl in Hres; [discriminate Hres|].
    injection Hres as ->. eapply listdir_Raise, Hls. }
  apply bind_Raise_inv in H as [H|(free & p5 & Hfree & H)].
  { destruct (get_mount_point_free_size_cases tmp_local_folder p4) as [[Hn _]|[q Hq]];
      rewrite H in *; discriminate. }
  pose proof (get_mount_point_free_size_state tmp_local_folder p4) as Hp5.
  rewrite Hfree in Hp5. simpl in Hp5. subst p5.
  destruct free as [q|].
  - destruct (Qltb q float_0_1); [|discriminate H].
    unfold bind, get, raise in H. injection H as <- _. left. reflexivity.
  - exfalso.
    destruct (get_mount_point_free_size_cases tmp_local_folder p4) as [[_ Hnone]|[q Hq]];
      [|rewrite Hfree in Hq; discriminate Hq].
    destruct (try_delete_tmpfile_spec tmp_local_folder p3) as (Hres & Hfr & _).
    rewrite Hsweep in Hres, Hfr. simpl in Hres, Hfr.
    destruct (Os.listdir tmp_local_folder p3) as [[names|e'] p3'] eqn:Hls;
      simpl in Hres; [|discriminate Hres].
    apply listdir_Ok in Hls as (d & Hd & Hdir & _).
    unfold Os.lookup in *.
    destruct (Hfr (Os.norm tmp_local_folder)) as [E|(_ & n & f & Hn & Hnd & _)].
    + rewrite E, Hd in Hnone. discriminate Hnone.
    + rewrite Hd in Hn. injection Hn as <-. congruence.
Qed.

Lemma init_fails_with_RuntimeError_or_OSError_witness :
  exn_class (Exn RuntimeError "Insufficient temporary storage space on node1") = RuntimeError \/
  is_OSError (exn_class (Exn RuntimeError "Insufficient temporary storage space on node1"))
  = true.
Proof.
  apply (init_fails_with_RuntimeError_or_OSError true "/dev/shm/test/" true 8
           (Scenario.proc0 0 true)
           (__init__ true "/dev/shm/test/" true 8 (Scenario.proc0 0 true)).2).
  - lia.
  - vm_compute. reflexivity.
Defined.

(** ** Existence check on the remote store *)

Lemma matching_nonempty ep b prefix pr :
  S3.matching ep b prefix pr <> [] <->
  exists key data, s3_objects pr !! (ep, b, key) = Some data /\
                   PyStr.startswith prefix key = true.
Proof.
  unfold S3.matching. split.
  - intros Hne.
    destruct (omap _ (map_to_list (s3_objects pr))) as [|key l] eqn:Hl; [congruence|].
    assert (Hin : key ∈ key :: l) by (apply elem_of_cons; left; reflexivity).
    rewrite <- Hl in Hin. apply list_elem_of_omap in Hin as ([[[e b'] k'] data] & Hin & Hf).
    apply elem_of_map_to_list in Hin.
    destruct (bool_decide (e = ep)) eqn:He; [|discriminate Hf].
    destruct (bool_decide (b' = b)) eqn:Hb; [|discriminate Hf].
    destruct (PyStr.startswith prefix k') eqn:Hs; [|discriminate Hf].
    simpl in Hf. injection Hf as ->.
    apply bool_decide_eq_true_1 in He, Hb. subst. eauto.
  - intros (key & data & Hk & Hs) Hnil.
    assert (Hin : key ∈ omap
              (fun kv : string * string * string * string =>
                 let '(e, b0, k, _) := kv in
                 if (bool_decide (e = ep) && bool_decide (b0 = b)
                     && PyStr.startswith prefix k)%bool
                 then Some k else None) (map_to_list (s3_objects pr))).
    { apply list_elem_of_omap. exists (ep, b, key, data). split.
      - apply elem_of_map_to_list. exact Hk.
      - rewrite !bool_decide_eq_true_2 by reflexivity. rewrite Hs. reflexivity. }
    rewrite Hnil in Hin. apply elem_of_nil in Hin. exact Hin.
Qed.

(** X24: [Boto3Client.assert_fp_exists] never fails by its assertion.
    With the endpoint reachable it returns when some object of the bucket
    has a key starting with the prefix, and raises [KeyError('Contents')]
    when none has; with the endpoint unreachable the connection error
    surfaces as it is, not wrapped in a [RuntimeError].  The store is
    left as it was. *)
Theorem remote_assert_fp_exists_cases (o : nat) (ep k sk b fp nvme : string) (pr : Proc) :
  (s3_down pr ep = false ->
   (exists key data, s3_objects pr !! (ep, b, key) = Some data /\
                     PyStr.startswith fp key = true) ->
   Boto3Client_assert_fp_exists (Some (Boto3Client o ep k sk)) b fp nvme pr = (Ok tt, pr)) /\
  (s3_down pr ep = false ->
   (forall key data, s3_objects pr !! (ep, b, key) = Some data ->
                     PyStr.startswith fp key = false) ->
   Boto3Client_assert_fp_exists (Some (Boto3Client o ep k sk)) b fp nvme pr
   = (Raise (Exn KeyError "Contents"), pr)) /\
  (s3_down pr ep = true ->
   Boto3Client_assert_fp_exists (Some (Boto3Client o ep k sk)) b fp nvme pr
   = (Raise (Exn EndpointConnectionError ep), pr)).
Proof.
  unfold Boto3Client_assert_fp_exists, boto3_connection, S3.list_objects, S3.reach,
    bind, get, ret, raise, assert. simpl.
  split; [|split].
  - intros -> Hex. apply matching_nonempty in Hex.
    destruct (S3.matching ep b fp pr) as [|key l]; [congruence|]. reflexivity.
  - intros -> Hnone.
    destruct (S3.matching ep b fp pr) as [|key l] eqn:Hm; [reflexivity|].
    assert (Hne : S3.matching ep b fp pr <> []) by (rewrite Hm; discriminate).
    apply matching_nonempty in Hne as (key' & data & Hk & Hs).
    rewrite (Hnone _ _ Hk) in Hs. discriminate Hs.
  - intros ->. reflexivity.
Qed.

(** ** Queries, the counter and the module-level functions *)

(** The client methods that only read. *)
Lemma queries_readonly :
  (forall c args, respects readonly_frame (call_load c args)) /\
  (forall c args, respects readonly_frame (call_assert_fp_exists c args)) /\
  (forall c args, respects readonly_frame (call_get_fns c args)).
Proof.
  split_all; intros;
    unfold call_load, call_assert_fp_exists, call_get_fns, arity_error,
      Boto3Client_load, Boto3Client_assert_fp_exists, Boto3Client_get_fns,
      LocalClient_load, LocalClient_assert_fp_exists, LocalClient_get_fns,
      assert_LocalClient, boto3_connection, network_error,
      S3.paginate, S3.list_objects, S3.download_fileobj, S3.reach,
      Os.exists_, Os.listdir, Os.read_file;
    frame_proc.
Qed.

(** X25: listing and existence checks through the facade only read.
    Whatever the path and the state, and whether they return or raise,
    [get_fns] and [assert_fp_exists] leave the file system, the remote
    store, the tracked tasks and temp files, the exception list, the
    counter and the configuration as they were. *)
Theorem listing_and_checks_only_read (folder : string) (s : State) :
  resolve_frame s (get_fns folder s).2 /\
  resolve_frame s (assert_fp_exists folder s).2.
Proof.
  split.
  - revert s. change (respects resolve_frame (get_fns folder)). unfold get_fns.
    apply (respects_bind resolve_frame); [apply _get_client_resolve_frame|intros meta].
    apply (respects_liftP readonly_frame resolve_frame); [exact resolve_frame_proc|].
    apply queries_readonly.
  - revert s. change (respects resolve_frame (assert_fp_exists folder)).
    unfold assert_fp_exists.
    apply (respects_bind resolve_frame); [apply _get_client_resolve_frame|intros meta].
    apply (respects_liftP readonly_frame resolve_frame); [exact resolve_frame_proc|].
    apply queries_readonly.
Qed.

(** X26: the staging file is named after the last component of the path
    only (with the time and the process id).  Two asynchronous saves, one
    right after the other with the clock reading unchanged, to remote
    paths with the same last component use the same staging file: it is
    tracked twice and holds the object of the second save. *)
Theorem equal_file_names_share_a_staging_file (s s1 s2 : State) (p1 p2 : string)
    (obj1 obj2 : option string) :
  async_mode (self s) = true ->
  List.last (PyStr.split "/" p1) "" = List.last (PyStr.split "/" p2) "" ->
  save ("boto3" +:+ String ":" p1) obj1 None s = (Ok tt, s1) ->
  save ("boto3" +:+ String ":" p2) obj2 None s1 = (Ok tt, s2) ->
  exists tmp,
    _to_be_del_files (self s2) = _to_be_del_files (self s) ++ [tmp; tmp] /\
    Os.lookup tmp (proc s2) = Some (Node false (torch_save obj2) true true true).
Proof.
  intros Ham Hlast Hsave1 Hsave2.
  assert (Ha : default (async_mode (self s)) None = true) by exact Ham.
  destruct (save_async_inv _ _ _ _ _ Ha Hsave1)
    as (q1 & mi1 & c1 & s' & n1 & loop & pool & Hp1 & Hres1 & _ & Hn1 & _ & _ & _ & _
        & Hs1 & Hc1).
  simpl in Hp1. injection Hp1 as <-.
  pose proof (_get_client_resolve_frame ("boto3" +:+ String ":" p1) s) as Hfr1.
  rewrite Hres1 in Hfr1. destruct Hfr1 as (_ & Hfl1 & _ & _ & Hcfg1 & _).
  cbn [fst snd] in Hfl1, Hcfg1. unfold config in Hcfg1. injection Hcfg1 as Ham1 _ _ Htmp1.
  destruct (get_or_create_fields _ _ _ _ _ _ Hc1) as (_ & _ & _ & Hnow1 & Hpid1).
  assert (Ham' : async_mode (self s1) = true) by (rewrite Hs1; simpl; congruence).
  assert (Ha' : default (async_mode (self s1)) None = true) by exact Ham'.
  destruct (save_async_inv _ _ _ _ _ Ha' Hsave2)
    as (q2 & mi2 & c2 & s1' & n2 & loop2 & pool2 & Hp2 & Hres2 & _ & Hn2 & _ & _ & _ & _
        & Hs2 & _).
  simpl in Hp2. injection Hp2 as <-.
  pose proof (_get_client_resolve_frame ("boto3" +:+ String ":" p2) s1) as Hfr2.
  rewrite Hres2 in Hfr2. destruct Hfr2 as (_ & Hfl2 & _).
  cbn [fst snd] in Hfl2.
  assert (Hsame : local_nvme_path mi2 = local_nvme_path mi1).
  { rewrite Hn1, Hn2. unfold tmp_file_name. rewrite Hlast.
    rewrite Hs1. simpl. rewrite Htmp1, Hnow1, Hpid1. reflexivity. }
  exists (local_nvme_path mi1). split.
  - rewrite Hs2. simpl. rewrite Hfl2, Hs1. simpl. rewrite Hfl1, Hsame, <- app_assoc.
    reflexivity.
  - rewrite Hs2, Hsame. apply lookup_set_fs_insert.
Qed.

Lemma equal_file_names_share_a_staging_file_witness :
  exists tmp,
    _to_be_del_files
      (self (save "boto3:s3://ckpt.10.0.0.1/run2/model.pt" (Some "B") None
               (save "boto3:s3://ckpt.10.0.0.1/run1/model.pt" (Some "A") None
                  (Scenario.ready true)).2).2)
    = _to_be_del_files (self (Scenario.ready true)) ++ [tmp; tmp] /\
    Os.lookup tmp
      (proc (save "boto3:s3://ckpt.10.0.0.1/run2/model.pt" (Some "B") None
               (save "boto3:s3://ckpt.10.0.0.1/run1/model.pt" (Some "A") None
                  (Scenario.ready true)).2).2)
    = Some (Node false (torch_save (Some "B")) true true true).
Proof.
  apply (equal_file_names_share_a_staging_file (Scenario.ready true)
           (save "boto3:s3://ckpt.10.0.0.1/run1/model.pt" (Some "A") None
              (Scenario.ready true)).2
           _ "s3://ckpt.10.0.0.1/run1/model.pt" "s3://ckpt.10.0.0.1/run2/model.pt"
           (Some "A") (Some "B")).
  - vm_compute. reflexivity.
  - vm_compute. reflexivity.
  - vm_compute. reflexivity.
  - vm_compute. reflexivity.
Defined.

(** X27: a synchronous [save] counts once, and only when it returns.
    When the upload is not asynchronous (by the manager's mode or by the
    [async_upload] keyword), [save] tracks no task and no temp file and
    records no exception; it increments [upload_count] by one when it
    returns and leaves it as it was when it raises. *)
Theorem sync_save_counts_on_success (s : State) (path : string) (obj : option string)
    (a : option bool) :
  default (async_mode (self s)) a = false ->
  _async_stack (self (save path obj a s).2) = _async_stack (self s) /\
  _to_be_del_files (self (save path obj a s).2) = _to_be_del_files (self s) /\
  _exception_list (self (save path obj a s).2) = _exception_list (self s) /\
  upload_count (self (save path obj a s).2)
  = (upload_count (self s) + (if is_ok (save path obj a s).1 then 1 else 0))%Z.
Proof.
  intros Ha.
  destruct (save path obj a s) as [r s1] eqn:Hsave. cbn [fst snd].
  unfold save in Hsave.
  pose proof (_get_client_resolve_frame path s) as Hfr.
  unfold bind at 1 in Hsave.
  destruct (_get_client path s) as [[meta|e] s'] eqn:Hres; simpl in Hfr;
    destruct Hfr as (Hex & Hfl & Hst & Hcnt & Hcfg & _);
    unfold config in Hcfg; injection Hcfg as Ham _ _ _.
  - unfold bind, get in Hsave. simpl in Hsave. rewrite Ham, Ha in Hsave.
    rewrite liftP_run in Hsave.
    destruct (call_sync_upload_fileobj (meta_client meta) (unpack_meta meta) obj (proc s'))
      as [[[]|e] pr2]; simpl in Hsave; injection Hsave as <- <-; simpl;
      repeat split; try assumption; lia.
  - injection Hsave as <- <-. simpl. repeat split; try assumption. lia.
Qed.

Lemma sync_save_counts_on_success_witness :
  _async_stack
    (self (save "local:/tmp/ckpt/6" (Some "step6") None
             (mkState (self Scenario.sync_only) Scenario.local_proc)).2)
  = _async_stack (self (mkState (self Scenario.sync_only) Scenario.local_proc)) /\
  _to_be_del_files
    (self (save "local:/tmp/ckpt/6" (Some "step6") None
             (mkState (self Scenario.sync_only) Scenario.local_proc)).2)
  = _to_be_del_files (self (mkState (self Scenario.sync_only) Scenario.local_proc)) /\
  _exception_list
    (self (save "local:/tmp/ckpt/6" (Some "step6") None
             (mkState (self Scenario.sync_only) Scenario.local_proc)).2)
  = _exception_list (self (mkState (self Scenario.sync_only) Scenario.local_proc)) /\
  upload_count
    (self (save "local:/tmp/ckpt/6" (Some "step6") None
             (mkState (self Scenario.sync_only) Scenario.local_proc)).2)
  = (upload_count (self (mkState (self Scenario.sync_only) Scenario.local_proc))
     + (if is_ok (save "local:/tmp/ckpt/6" (Some "step6") None
                    (mkState (self Scenario.sync_only) Scenario.local_proc)).1
        then 1 else 0))%Z.
Proof.
  apply (sync_save_counts_on_success
           (mkState (self Scenario.sync_only) Scenario.local_proc)
           "local:/tmp/ckpt/6" (Some "step6") None).
  vm_compute. reflexivity.
Defined.

(** X28: the module-level functions act on the global manager and keep
    what it has done between calls.  With a synchronous manager
    installed, [llm_save] of an object to a local path followed by
    [llm_load] of the same path returns the object: provided the save
    returns and the file, where it existed before, was readable. *)
Theorem module_level_save_then_load (g g1 : Top.Global) (sm : StorageManager)
    (p obj : string) :
  Top.storage_manager g = Some sm ->
  cache_kinds (Top.gproc g) ->
  async_mode sm = false ->
  Top.llm_save ("local:" +:+ p) (Some obj) None g = (Ok tt, g1) ->
  (forall n, Os.lookup p (Top.gproc g) = Some n -> readable n = true) ->
  (Top.llm_load ("local:" +:+ p) g1).1 = Ok obj.
Proof.
  intros Hsm Hk Ham Hsave Hrd.
  unfold Top.llm_save, Top.on_manager in Hsave. rewrite Hsm in Hsave.
  destruct (save ("local:" +:+ p) (Some obj) None (mkState sm (Top.gproc g)))
    as [r s1] eqn:Hs. injection Hsave as -> <-.
  pose proof (facade_local_round_trip (mkState sm (Top.gproc g)) s1 p obj Hk Ham Hs Hrd)
    as Hload.
  unfold Top.llm_load, Top.on_manager. cbn [Top.storage_manager Top.gproc].
  destruct s1 as [sm1 pr1]. cbn [self proc].
  destruct (load ("local:" +:+ p) (mkState sm1 pr1)) as [r2 s2]. exact Hload.
Qed.

Lemma module_level_save_then_load_witness :
  (Top.llm_load ("local:" +:+ "/tmp/ckpt/6")
     (Top.llm_save ("local:" +:+ "/tmp/ckpt/6") (Some "step6") None
        (Top.mkGlobal (Some (self Scenario.sync_only)) Scenario.local_proc)).2).1
  = Ok "step6".
Proof.
  apply (module_level_save_then_load
           (Top.mkGlobal (Some (self Scenario.sync_only)) Scenario.local_proc) _
           (self Scenario.sync_only)).
  - reflexivity.
  - apply cache_kinds_empty. vm_compute. reflexivity.
  - vm_compute. reflexivity.
  - vm_compute. reflexivity.
  - intros n H. vm_compute in H. discriminate H.
Defined.

(** ** Upload failures and the exception list *)

#[global] Instance no_record_le_preorder : PreOrder no_record_le.
Proof. split; [intros s H; exact H | intros s t u H1 H2 H; apply H2, H1, H]. Qed.

Lemma respects_any_proc {A} (m : M Proc A) : respects (fun _ _ : Proc => True) m.
Proof. intros p. exact I. Qed.

Lemma no_record_liftP {A} (m : M Proc A) : respects no_record_le (liftP m).
Proof.
  apply (respects_liftP (fun _ _ : Proc => True) no_record_le);
    [intros sm p p' _ H; exact H | apply respects_any_proc].
Qed.

Lemma _get_client_no_record path : respects no_record_le (_get_client path).
Proof.
  intros s H. destruct (_get_client_resolve_frame path s) as (Hex & _). congruence.
Qed.

Lemma _sync_tasks_no_record : respects no_record_le _sync_tasks.
Proof.
  intros s H. destruct (_sync_tasks_drain_frame s) as (_ & _ & Hex & _). congruence.
Qed.

Lemma _del_tmp_folder_no_record : respects no_record_le _del_tmp_folder.
Proof. intros s H. rewrite (_del_tmp_folder_self s). exact H. Qed.

Ltac frame_no_record :=
  repeat first
    [ frame_step
    | apply no_record_liftP
    | apply _get_client_no_record
    | apply _sync_tasks_no_record
    | apply _del_tmp_folder_no_record
    | lazymatch goal with
      | |- no_record_le ?s (on_self _ ?s) => intros ?; simpl; first [assumption|reflexivity]
      end ].


Lemma wait_no_record : respects no_record_le wait.
Proof.
  unfold wait, getattr__async_loop, py_list_getitem. frame_no_record.
Qed.

Lemma exec_no_record c : respects no_record_le (fun s => (Ok tt, exec c s)).
Proof.
  intros s. cbn [snd].
  destruct c; cbn [exec].
  - revert s. change (respects no_record_le (save save_path saved_obj async_upload)).
    unfold save, async_executor, getattr__async_loop, getattr__thread_pool.
    frame_no_record.
  - revert s. change (respects no_record_le (load load_path)).
    unfold load. frame_no_record. apply wait_no_record.
  - apply wait_no_record.
  - revert s. change (respects no_record_le (get_fns folder)).
    unfold get_fns. frame_no_record.
  - revert s. change (respects no_record_le (assert_fp_exists folder)).
    unfold assert_fp_exists. frame_no_record.
  - revert s. change (respects no_record_le (delete_obj fp)).
    unfold delete_obj. frame_no_record.
Qed.

Lemma steps_no_record s s' : steps s s' -> no_record_le s s'.
Proof.
  induction 1 as [s|s t u Hst _ IH]; [reflexivity|].
  etransitivity; [|exact IH].
  destruct Hst as [c s0|s0 pr' _ _].
  - apply (exec_no_record c s0).
  - intros H. exact H.
Qed.

Lemma for_each_sync_Raise l s e s' :
  for_each l sync_one_task s = (Raise e, s') -> exn_class e = CancelledError.
Proof.
  revert s. induction l as [|t l IH]; intros s; [discriminate|].
  simpl. unfold bind.
  pose proof (sync_one_task_result t s) as Hr.
  pose proof (sync_one_task_state t s) as Hs.
  destruct (sync_one_task t s) as [[[]|e0] s1]; simpl in *; subst s1.
  - apply IH.
  - intros [= <- _]. destruct (fut_state t); try discriminate Hr.
    injection Hr as ->. reflexivity.
Qed.

Lemma _sync_tasks_Raise s e s1 :
  _sync_tasks s = (Raise e, s1) -> exn_class e = CancelledError.
Proof.
  unfold _sync_tasks, bind, get, modify. simpl.
  destruct (_async_stack (self s)); [discriminate|].
  destruct (asyncio_wait_all_returns s) as (l' & pr' & -> & _). simpl.
  destruct (for_each l' sync_one_task _) as [[[]|e0] s3] eqn:Hfe; [discriminate|].
  intros [= <- _]. eapply for_each_sync_Raise, Hfe.
Qed.

Lemma del_tmp_loop_Raise files s e s' :
  for_each files (fun fp =>
    liftP (try_except (Os.remove fp)
                      (fun c => is_class FileNotFoundError c || is_class SystemError c)
                      (fun _ => ret tt))) s = (Raise e, s') ->
  is_OSError (exn_class e) = true.
Proof.
  revert s. induction files as [|fp files IH]; intros s; [discriminate|].
  simpl. unfold bind at 1. rewrite liftP_run.
  destruct (try_except (Os.remove fp) _ _ (proc s)) as [[[]|e0] pr1] eqn:Hrm; simpl.
  - apply IH.
  - intros [= <- _].
    unfold try_except, Os.remove, bind, get, modify, raise, ret in Hrm. simpl in Hrm.
    destruct (Os.lookup fp (proc s)) as [n|]; [|discriminate Hrm].
    destruct (is_dir n); [injection Hrm as <- _; reflexivity|].
    destruct (Os.lookup (OsPath.dirname fp) (proc s)) as [d|]; [|discriminate Hrm].
    destruct (writable d); [discriminate Hrm|]. injection Hrm as <- _. reflexivity.
Qed.

(** What [wait] can raise on a manager without Exception Records. *)
Lemma wait_Raise_classes s e s1 :
  _exception_list (self s) = [] ->
  wait s = (Raise e, s1) ->
  exn_class e = AttributeError \/ exn_class e = CancelledError \/
  is_OSError (exn_class e) = true.
Proof.
  intros Hex Hw.
  destruct (async_mode (self s)) eqn:Ham;
    [|rewrite wait_sync_mode in Hw by assumption; discriminate].
  destruct (_async_loop (self s)) as [loop|] eqn:Hloop;
    [|rewrite wait_no_loop in Hw by assumption; injection Hw as <- _; left; reflexivity].
  pose proof (_sync_tasks_no_record s Hex) as Hex1.
  destruct (_sync_tasks s) as [[[]|e0] s2] eqn:Hd.
  - simpl in Hex1. rewrite (wait_without_record _ _ _ Ham Hloop Hd Hex1) in Hw.
    destruct (_del_tmp_folder s2) as [[[]|e1] s3] eqn:Hdel; [discriminate Hw|].
    injection Hw as <- _. right. right.
    unfold _del_tmp_folder, bind, get in Hdel. simpl in Hdel.
    eapply del_tmp_loop_Raise, Hdel.
  - rewrite (wait_drain_raises _ _ _ _ Ham Hloop Hd) in Hw. injection Hw as <- _.
    right. left. eapply _sync_tasks_Raise, Hd.
Qed.

(** X29: upload failures never surface.  From a manager without
    Exception Records, whatever is called and however the world changes in
    between, no state has an Exception Record; so [wait] never raises the
    [RuntimeError] that reports a failed upload: when it raises, the
    exception is an [AttributeError] (no scheduler), a [CancelledError]
    or an [OSError] from deleting a temp file. *)
Theorem upload_failures_never_surface (s0 s : State) :
  _exception_list (self s0) = [] ->
  steps s0 s ->
  _exception_list (self s) = [] /\
  forall e s1, wait s = (Raise e, s1) ->
    exn_class e <> RuntimeError /\
    (exn_class e = AttributeError \/ exn_class e = CancelledError \/
     is_OSError (exn_class e) = true).
Proof.
  intros H0 Hs. pose proof (steps_no_record _ _ Hs H0) as Hex.
  split; [exact Hex|]. intros e s1 Hw.
  pose proof (wait_Raise_classes _ _ _ Hex Hw) as Hc. split; [|exact Hc].
  destruct Hc as [Hc|[Hc|Hc]]; intros Hr; rewrite Hr in Hc; discriminate Hc.
Qed.

Lemma upload_failures_never_surface_witness :
  _exception_list (self (Scenario.two_saves true)) = [] /\
  forall e s1, wait (Scenario.two_saves true) = (Raise e, s1) ->
    exn_class e <> RuntimeError /\
    (exn_class e = AttributeError \/ exn_class e = CancelledError \/
     is_OSError (exn_class e) = true).
Proof.
  apply (upload_failures_never_surface
           (mkState (self (Scenario.ready true)) (proc (Scenario.ready true)))
           (Scenario.two_saves true)).
  - vm_compute. reflexivity.
  - unfold Scenario.two_saves.
    eapply rtc_l; [apply step_call|]. eapply rtc_l; [apply step_call|]. apply rtc_refl.
Defined.

(** ** Synchronous round trip on the remote store *)

Lemma wait_idle (s : State) (loop : nat) :
  async_mode (self s) = true ->
  _async_loop (self s) = Some loop ->
  _async_stack (self s) = [] ->
  _to_be_del_files (self s) = [] ->
  _exception_list (self s) = [] ->
  exists s2, wait s = (Ok tt, s2) /\ proc s2 = proc s /\ config (self s2) = config (self s).
Proof.
  intros Ham Hl Hst Hf He.
  assert (Hd : _sync_tasks s = (Ok tt, s)).
  { unfold _sync_tasks, bind, get. simpl. rewrite Hst. reflexivity. }
  rewrite (wait_without_record _ _ _ Ham Hl Hd He).
  unfold _del_tmp_folder, bind, get. simpl. rewrite Hf. simpl.
  eexists. split; [reflexivity|]. destruct (rank_for_log (proc s)); split; reflexivity.
Qed.

(** A synchronous upload that returns has reached the endpoint and stored
    the object under the bucket and key. *)
Lemma Boto3Client_sync_upload_Ok o ep k sk b key nvme obj pr pr' :
  Boto3Client_sync_upload_fileobj (Some (Boto3Client o ep k sk)) b key nvme (Some obj) pr
  = (Ok tt, pr') ->
  s3_down pr ep = false /\ pr' = set_s3_objects (insert (ep, b, key) obj) pr.
Proof.
  unfold Boto3Client_sync_upload_fileobj, try_except, boto3_connection, S3.upload_fileobj,
    S3.reach, network_error, assert, bind, get, modify, ret, raise. simpl.
  destruct (s3_down pr ep); simpl; [discriminate|].
  intros [= <-]. split; reflexivity.
Qed.

(** X30: synchronous round trip on the remote store.  On an asynchronous
    manager with its scheduler and nothing pending, a [save] to a remote
    path with [async_upload=False] that returns, followed by [load] of the
    same path, gives the saved object back. *)
Theorem remote_sync_save_then_load (s s1 : State) (p obj : string) (loop : nat) :
  cache_kinds (proc s) ->
  async_mode (self s) = true ->
  _async_loop (self s) = Some loop ->
  _async_stack (self s) = [] ->
  _to_be_del_files (self s) = [] ->
  _exception_list (self s) = [] ->
  save ("boto3" +:+ String ":" p) (Some obj) (Some false) s = (Ok tt, s1) ->
  (load ("boto3" +:+ String ":" p) s1).1 = Ok obj.
Proof.
  intros Hkinds Ham Hloop Hst Hfl Hex Hsave.
  unfold save in Hsave. apply bind_Ok in Hsave as (meta & s' & Hres & Hsave).
  pose proof (_get_client_resolve_frame ("boto3" +:+ String ":" p) s) as Hfr.
  rewrite Hres in Hfr.
  destruct Hfr as (Hex' & Hfl' & Hst' & _ & Hcfg & _).
  cbn [fst snd] in Hex', Hfl', Hst', Hcfg.
  unfold config in Hcfg. injection Hcfg as Ham' Hl' _ _.
  apply _get_client_boto3_inv in Hres as (mi & c & Hmi & -> & Hc).
  pose proof (get_boto3_meta_Ok _ _ _ _ _ _ Hmi) as (_ & Has & _).
  pose proof (get_or_create_Ok _ _ _ _ _ _ Hc) as Hcached.
  destruct (get_or_create_boto3 _ _ _ _ Hkinds Hc) as (_ & o & k & sk & ->).
  unfold bind, get in Hsave. simpl in Hsave. rewrite Has, Ham in Hsave.
  rewrite liftP_run in Hsave. simpl in Hsave.
  destruct (Boto3Client_sync_upload_fileobj _ _ _ _ _ (proc s')) as [[[]|e] pr2] eqn:Hup;
    simpl in Hsave; [|discriminate Hsave].
  injection Hsave as <-.
  apply Boto3Client_sync_upload_Ok in Hup as (Hdown & ->).
  set (s1 := on_self _ _).
  destruct (wait_idle s1 loop) as (s2 & Hwait & Hp2 & Hcfg2);
    try (subst s1; simpl; congruence).
  unfold config in Hcfg2. injection Hcfg2 as Ham2 _ _ _.
  destruct (get_boto3_meta_indep _ _ _ _ _ _ (tmp_local_folder (self s2))
              (async_mode (self s2)) (proc s2) Hmi)
    as (mi2 & Hmi2 & Hb2 & He2 & Hf2 & Has2).
  destruct (_get_client_boto3_cached s2 p mi2 (Boto3Client o (endpoint mi) k sk) Hmi2)
    as (s3 & Hres3 & Hp3).
  { rewrite He2, Hp2. subst s1. simpl. exact Hcached. }
  unfold load. rewrite (bind_Ok_intro _ _ _ _ _ Hwait).
  rewrite (bind_Ok_intro _ _ _ _ _ Hres3).
  rewrite liftP_run. simpl. rewrite Has2, Ham2. subst s1. simpl. rewrite Ham', Ham. simpl.
  unfold Boto3Client_load, try_except, bind, boto3_connection, S3.download_fileobj,
    S3.reach, bind, get, ret, raise. simpl.
  rewrite Hp3, Hp2. simpl. rewrite Hdown. simpl.
  rewrite Hb2, Hf2, lookup_insert_eq. reflexivity.
Qed.

Lemma remote_sync_save_then_load_witness :
  (load "boto3:s3://ckpt.10.0.0.1/run/a.pt"
     (save "boto3:s3://ckpt.10.0.0.1/run/a.pt" (Some "A") (Some false)
        (Scenario.ready true)).2).1
  = Ok "A".
Proof.
  apply (remote_sync_save_then_load (Scenario.ready true) _
           "s3://ckpt.10.0.0.1/run/a.pt" "A" 0).
  - apply cache_kinds_empty. vm_compute. reflexivity.
  - vm_compute. reflexivity.
  - vm_compute. reflexivity.
  - vm_compute. reflexivity.
  - vm_compute. reflexivity.
  - vm_compute. reflexivity.
  - vm_compute. reflexivity.
Defined.

